(** * ComfyUI MCP server: a shallow embedding of [server.py] and
      [image_host.py]

    The development follows the two source files top to bottom:

    - Python values as they come out of [json.load] and [yaml.safe_load],
      with the container operations the code uses ([x in d], [d[k]],
      [d[k] = v], [d.get(k, default)], iteration, truthiness);
    - Python exceptions and a state-and-exception monad in which the
      state survives a raised exception (what was mutated stays mutated);
    - the module-level start-up code (environment variables, the two
      workflow files, the default aspect-ratio table);
    - [make_random_seed], [comfyui_generate_image] and [handle_call_tool];
    - small concrete worlds ([Demo], [Cases]) to run the model in;
    - the image host: the listing with its pages and pagination bar, the
      escaping of names, and the two file routes ([ImageHost]);
    - the properties: the file-name sanitizer, the aspect-ratio resolver,
      the seeds, the completion poller, what a call does to the shared
      template, what the handler returns when something fails, and what
      the gallery shows.

    Conventions.  A Python [str] is a Rocq [string], one [ascii] per
    character (code points below 256).  Dictionaries are association
    lists in insertion order with unique [str] keys, as the JSON and YAML
    loaders build them for the files this server reads.  The engine, the
    file system, the clock and the random source are oracles collected in
    the record [world]; the counters that index them live in the state.
    One call runs from its first step to its last; where the order of
    the steps of two calls matters, the steps are composed in that
    order. *)

From Stdlib Require Import ZArith List String Ascii Bool Lia DecimalString.
From Stdlib Require Import Permutation Sorted.
Import ListNotations.
Local Open Scope string_scope.
Local Open Scope Z_scope.
Set Warnings "-register-all".

(** ** Python values *)

Inductive value : Type :=
| VNone
| VBool (b : bool)
| VInt (z : Z)
| VFloat (m e : Z)                       (* the double m * 2^e *)
| VStr (s : string)
| VList (l : list value)
| VDict (kvs : list (string * value)).

Definition bytes := list Byte.byte.

(** *** Dictionaries in insertion order *)

Section Dict.
Context {V : Type}.

Fixpoint dict_lookup (k : string) (d : list (string * V)) : option V :=
  match d with
  | [] => None
  | (k', v) :: d' => if String.eqb k k' then Some v else dict_lookup k d'
  end.

Definition dict_mem (k : string) (d : list (string * V)) : bool :=
  match dict_lookup k d with Some _ => true | None => false end.

(* d[k] = v: an existing key keeps its position, a new key goes last *)
Fixpoint dict_set (k : string) (v : V) (d : list (string * V))
  : list (string * V) :=
  match d with
  | [] => [(k, v)]
  | (k', v') :: d' =>
      if String.eqb k k' then (k', v) :: d' else (k', v') :: dict_set k v d'
  end.

Definition dict_keys (d : list (string * V)) : list string := map fst d.
End Dict.

(** *** Truthiness and equality *)

Definition truthy (v : value) : bool :=
  match v with
  | VNone => false
  | VBool b => b
  | VInt z => negb (z =? 0)
  | VFloat m _ => negb (m =? 0)
  | VStr s => negb (String.eqb s "")
  | VList l => match l with [] => false | _ => true end
  | VDict d => match d with [] => false | _ => true end
  end.

(* numbers compare by value across bool, int and float *)
Definition num_eqb (m1 e1 m2 e2 : Z) : bool :=
  let e := Z.min e1 e2 in
  (m1 * 2 ^ (e1 - e) =? m2 * 2 ^ (e2 - e)).

Definition as_number (v : value) : option (Z * Z) :=
  match v with
  | VBool b => Some (if b then 1 else 0, 0)
  | VInt z => Some (z, 0)
  | VFloat m e => Some (m, e)
  | _ => None
  end.

(* Python's == on loaded values; dictionaries compare regardless of order *)
Fixpoint value_eqb (a b : value) {struct a} : bool :=
  match a with
  | VNone => match b with VNone => true | _ => false end
  | VBool x =>
      match as_number b with
      | Some (m, e) => num_eqb (if x then 1 else 0) 0 m e
      | None => false
      end
  | VInt z =>
      match as_number b with Some (m, e) => num_eqb z 0 m e | None => false end
  | VFloat m1 e1 =>
      match as_number b with Some (m, e) => num_eqb m1 e1 m e | None => false end
  | VStr s => match b with VStr t => String.eqb s t | _ => false end
  | VList l1 =>
      match b with
      | VList l2 =>
          (fix go (xs ys : list value) {struct xs} : bool :=
             match xs, ys with
             | [], [] => true
             | x :: xs', y :: ys' => value_eqb x y && go xs' ys'
             | _, _ => false
             end) l1 l2
      | _ => false
      end
  | VDict d1 =>
      match b with
      | VDict d2 =>
          (List.length d1 =? List.length d2)%nat &&
          (fix go (xs : list (string * value)) {struct xs} : bool :=
             match xs with
             | [] => true
             | (k, v) :: xs' =>
                 match dict_lookup k d2 with
                 | Some v' => value_eqb v v' && go xs'
                 | None => false
                 end
             end) d1
      | _ => false
      end
  end.

(** *** Small string helpers *)

Fixpoint is_prefix (p s : string) : bool :=
  match p with
  | EmptyString => true
  | String c p' =>
      match s with
      | EmptyString => false
      | String d s' => Ascii.eqb c d && is_prefix p' s'
      end
  end.

Fixpoint is_substring (p s : string) : bool :=
  is_prefix p s ||
  match s with
  | EmptyString => false
  | String _ s' => is_substring p s'
  end.

Fixpoint drop (n : nat) (s : string) : string :=
  match n with
  | O => s
  | S n' => match s with EmptyString => EmptyString | String _ s' => drop n' s' end
  end.

(* str.replace(old, new) for a non-empty [old]: leftmost matches, left to
   right, without overlap.  [fuel] bounds the scan by the length. *)
Fixpoint replace_from (fuel : nat) (old new s : string) : string :=
  match fuel with
  | O => s
  | S fuel' =>
      match s with
      | EmptyString => EmptyString
      | String c s' =>
          if is_prefix old s
          then new ++ replace_from fuel' old new (drop (String.length old) s)
          else String c (replace_from fuel' old new s')
      end
  end.

Definition str_replace (old new s : string) : string :=
  replace_from (String.length s) old new s.

Fixpoint ends_with_slash (s : string) : bool :=
  match s with
  | EmptyString => false
  | String c EmptyString => Ascii.eqb c "/"
  | String _ s' => ends_with_slash s'
  end.

(* os.path.join(a, b) on POSIX *)
Definition path_join (a b : string) : string :=
  if is_prefix "/" b then b
  else if String.eqb a "" || ends_with_slash a then a ++ b
  else a ++ "/" ++ b.

(* os.path.dirname(p) on POSIX: cut after the last slash, then strip the
   trailing slashes of the head unless the head is made of slashes only *)
Fixpoint last_slash (s : string) (i : nat) (acc : option nat) : option nat :=
  match s with
  | EmptyString => acc
  | String c s' =>
      last_slash s' (S i) (if Ascii.eqb c "/" then Some (S i) else acc)
  end.

Fixpoint all_slashes (s : string) : bool :=
  match s with
  | EmptyString => true
  | String c s' => Ascii.eqb c "/" && all_slashes s'
  end.

Fixpoint rstrip_slash (s : string) : string :=
  match s with
  | EmptyString => EmptyString
  | String c s' => if all_slashes s then EmptyString else String c (rstrip_slash s')
  end.

Definition dirname (p : string) : string :=
  match last_slash p 0 None with
  | None => ""
  | Some i =>
      let head := substring 0 i p in
      if all_slashes head then head else rstrip_slash head
  end.

(** ** Exceptions and outcomes *)

(** Every class below derives from [Exception]; [OSError] stands for the
    whole family the network, the disk and the image decoder raise
    ([URLError], [HTTPError], [FileNotFoundError], [UnidentifiedImageError]). *)
Inductive exn : Type :=
| KeyError (key : value)
| TypeError (msg : string)
| ValueError (msg : string)
| IndexError (msg : string)
| AttributeError (msg : string)
| OSError (msg : string).

(** What a pure operation or a call to the outside gives back. *)
Inductive result (A : Type) : Type :=
| Ok (a : A)
| Err (e : exn).
Arguments Ok {A} a.
Arguments Err {A} e.

Definition rbind {A B} (r : result A) (f : A -> result B) : result B :=
  match r with
  | Ok a => f a
  | Err e => Err e
  end.

(** What running a piece of the program gives: [Running] is a loop that
    has not finished within the fuel it was given. *)
Inductive outcome (A : Type) : Type :=
| Return (a : A)
| Raise (e : exn)
| Running.
Arguments Return {A} a.
Arguments Raise {A} e.
Arguments Running {A}.

(** *** Container operations *)

Definition hashable (v : value) : bool :=
  match v with VList _ | VDict _ => false | _ => true end.

Definition unhashable : exn := TypeError "unhashable type".

(* l[i] with Python's negative indices *)
Definition list_index {A} (l : list A) (i : Z) : option A :=
  let n := Z.of_nat (List.length l) in
  if (0 <=? i) && (i <? n) then nth_error l (Z.to_nat i)
  else if (- n <=? i) && (i <? 0) then nth_error l (Z.to_nat (n + i))
  else None.

Definition chars (s : string) : list value :=
  map (fun c => VStr (String c EmptyString)) (list_ascii_of_string s).

Definition as_index (k : value) : option Z :=
  match k with
  | VInt i => Some i
  | VBool b => Some (if b then 1 else 0)
  | _ => None
  end.

(* c[k] *)
Definition py_getitem (c k : value) : result value :=
  match c with
  | VDict d =>
      match k with
      | VStr s =>
          match dict_lookup s d with
          | Some v => Ok v
          | None => Err (KeyError k)
          end
      | VList _ | VDict _ => Err unhashable
      | _ => Err (KeyError k)
      end
  | VList l =>
      match as_index k with
      | Some i =>
          match list_index l i with
          | Some v => Ok v
          | None => Err (IndexError "list index out of range")
          end
      | None => Err (TypeError "list indices must be integers or slices")
      end
  | VStr s =>
      match as_index k with
      | Some i =>
          match list_index (chars s) i with
          | Some v => Ok v
          | None => Err (IndexError "string index out of range")
          end
      | None => Err (TypeError "string indices must be integers")
      end
  | _ => Err (TypeError "object is not subscriptable")
  end.

(* c[k] = v, for the constant keys the code assigns to *)
Definition py_setitem (c : value) (k : string) (v : value) : result value :=
  match c with
  | VDict d => Ok (VDict (dict_set k v d))
  | VList _ => Err (TypeError "list indices must be integers or slices")
  | _ => Err (TypeError "object does not support item assignment")
  end.

(* k in c *)
Definition py_contains (k c : value) : result bool :=
  match c with
  | VDict d =>
      match k with
      | VStr s => Ok (dict_mem s d)
      | VList _ | VDict _ => Err unhashable
      | _ => Ok false
      end
  | VList l => Ok (existsb (value_eqb k) l)
  | VStr s =>
      match k with
      | VStr p => Ok (is_substring p s)
      | _ => Err (TypeError "'in <string>' requires string as left operand")
      end
  | _ => Err (TypeError "argument is not iterable")
  end.

(* the items a [for] loop visits *)
Definition py_iter (c : value) : result (list value) :=
  match c with
  | VDict d => Ok (map VStr (dict_keys d))
  | VList l => Ok l
  | VStr s => Ok (chars s)
  | _ => Err (TypeError "object is not iterable")
  end.

(* c.get(k, default) *)
Definition py_get (c : value) (k : value) (default : value) : result value :=
  match c with
  | VDict d =>
      match k with
      | VStr s =>
          match dict_lookup s d with
          | Some v => Ok v
          | None => Ok default
          end
      | VList _ | VDict _ => Err unhashable
      | _ => Ok default
      end
  | _ => Err (AttributeError "object has no attribute 'get'")
  end.

(* a, b = c *)
Definition py_unpack2 (c : value) : result (value * value) :=
  rbind (py_iter c) (fun l =>
    match l with
    | [a; b] => Ok (a, b)
    | _ :: _ :: _ :: _ => Err (ValueError "too many values to unpack (expected 2)")
    | _ => Err (ValueError "not enough values to unpack (expected 2)")
    end).

(** ** The world outside the process *)

Inductive image : Type := Image (data : bytes).

Inductive file : Type :=
| PngFile (img : image)
| TextFile (content : string).

(** Oracles.  The HTTP ones are indexed by the number of requests the
    process has made so far, the clock by the number of reads, the random
    source by the number of draws.  The [_error] fields say whether an
    operation on the disk or in the decoder fails, and with what. *)
Record world : Type := {
  getenv : string -> option string;         (* os.getenv after load_dotenv *)
  getcwd : string;
  json_load : string -> result value;      (* open(path) + json.load *)
  yaml_safe_load : string -> result value; (* open(path) + yaml.safe_load *)
  uuid4_int : nat -> Z;                     (* uuid.uuid4().int, 128 bits *)
  uuid_str : Z -> string;                   (* str(uuid) *)
  repr : value -> string;                   (* repr(v) *)
  post_prompt : nat -> value -> result value;   (* POST /prompt, parsed *)
  get_history_response : nat -> value -> result value; (* GET /history/id *)
  get_view : nat -> value -> result bytes;      (* GET /view?..., raw *)
  strftime_now : nat -> string;             (* now().strftime(...) *)
  image_open_error : bytes -> option exn;
  makedirs_error : string -> option exn;
  image_save_error : string -> option exn;
  open_write_error : string -> option exn;   (* open(path, 'w') *)
  write_error : string -> string -> option exn (* f.write(text) on path *)
}.

(** The module's global names that never change after start-up. *)
Record settings : Type := {
  comfyui_host : string;
  comfyui_port : string;
  output_dir : string;
  image_app_base_url : string;
  comfyui_workflow_name : string;
  working_dir : string
}.

(** The mutable part.  [workflow_data] and [config_data] are the two
    objects stored under [comfyui_workflow[workflow_key]] and
    [comfyui_workflow[config_key]]: one object each for the whole process,
    reached by every call through the global [comfyui_workflow]. *)
Inductive event : Type :=
| Sent (n : nat)               (* HTTP request number n went out *)
| Slept (d : Z).               (* time.sleep(d) *)

Record state : Type := {
  workflow_data : value;
  config_data : value;
  uuids : nat;                 (* draws made *)
  requests : nat;              (* HTTP requests made *)
  clock_reads : nat;
  timeline : list event;       (* requests and sleeps, oldest first *)
  files : list (string * file) (* what the process wrote, by path *)
}.

Definition with_workflow (st : state) (wf : value) : state :=
  {| workflow_data := wf; config_data := config_data st; uuids := uuids st;
     requests := requests st; clock_reads := clock_reads st;
     timeline := timeline st; files := files st |}.

Definition with_uuids (st : state) (n : nat) : state :=
  {| workflow_data := workflow_data st; config_data := config_data st;
     uuids := n; requests := requests st; clock_reads := clock_reads st;
     timeline := timeline st; files := files st |}.

Definition with_requests (st : state) (n : nat) : state :=
  {| workflow_data := workflow_data st; config_data := config_data st;
     uuids := uuids st; requests := n; clock_reads := clock_reads st;
     timeline := timeline st; files := files st |}.

Definition with_clock_reads (st : state) (n : nat) : state :=
  {| workflow_data := workflow_data st; config_data := config_data st;
     uuids := uuids st; requests := requests st; clock_reads := n;
     timeline := timeline st; files := files st |}.

Definition with_timeline (st : state) (l : list event) : state :=
  {| workflow_data := workflow_data st; config_data := config_data st;
     uuids := uuids st; requests := requests st;
     clock_reads := clock_reads st; timeline := l; files := files st |}.

Definition with_files (st : state) (fs : list (string * file)) : state :=
  {| workflow_data := workflow_data st; config_data := config_data st;
     uuids := uuids st; requests := requests st;
     clock_reads := clock_reads st; timeline := timeline st; files := fs |}.

(* one more request has gone out *)
Definition sent (st : state) : state :=
  with_timeline (with_requests st (S (requests st)))
    (timeline st ++ [Sent (requests st)])%list.

(** ** The monad: state that survives exceptions *)

Definition M (A : Type) : Type := state -> outcome A * state.

Definition ret {A} (a : A) : M A := fun st => (Return a, st).

Definition bind {A B} (c : M A) (f : A -> M B) : M B :=
  fun st =>
    match c st with
    | (Return a, st') => f a st'
    | (Raise e, st') => (Raise e, st')
    | (Running, st') => (Running, st')
    end.

Definition lift {A} (r : result A) : M A :=
  fun st =>
    match r with
    | Ok a => (Return a, st)
    | Err e => (Raise e, st)
    end.

Definition raise {A} (e : exn) : M A := fun st => (Raise e, st).

Definition running {A} : M A := fun st => (Running, st).

(* try: body / except Exception as e: handler e *)
Definition try_except {A} (body : M A) (handler : exn -> M A) : M A :=
  fun st =>
    match body st with
    | (Raise e, st') => handler e st'
    | r => r
    end.

Definition gets {A} (f : state -> A) : M A := fun st => (Return (f st), st).

Definition modify (f : state -> state) : M unit :=
  fun st => (Return tt, f st).

Definition check (err : option exn) : M unit :=
  match err with
  | Some e => raise e
  | None => ret tt
  end.

Declare Scope py_scope.
Delimit Scope py_scope with py.
Notation "x <- c ;; k" := (bind c (fun x => k))
  (at level 61, c at next level, right associativity) : py_scope.
Notation "' pat <- c ;; k" := (bind c (fun x => let pat := x in k))
  (at level 61, pat pattern, c at next level, right associativity) : py_scope.
Notation "c ;; k" := (bind c (fun _ => k))
  (at level 61, right associativity) : py_scope.
Local Open Scope py_scope.

(* for x in l: body x *)
Fixpoint for_each {A} (l : list A) (body : A -> M unit) : M unit :=
  match l with
  | [] => ret tt
  | x :: l' => body x ;; for_each l' body
  end.

(** ** Module-level constants *)

(** The pattern language [special_char_pattern] needs: one negated
    character class. *)
Inductive class_item : Type :=
| Range (lo hi : ascii)
| Single (c : ascii).

Inductive pattern : Type :=
| NegatedClass (items : list class_item).

Definition in_item (c : ascii) (it : class_item) : bool :=
  match it with
  | Range lo hi =>
      (nat_of_ascii lo <=? nat_of_ascii c)%nat &&
      (nat_of_ascii c <=? nat_of_ascii hi)%nat
  | Single d => Ascii.eqb c d
  end.

Definition matches_char (p : pattern) (c : ascii) : bool :=
  match p with
  | NegatedClass items => negb (existsb (in_item c) items)
  end.

(* re.sub(p, repl, s) for a one-character pattern and a literal [repl] *)
Fixpoint re_sub (p : pattern) (repl s : string) : string :=
  match s with
  | EmptyString => EmptyString
  | String c s' =>
      (if matches_char p c then repl else String c EmptyString)
        ++ re_sub p repl s'
  end.

(* r'[^a-zA-Z0-9_]' *)
Definition special_char_pattern : pattern :=
  NegatedClass [Range "a" "z"; Range "A" "Z"; Range "0" "9"; Single "_"].

Definition aspect_ratio_aliases : value :=
  VDict [("1:1", VStr "1:1"); ("square", VStr "1:1");
         ("16:9", VStr "16:9"); ("widest", VStr "16:9");
         ("9:16", VStr "9:16"); ("tallest", VStr "9:16");
         ("4:3", VStr "4:3"); ("wide", VStr "4:3");
         ("3:4", VStr "3:4"); ("tall", VStr "3:4")].

Definition default_aspect_ratios : value :=
  VDict [("16:9", VList [VInt 1280; VInt 720]);
         ("4:3", VList [VInt 1152; VInt 864]);
         ("1:1", VList [VInt 1024; VInt 1024]);
         ("3:4", VList [VInt 864; VInt 1152]);
         ("9:16", VList [VInt 720; VInt 1280])].

Definition aspect_ratios_key := "aspect_ratios".
Definition save_image_node_key := "save_image_node".
Definition image_size_nodes_key := "image_size_nodes".
Definition seed_nodes_key := "seed_nodes".
Definition prompt_nodes_key := "prompt_nodes".
Definition inputs_key := "inputs".
Definition seed_key := "seed".
Definition noise_seed_key := "noise_seed".
Definition width_key := "width".
Definition height_key := "height".
Definition text_key := "text".

Definition required_vars : list string :=
  ["COMFYUI_HOST"; "COMFYUI_PORT"; "OUTPUT_DIR"; "IMAGE_APP_BASE_URL";
   "COMFYUI_WORKFLOW_NAME"].

Fixpoint join (sep : string) (l : list string) : string :=
  match l with
  | [] => ""
  | [x] => x
  | x :: l' => x ++ sep ++ join sep l'
  end.

(** A text content block of the tool protocol. *)
Record TextContent : Type := { type_ : string; text : string }.

(** ** The seed reduction *)

(** [float(n)] for [0 <= n < 2^1024], as the integer the double stands
    for: 53 significant bits, round to nearest, ties to even. *)
Definition float_of_int (n : Z) : Z :=
  let bits := Z.log2 n + 1 in
  if bits <=? 53 then n
  else
    let sh := bits - 53 in
    let q := Z.shiftr n sh in
    let r := n - Z.shiftl q sh in
    let half := Z.shiftl 1 (sh - 1) in
    let q' := if (half <? r) || ((r =? half) && Z.odd q) then q + 1 else q in
    Z.shiftl q' sh.

(** [x % 1e10] on an integral double [x >= 0] is exact (C's fmod), so it is
    the integer remainder, and [int(...)] of it changes nothing. *)
Definition reduce_seed (u : Z) : Z := float_of_int u mod 10 ^ 10.

Section Server.
Variable w : world.
Variable cfg : settings.

Definition py_str (v : value) : string :=
  match v with
  | VStr s => s
  | _ => repr w v
  end.

(* str(e) *)
Definition str_exn (e : exn) : string :=
  match e with
  | KeyError k => repr w k
  | TypeError m | ValueError m | IndexError m | AttributeError m
  | OSError m => m
  end.

(** *** Start-up: the module body, lines 36 to 116 *)

Definition getenv_default (name default : string) : string :=
  match getenv w name with
  | Some v => v
  | None => default
  end.

Definition env_missing (name : string) : bool :=
  match getenv w name with
  | Some v => String.eqb v ""
  | None => true
  end.

(* the part of the module body that fills config_data[aspect_ratios_key] *)
Definition fill_aspect_ratios (config : value) : result value :=
  rbind (py_contains (VStr aspect_ratios_key) config) (fun present =>
    if present then
      rbind (py_getitem config (VStr aspect_ratios_key)) (fun table =>
        if truthy table then Ok config
        else py_setitem config aspect_ratios_key default_aspect_ratios)
    else py_setitem config aspect_ratios_key default_aspect_ratios).

Definition module_init : result (settings * state) :=
  let host := getenv_default "COMFYUI_HOST" "127.0.0.1" in
  let port := getenv_default "COMFYUI_PORT" "8188" in
  let out := getenv_default "OUTPUT_DIR" "./output" in
  let base := getenv_default "IMAGE_APP_BASE_URL" "http://127.0.0.1:8081/view" in
  let name := getenv_default "COMFYUI_WORKFLOW_NAME" "flux-krea" in
  let wd := match getenv w "WORKING_DIR" with
            | Some d => d
            | None => getcwd w
            end in
  let missing_vars := filter env_missing required_vars in
  match missing_vars with
  | _ :: _ =>
      Err (ValueError ("Missing required environment variables: "
                         ++ join ", " missing_vars
                         ++ ". Please set these in your .env file."))
  | [] =>
      let workflow_json_path :=
        path_join (path_join wd "workflows") (name ++ ".json") in
      let config_yaml_path :=
        path_join (path_join wd "workflows") (name ++ ".yaml") in
      rbind (json_load w workflow_json_path) (fun workflow =>
      rbind (yaml_safe_load w config_yaml_path) (fun config =>
      rbind (fill_aspect_ratios config) (fun config' =>
        Ok ({| comfyui_host := host; comfyui_port := port;
               output_dir := out; image_app_base_url := base;
               comfyui_workflow_name := name; working_dir := wd |},
            {| workflow_data := workflow; config_data := config';
               uuids := 0; requests := 0; clock_reads := 0;
               timeline := []; files := [] |}))))
  end.

(** *** [make_random_seed] *)

Definition uuid4 : M Z :=
  fun st => (Return (uuid4_int w (uuids st)), with_uuids st (S (uuids st))).

Definition make_random_seed : M value :=
  u <- uuid4 ;;
  ret (VInt (reduce_seed u)).

(** *** [comfyui_generate_image], lines 121 to 212 *)

(* lines 124-131: the image size *)
Definition resolve_size (aspect_ratio : value) : M (value * value) :=
  known <- lift (py_contains aspect_ratio aspect_ratio_aliases) ;;
  let aspect_ratio := if known then aspect_ratio else VStr "square" in
  aspect_ratio <- lift (py_getitem aspect_ratio_aliases aspect_ratio) ;;
  config <- gets config_data ;;
  table <- lift (py_getitem config (VStr aspect_ratios_key)) ;;
  pair <- lift (py_getitem table aspect_ratio) ;;
  lift (py_unpack2 pair).

(* l[i] = v inside a list that holds a mutated object *)
Fixpoint list_set {A} (l : list A) (n : nat) (v : A) : list A :=
  match l, n with
  | [], _ => []
  | _ :: l', O => v :: l'
  | x :: l', S n' => x :: list_set l' n' v
  end.

(* the container [c] once the object it holds under [k] has become [v] *)
Definition store_back (c k v : value) : value :=
  match c with
  | VDict d =>
      match k with
      | VStr s => VDict (dict_set s v d)
      | _ => c
      end
  | VList l =>
      match as_index k with
      | Some i =>
          let n := Z.of_nat (List.length l) in
          VList (list_set l (Z.to_nat (if i <? 0 then n + i else i)) v)
      | None => c
      end
  | _ => c
  end.

(* prompt_structure[node][inputs_key], where prompt_structure is the
   object comfyui_workflow[workflow_key] itself *)
Definition node_inputs (node : value) : M value :=
  prompt_structure <- gets workflow_data ;;
  n <- lift (py_getitem prompt_structure node) ;;
  lift (py_getitem n (VStr inputs_key)).

(* prompt_structure[node][inputs_key][field] = v: the assignment lands in
   the shared object *)
Definition set_input (node : value) (field : string) (v : value) : M unit :=
  prompt_structure <- gets workflow_data ;;
  n <- lift (py_getitem prompt_structure node) ;;
  inputs <- lift (py_getitem n (VStr inputs_key)) ;;
  inputs' <- lift (py_setitem inputs field v) ;;
  modify (fun st =>
    with_workflow st
      (store_back prompt_structure node
         (store_back n (VStr inputs_key) inputs'))).

Definition has_input (node : value) (field : string) : M bool :=
  inputs <- node_inputs node ;;
  lift (py_contains (VStr field) inputs).

Definition config_list (key : string) : M (list value) :=
  config <- gets config_data ;;
  l <- lift (py_getitem config (VStr key)) ;;
  lift (py_iter l).

(* lines 137-140: the body of the loop over the size nodes *)
Definition set_size_node (width height image_size_node : value) : M unit :=
  has_width <- has_input image_size_node width_key ;;
  (if has_width then set_input image_size_node width_key width
   else ret tt) ;;
  has_height <- has_input image_size_node height_key ;;
  (if has_height then set_input image_size_node height_key height
   else ret tt).

(* lines 136-140 *)
Definition set_image_size (width height : value) : M unit :=
  nodes <- config_list image_size_nodes_key ;;
  for_each nodes (set_size_node width height).

(* lines 143-146: the body of the loop over the seed nodes *)
Definition set_seed_node (seed_node : value) : M unit :=
  has_seed <- has_input seed_node seed_key ;;
  (if has_seed then
     seed <- make_random_seed ;; set_input seed_node seed_key seed
   else ret tt) ;;
  has_noise <- has_input seed_node noise_seed_key ;;
  (if has_noise then
     seed <- make_random_seed ;; set_input seed_node noise_seed_key seed
   else ret tt).

(* lines 142-146 *)
Definition set_seeds : M unit :=
  nodes <- config_list seed_nodes_key ;;
  for_each nodes set_seed_node.

(* lines 148-149 *)
Definition set_prompt (prompt : value) : M unit :=
  nodes <- config_list prompt_nodes_key ;;
  for_each nodes (fun prompt_node =>
    set_input prompt_node text_key prompt).

(* one HTTP request: consult the oracle, count the request *)
Definition http {A} (oracle : nat -> result A) : M A :=
  fun st => lift (oracle (requests st)) (sent st).

Definition queue_prompt (client_id : string) (prompt : value) : M value :=
  let p := VDict [("prompt", prompt); ("client_id", VStr client_id)] in
  http (fun n => post_prompt w n p).

Definition get_image (filename subfolder folder_type : value) : M bytes :=
  let data := VDict [("filename", filename); ("subfolder", subfolder);
                     ("type", folder_type)] in
  http (fun n => get_view w n data).

Definition get_history (prompt_id : value) : M value :=
  http (fun n => get_history_response w n prompt_id).

Definition sleep (d : Z) : M unit :=
  modify (fun st => with_timeline st (timeline st ++ [Slept d])%list).

(* lines 174-183; [fuel] bounds the number of iterations observed *)
Fixpoint wait_for_completion (fuel : nat) (prompt_id : value) : M unit :=
  match fuel with
  | O => running
  | S fuel' =>
      history <- get_history prompt_id ;;
      present <- lift (py_contains prompt_id history) ;;
      if present then
        data <- lift (py_getitem history prompt_id) ;;
        processing <- lift (py_get data (VStr "is_processing") (VBool false)) ;;
        if truthy processing then
          sleep 1 ;; wait_for_completion fuel' prompt_id
        else ret tt
      else
        sleep 1 ;; wait_for_completion fuel' prompt_id
  end.

(* output_images: a dict filled under the keys the loop visits *)
Definition output_map := list (value * list bytes).

Fixpoint out_set (k : value) (v : list bytes) (d : output_map) : output_map :=
  match d with
  | [] => [(k, v)]
  | (k', v') :: d' =>
      if value_eqb k k' then (k', v) :: d' else (k', v') :: out_set k v d'
  end.

(* output_images.get(s, []) for a str key *)
Fixpoint out_get (s : string) (d : output_map) : list bytes :=
  match d with
  | [] => []
  | (k, v) :: d' => if value_eqb (VStr s) k then v else out_get s d'
  end.

(* lines 192-194: for image in node_output['images'] *)
Fixpoint fetch_images (images : list value) (images_output : list bytes)
  : M (list bytes) :=
  match images with
  | [] => ret images_output
  | image :: rest =>
      filename <- lift (py_getitem image (VStr "filename")) ;;
      subfolder <- lift (py_getitem image (VStr "subfolder")) ;;
      folder_type <- lift (py_getitem image (VStr "type")) ;;
      image_data <- get_image filename subfolder folder_type ;;
      fetch_images rest (images_output ++ [image_data])%list
  end.

(* lines 188-195: for node_id in history['outputs'] *)
Fixpoint collect_outputs (history : value) (node_ids : list value)
  (output_images : output_map) : M output_map :=
  match node_ids with
  | [] => ret output_images
  | node_id :: rest =>
      outputs <- lift (py_getitem history (VStr "outputs")) ;;
      node_output <- lift (py_getitem outputs node_id) ;;
      has_images <- lift (py_contains (VStr "images") node_output) ;;
      images_output <-
        (if has_images then
           images <- lift (py_getitem node_output (VStr "images")) ;;
           images <- lift (py_iter images) ;;
           fetch_images images []
         else ret []) ;;
      if hashable node_id
      then collect_outputs history rest
             (out_set node_id images_output output_images)
      else raise unhashable
  end.

(* lines 186-195 *)
Definition retrieve_images (prompt_id : value) : M output_map :=
  response <- get_history prompt_id ;;
  history <- lift (py_getitem response prompt_id) ;;
  outputs <- lift (py_getitem history (VStr "outputs")) ;;
  node_ids <- lift (py_iter outputs) ;;
  collect_outputs history node_ids [].

Definition no_image_message : string :=
  "Unspecified error. No image generated.".

(* lines 197-212 *)
Definition save_image (title : value) (output_images : output_map)
  : M (option string * string) :=
  config <- gets config_data ;;
  save_image_node <- lift (py_getitem config (VStr save_image_node_key)) ;;
  let images := out_get (py_str save_image_node) output_images in
  match images with
  | image_data :: _ =>
      check (image_open_error w image_data) ;;
      let image := Image image_data in
      image_title <-
        match title with
        | VStr t => ret (re_sub special_char_pattern "-" t)
        | _ => raise (TypeError "expected string or bytes-like object")
        end ;;
      n <- gets clock_reads ;;
      modify (fun st => with_clock_reads st (S n)) ;;
      let formatted_datetime := strftime_now w n in
      let image_filename :=
        formatted_datetime ++ "_" ++ image_title ++ "_"
          ++ comfyui_workflow_name cfg ++ ".png" in
      let image_path := path_join (output_dir cfg) image_filename in
      check (makedirs_error w (dirname image_path)) ;;
      check (image_save_error w image_path) ;;
      modify (fun st =>
        with_files st (dict_set image_path (PngFile image) (files st))) ;;
      ret (Some image_filename,
           "![" ++ py_str title ++ "](" ++ image_app_base_url cfg ++ "/"
             ++ image_filename ++ ")")
  | [] => ret (None, no_image_message)
  end.

(* lines 122-149: the correlation id, the size, and the three loops that
   write into the shared template *)
Definition build_payload (prompt aspect_ratio : value) : M string :=
  u <- uuid4 ;;
  let client_id := uuid_str w u in
  ' (width, height) <- resolve_size aspect_ratio ;;
  set_image_size width height ;;
  set_seeds ;;
  set_prompt prompt ;;
  ret client_id.

(* lines 169-171: queue the shared template, read the job id *)
Definition submit_job (prompt aspect_ratio : value) : M value :=
  client_id <- build_payload prompt aspect_ratio ;;
  prompt_structure <- gets workflow_data ;;
  result <- queue_prompt client_id prompt_structure ;;
  lift (py_getitem result (VStr "prompt_id")).

Definition comfyui_generate_image (fuel : nat)
  (prompt title aspect_ratio : value) : M (option string * string) :=
  prompt_id <- submit_job prompt aspect_ratio ;;
  wait_for_completion fuel prompt_id ;;
  output_images <- retrieve_images prompt_id ;;
  save_image title output_images.

(** *** [handle_call_tool], lines 245 to 276 *)

Definition arguments_get (arguments : list (string * value)) (k : string)
  : value :=
  match dict_lookup k arguments with
  | Some v => v
  | None => VNone
  end.

(* lines 260-264 *)
Definition write_prompt_file (image_filename : string) (prompt : value)
  : M unit :=
  let prompt_filename := str_replace ".png" ".txt" image_filename in
  let prompt_path := path_join (output_dir cfg) prompt_filename in
  check (open_write_error w prompt_path) ;;
  modify (fun st =>
    with_files st (dict_set prompt_path (TextFile "") (files st))) ;;
  match prompt with
  | VStr content =>
      check (write_error w prompt_path content) ;;
      modify (fun st =>
        with_files st (dict_set prompt_path (TextFile content) (files st)))
  | _ => raise (TypeError "write() argument must be str")
  end.

Definition text_block (t : string) : list TextContent :=
  [{| type_ := "text"; text := t |}].

Definition handle_call_tool (fuel : nat) (name : string)
  (arguments : list (string * value)) : M (list TextContent) :=
  if String.eqb name "image_generate" then
    let prompt := arguments_get arguments "prompt" in
    let title := arguments_get arguments "title" in
    let aspect_ratio := arguments_get arguments "aspect_ratio" in
    try_except
      (' (image_filename, markdown) <-
           comfyui_generate_image fuel prompt title aspect_ratio ;;
       match image_filename with
       | Some f =>
           if negb (String.eqb f "") then write_prompt_file f prompt
           else ret tt
       | None => ret tt
       end ;;
       ret (text_block markdown))
      (fun e => ret (text_block ("Error generating image: " ++ str_exn e)))
  else
    ret (text_block ("Unknown tool: " ++ name)).

End Server.

(** ** A concrete world

    One workflow with a size node, a prompt node, a noise node and a save
    node, its binding config, and an engine that answers "unknown", then
    "processing", then delivers one image on the save node. *)
Module Demo.

Definition workflow : value :=
  VDict
    [("5", VDict [("class_type", VStr "EmptyLatentImage");
                  ("inputs", VDict [("width", VInt 512);
                                    ("height", VInt 512);
                                    ("batch_size", VInt 1)])]);
     ("6", VDict [("class_type", VStr "CLIPTextEncode");
                  ("inputs", VDict [("text", VStr "");
                                    ("clip", VList [VStr "11"; VInt 0])])]);
     ("25", VDict [("class_type", VStr "RandomNoise");
                   ("inputs", VDict [("noise_seed", VInt 0)])]);
     ("9", VDict [("class_type", VStr "SaveImage");
                  ("inputs", VDict [("filename_prefix", VStr "ComfyUI");
                                    ("images", VList [VStr "8"; VInt 0])])])].

Definition config : value :=
  VDict [("image_size_nodes", VList [VStr "5"]);
         ("seed_nodes", VList [VStr "25"]);
         ("prompt_nodes", VList [VStr "6"]);
         ("save_image_node", VStr "9")].

(* a config that names a size node the workflow does not have *)
Definition config_missing_node : value :=
  VDict [("image_size_nodes", VList [VStr "99"]);
         ("seed_nodes", VList [VStr "25"]);
         ("prompt_nodes", VList [VStr "6"]);
         ("save_image_node", VStr "9")].

Definition env (name : string) : option string :=
  if String.eqb name "COMFYUI_HOST" then Some "127.0.0.1"
  else if String.eqb name "COMFYUI_PORT" then Some "8188"
  else if String.eqb name "OUTPUT_DIR" then Some "./output"
  else if String.eqb name "IMAGE_APP_BASE_URL" then Some "http://host/view"
  else if String.eqb name "COMFYUI_WORKFLOW_NAME" then Some "flux"
  else None.

Definition repr_simple (v : value) : string :=
  match v with
  | VStr s => "'" ++ s ++ "'"
  | VInt z => NilZero.string_of_int (Z.to_int z)
  | VNone => "None"
  | VBool true => "True"
  | VBool false => "False"
  | _ => "..."
  end.

Definition png : bytes := [Byte.x89; Byte.x50; Byte.x4e; Byte.x47].

Definition save_node_outputs : value :=
  VDict [("9", VDict [("images",
            VList [VDict [("filename", VStr "ComfyUI_00001_.png");
                          ("subfolder", VStr "");
                          ("type", VStr "output")]])])].

(* the preview node 8 has an image, the save node 9 has none *)
Definition other_node_outputs : value :=
  VDict [("8", VDict [("images",
            VList [VDict [("filename", VStr "preview.png");
                          ("subfolder", VStr "");
                          ("type", VStr "temp")]])]);
         ("9", VDict [("images", VList [])])].

(* request 0 is the submission; queries 1 and 2 find the job unknown,
   then processing; from 3 on it is finished.  The engine answers about
   the job id it is asked for. *)
Definition history_script (outputs : value) (n : nat) (prompt_id : value)
  : result value :=
  match prompt_id with
  | VStr id =>
      match n with
      | 1%nat => Ok (VDict [])
      | 2%nat => Ok (VDict [(id, VDict [("is_processing", VBool true)])])
      | _ => Ok (VDict [(id, VDict [("outputs", outputs)])])
      end
  | _ => Err (OSError "HTTP Error 404: Not Found")
  end.

(* str(uuid) for the draws of the demo worlds: one text for the first
   draw, another for the later ones *)
Definition uuid_text (u : Z) : string :=
  if u =? 2 ^ 100 then "0c0ffee0-0000-4000-8000-000000000000"
  else "0c0ffee0-0000-4000-8000-00000000000b".

(* a file system with one file: every other path is missing *)
Definition only_at {A} (path0 : string) (content : result A) (path : string)
  : result A :=
  if String.eqb path path0 then content
  else Err (OSError "No such file or directory").

Definition world_with (workflow_file : result value) (cfg : value)
  (outputs : value) (open_write_err : string -> option exn) : world :=
  {| getenv := env;
     getcwd := "/srv";
     json_load := only_at "/srv/workflows/flux.json" workflow_file;
     yaml_safe_load := only_at "/srv/workflows/flux.yaml" (Ok cfg);
     uuid4_int := fun n => 2 ^ 100 + Z.of_nat n;
     uuid_str := uuid_text;
     repr := repr_simple;
     post_prompt := fun _ _ => Ok (VDict [("prompt_id", VStr "abc")]);
     get_history_response := history_script outputs;
     get_view := fun _ _ => Ok png;
     strftime_now := fun _ => "2025-01-01_12:00:00";
     image_open_error := fun _ => None;
     makedirs_error := fun _ => None;
     image_save_error := fun _ => None;
     open_write_error := open_write_err;
     write_error := fun _ _ => None |}.

Definition world_ok : world :=
  world_with (Ok workflow) config save_node_outputs (fun _ => None).

(* the disk refuses to create any .txt file *)
Definition no_txt (path : string) : option exn :=
  if is_substring ".txt" path then Some (OSError "No space left on device")
  else None.

Definition world_no_sidecar : world :=
  world_with (Ok workflow) config save_node_outputs no_txt.

Definition world_missing_node : world :=
  world_with (Ok workflow) config_missing_node save_node_outputs
    (fun _ => None).

Definition world_no_save_image : world :=
  world_with (Ok workflow) config other_node_outputs (fun _ => None).


Definition settings0 : settings :=
  {| comfyui_host := "127.0.0.1"; comfyui_port := "8188";
     output_dir := "./output"; image_app_base_url := "http://host/view";
     comfyui_workflow_name := "flux"; working_dir := "/srv" |}.

Definition loaded_config (cfg : value) : value :=
  match cfg with
  | VDict d => VDict (d ++ [("aspect_ratios", default_aspect_ratios)])%list
  | _ => cfg
  end.

(* the state the module body leaves *)
Definition state_with (cfg : value) : state :=
  {| workflow_data := workflow; config_data := loaded_config cfg;
     uuids := 0; requests := 0; clock_reads := 0; timeline := [];
     files := [] |}.

Definition state0 : state := state_with config.

(* the same process a moment later: the job has been submitted *)
Definition state_submitted : state :=
  {| workflow_data := workflow; config_data := loaded_config config;
     uuids := 2; requests := 1; clock_reads := 0; timeline := [];
     files := [] |}.

Definition request : list (string * value) :=
  [("prompt", VStr "a red fox"); ("title", VStr "Red Fox");
   ("aspect_ratio", VStr "tall")].

End Demo.

(** ** More concrete worlds and states

    The same demo process in other circumstances: no environment, a
    config with a table of its own, an engine that refuses the job or
    never finishes it. *)
Module Cases.

Definition world_no_env : world :=
  {| getenv := fun _ => None;
     getcwd := "/srv";
     json_load := fun _ => Ok Demo.workflow;
     yaml_safe_load := fun _ => Ok Demo.config;
     uuid4_int := fun n => 2 ^ 100 + Z.of_nat n;
     uuid_str := Demo.uuid_text;
     repr := Demo.repr_simple;
     post_prompt := fun _ _ => Ok (VDict [("prompt_id", VStr "abc")]);
     get_history_response := Demo.history_script Demo.save_node_outputs;
     get_view := fun _ _ => Ok Demo.png;
     strftime_now := fun _ => "2025-01-01_12:00:00";
     image_open_error := fun _ => None;
     makedirs_error := fun _ => None;
     image_save_error := fun _ => None;
     open_write_error := fun _ => None;
     write_error := fun _ _ => None |}.



(* the demo process with a config file that holds a list *)
Definition world_list_config : world :=
  Demo.world_with (Ok Demo.workflow) (VList [VStr "image_size_nodes"])
    Demo.save_node_outputs (fun _ => None).

(* a table of the config's own: two ratios, one of them malformed *)
Definition own_table : list (string * value) :=
  [("16:9", VList [VInt 1920; VInt 1080]); ("4:3", VList [VInt 800])].

Definition own_config : list (string * value) :=
  [("image_size_nodes", VList [VStr "5"]);
   ("seed_nodes", VList [VStr "25"]);
   ("prompt_nodes", VList [VStr "6"]);
   ("save_image_node", VStr "9");
   ("aspect_ratios", VDict own_table)].

Definition state_own_table : state :=
  {| workflow_data := Demo.workflow;
     config_data := VDict own_config;
     uuids := 0; requests := 0; clock_reads := 0; timeline := [];
     files := [] |}.

(* an engine that accepts the job and reports it as processing for ever *)
Definition always_processing (n : nat) (prompt_id : value) : result value :=
  match prompt_id with
  | VStr id => Ok (VDict [(id, VDict [("is_processing", VBool true)])])
  | _ => Err (OSError "HTTP Error 404: Not Found")
  end.

(* an engine whose history endpoint breaks at request number 3 *)
Definition history_breaks (n : nat) (prompt_id : value) : result value :=
  match n with
  | 3%nat => Err (OSError "Connection refused")
  | _ => always_processing n prompt_id
  end.

Definition world_engine (post : nat -> value -> result value)
  (history : nat -> value -> result value) : world :=
  {| getenv := Demo.env;
     getcwd := "/srv";
     json_load := Demo.only_at "/srv/workflows/flux.json" (Ok Demo.workflow);
     yaml_safe_load :=
       Demo.only_at "/srv/workflows/flux.yaml" (Ok Demo.config);
     uuid4_int := fun n => 2 ^ 100 + Z.of_nat n;
     uuid_str := Demo.uuid_text;
     repr := Demo.repr_simple;
     post_prompt := post;
     get_history_response := history;
     get_view := fun _ _ => Ok Demo.png;
     strftime_now := fun _ => "2025-01-01_12:00:00";
     image_open_error := fun _ => None;
     makedirs_error := fun _ => None;
     image_save_error := fun _ => None;
     open_write_error := fun _ => None;
     write_error := fun _ _ => None |}.

Definition accept_job (n : nat) (payload : value) : result value :=
  Ok (VDict [("prompt_id", VStr "abc")]).

Definition world_never_done : world := world_engine accept_job always_processing.

Definition world_history_breaks : world :=
  world_engine accept_job history_breaks.

(* the engine refuses the job: the POST fails *)
Definition world_post_refused : world :=
  world_engine (fun _ _ => Err (OSError "HTTP Error 400: Bad Request"))
    always_processing.

(* the job ends in the engine without producing anything: its history
   entry has a status and no outputs *)
Definition finished_without_outputs (n : nat) (prompt_id : value)
  : result value :=
  match prompt_id with
  | VStr id => Ok (VDict [(id, VDict [("status", VStr "error")])])
  | _ => Err (OSError "HTTP Error 404: Not Found")
  end.

Definition world_no_outputs : world :=
  world_engine accept_job finished_without_outputs.

(* a workflow with three seed nodes, the third with both seed fields,
   and a random source whose draws differ in their leading bits *)
Definition workflow_seeds : value :=
  VDict
    [("3", VDict [("class_type", VStr "KSampler");
                  ("inputs", VDict [("seed", VInt 0); ("steps", VInt 20)])]);
     ("25", VDict [("class_type", VStr "RandomNoise");
                   ("inputs", VDict [("noise_seed", VInt 0)])]);
     ("30", VDict [("class_type", VStr "SamplerCustom");
                   ("inputs", VDict [("seed", VInt 0);
                                     ("noise_seed", VInt 0)])])].

Definition state_seeds : state :=
  {| workflow_data := workflow_seeds;
     config_data :=
       VDict [("seed_nodes", VList [VStr "3"; VStr "25"; VStr "30"])];
     uuids := 0; requests := 0; clock_reads := 0; timeline := [];
     files := [] |}.

Definition world_draws : world :=
  {| getenv := Demo.env;
     getcwd := "/srv";
     json_load := Demo.only_at "/srv/workflows/flux.json" (Ok workflow_seeds);
     yaml_safe_load :=
       Demo.only_at "/srv/workflows/flux.yaml" (Ok Demo.config);
     uuid4_int := fun n => 2 ^ 100 + Z.of_nat n * 2 ^ 70 + 12345;
     uuid_str := Demo.uuid_text;
     repr := Demo.repr_simple;
     post_prompt := accept_job;
     get_history_response := always_processing;
     get_view := fun _ _ => Ok Demo.png;
     strftime_now := fun _ => "2025-01-01_12:00:00";
     image_open_error := fun _ => None;
     makedirs_error := fun _ => None;
     image_save_error := fun _ => None;
     open_write_error := fun _ => None;
     write_error := fun _ _ => None |}.

(* the engine answers the POST without a job id *)
Definition world_no_job_id : world :=
  world_engine (fun _ _ => Ok (VDict [("error", VStr "invalid prompt")]))
    always_processing.

End Cases.

(** * The image host: a shallow embedding of [image_host.py]

    The gallery is a function of the names in the output directory and of
    the page number the request carries; the two file routes are their
    guard followed by the call to [send_from_directory].  Thumbnail
    generation (lines 20 to 27 and 36 to 41) touches only the thumbnail
    directory and has no part in what a page shows. *)
Module ImageHost.

(** ** The strings the routes test *)

(* str.lower() on code points below 256: A-Z, and the capital letters of
   Latin-1 (0xC0 to 0xDE without the multiplication sign 0xD7), move up
   by 32 *)
Definition lower_char (c : ascii) : ascii :=
  let n := nat_of_ascii c in
  if ((65 <=? n) && (n <=? 90)
      || (192 <=? n) && (n <=? 222) && negb (n =? 215))%nat
  then ascii_of_nat (n + 32)
  else c.

Fixpoint lower (s : string) : string :=
  match s with
  | EmptyString => EmptyString
  | String c s' => String (lower_char c) (lower s')
  end.

(* s.endswith(suffix): the last len(suffix) characters of s *)
Definition endswith (s suffix : string) : bool :=
  let n := String.length s in
  let m := String.length suffix in
  (m <=? n)%nat && String.eqb (drop (n - m) s) suffix.

(* f.lower().endswith('.png'), lines 33, 325 and 332 *)
Definition is_png (f : string) : bool := endswith (lower f) ".png".

(** ** Lists *)

(* sorted(l) on str: ascending by code points *)
Fixpoint insert_sorted (x : string) (l : list string) : list string :=
  match l with
  | [] => [x]
  | y :: l' => if String.leb x y then x :: l else y :: insert_sorted x l'
  end.

Fixpoint sorted (l : list string) : list string :=
  match l with
  | [] => []
  | x :: l' => insert_sorted x (sorted l')
  end.

(* l[start:stop]: a negative index counts from the end, and both ends
   are clamped to the list *)
Definition slice {A} (l : list A) (start stop : Z) : list A :=
  let n := Z.of_nat (List.length l) in
  let adjust i := if i <? 0 then Z.max (i + n) 0 else Z.min i n in
  let lo := adjust start in
  let hi := adjust stop in
  firstn (Z.to_nat (hi - lo)) (skipn (Z.to_nat lo) l).

(* range(lo, hi) *)
Fixpoint range_from (lo : Z) (n : nat) : list Z :=
  match n with
  | O => []
  | S n' => lo :: range_from (lo + 1) n'
  end.

Definition py_range (lo hi : Z) : list Z := range_from lo (Z.to_nat (hi - lo)).

(** ** [list_files], lines 30 to 320 *)

Definition PAGE_SIZE : Z := 12.

(* lines 33-34: the PNG names of the directory, last name first *)
Definition png_files (names : list string) : list string :=
  rev (sorted (filter is_png names)).

(* line 44 *)
Definition total_pages (files : list string) : Z :=
  (Z.of_nat (List.length files) + PAGE_SIZE - 1) / PAGE_SIZE.

(* lines 45-47 *)
Definition paginated_files (files : list string) (page : Z) : list string :=
  let start := (page - 1) * PAGE_SIZE in
  let end_ := start + PAGE_SIZE in
  slice files start end_.

(* line 52 *)
Definition safe_filename (f : string) : string :=
  str_replace ">" "&gt;" (str_replace "<" "&lt;" (str_replace "&" "&amp;" f)).

(* lines 53-60: one gallery item, by the four places a name goes to *)
Record file_item : Type := {
  href : string;        (* <a href="/view/{f}"> *)
  src : string;         (* <img src="/thumb/{f}" *)
  alt : string;         (* alt="{safe_filename}" *)
  label : string        (* <span class="file-name">{safe_filename}</span> *)
}.

Definition make_item (f : string) : file_item :=
  {| href := "/view/" ++ f; src := "/thumb/" ++ f;
     alt := safe_filename f; label := safe_filename f |}.

(** The elements the template puts into the pagination bar, lines 249
    to 301. *)
Inductive bar_item : Type :=
| Previous (target : Z)   (* <a href="/?page={{ page-1 }}">Previous</a> *)
| Current (p : Z)         (* <span class="current">{{ p }}</span> *)
| Link (p : Z)            (* <a href="/?page={{ p }}">{{ p }}</a> *)
| Gap                     (* <span>...</span> *)
| Next (target : Z).      (* <a href="/?page={{ page+1 }}">Next</a> *)

(* {% for p in ... %}{% if p == page %} current {% else %} link *)
Definition numbered (page : Z) (ps : list Z) : list bar_item :=
  map (fun p => if p =? page then Current p else Link p) ps.

Definition is_current (item : bar_item) : bool :=
  match item with
  | Current _ => true
  | _ => false
  end.

Definition pagination (page total : Z) : list bar_item :=
  ((if 1 <? page then [Previous (page - 1)] else [])
   ++ (if total <=? 7 then numbered page (py_range 1 (total + 1))
       else if page <=? 4 then
         numbered page (py_range 1 6) ++ [Gap; Link total]
       else if total - 3 <=? page then
         [Link 1; Gap] ++ numbered page (py_range (total - 4) (total + 1))
       else
         [Link 1; Gap] ++ numbered page (py_range (page - 1) (page + 2))
           ++ [Gap; Link total])
   ++ (if page <? total then [Next (page + 1)] else []))%list.

(** What the template is rendered with. *)
Record listing : Type := {
  file_items : list file_item;
  bar : list bar_item;
  shown_page : Z;       (* value="{{ page }}" *)
  max_page : Z          (* max="{{ total_pages }}" *)
}.

(* [names] is os.listdir(OUTPUT_DIR), [page] the value of line 32 *)
Definition list_files (names : list string) (page : Z) : listing :=
  let files := png_files names in
  let total_pages := total_pages files in
  let paginated_files := paginated_files files page in
  {| file_items := map make_item paginated_files;
     bar := pagination page total_pages;
     shown_page := page;
     max_page := total_pages |}.

(** ** The file routes, lines 322 to 334 *)

Inductive response : Type :=
| Abort (status : Z) (description : string)
| SendFromDirectory (directory filename : string).

Section Routes.
Variable OUTPUT_DIR : string.

Definition THUMBNAIL_DIR : string := path_join OUTPUT_DIR "thumbnails".

Definition serve_thumbnail (filename : string) : response :=
  if negb (is_png filename) then Abort 400 "Only PNG files are allowed"
  else SendFromDirectory THUMBNAIL_DIR filename.

Definition view_file (filename : string) : response :=
  if negb (is_png filename) then Abort 400 "Only PNG files are allowed"
  else SendFromDirectory OUTPUT_DIR filename.

End Routes.

End ImageHost.

(** ** Directories to run the image host on *)
Module HostCases.

(* what os.listdir gives for an output directory of the host *)
Definition directory : list string :=
  ["2025-01-01_12:00:00_Red-Fox_flux.png";
   "2025-01-01_12:00:00_Red-Fox_flux.txt";
   "thumbnails"; "scan.PNG"; "notes.md";
   "2025-01-02_08:30:00_Sun---Moon--_flux.png"].

(* thirty PNG names, "D.png" down to "a.png" in listing order *)
Definition thirty_files : list string :=
  ImageHost.png_files
    (map (fun c => String c ".png")
       (list_ascii_of_string "abcdefghijklmnopqrstuvwxyzABCD")).

End HostCases.

(** * Properties *)

(** ** Vocabulary of the statements *)

(** The characters the file name keeps: [A-Za-z0-9_]. *)
Definition word_char (c : ascii) : bool :=
  let n := nat_of_ascii c in
  ((97 <=? n) && (n <=? 122) || (65 <=? n) && (n <=? 90)
   || (48 <=? n) && (n <=? 57) || (n =? 95))%nat.

Definition sanitized_char (c : ascii) : ascii :=
  if word_char c then c else "-"%char.

(** The alias table of the Resolver, alias by alias. *)
Definition alias_table : list (string * string) :=
  [("1:1", "1:1"); ("square", "1:1"); ("16:9", "16:9"); ("widest", "16:9");
   ("9:16", "9:16"); ("tallest", "9:16"); ("4:3", "4:3"); ("wide", "4:3");
   ("3:4", "3:4"); ("tall", "3:4")].

(** The pair the config's aspect-ratio table holds for a ratio. *)
Definition configured_pair (st : state) (ratio : string) (width height : value)
  : Prop :=
  exists config table,
    config_data st = VDict config /\
    dict_lookup aspect_ratios_key config = Some (VDict table) /\
    dict_lookup ratio table = Some (VList [width; height]).

(** What one history response says about a job (the poller's cases). *)
Definition job_unknown (prompt_id history : value) : Prop :=
  py_contains prompt_id history = Ok false.

Definition job_processing (prompt_id history : value) : Prop :=
  exists data flag,
    py_contains prompt_id history = Ok true /\
    py_getitem history prompt_id = Ok data /\
    py_get data (VStr "is_processing") (VBool false) = Ok flag /\
    truthy flag = true.

Definition job_pending (prompt_id history : value) : Prop :=
  job_unknown prompt_id history \/ job_processing prompt_id history.

Definition job_terminal (prompt_id history : value) : Prop :=
  exists data flag,
    py_contains prompt_id history = Ok true /\
    py_getitem history prompt_id = Ok data /\
    py_get data (VStr "is_processing") (VBool false) = Ok flag /\
    truthy flag = false.

(** [k] rounds of "query, sleep 1", the first query being request [r]. *)
Fixpoint rounds (r k : nat) : list event :=
  match k with
  | O => []
  | S k' => Sent r :: Slept 1 :: rounds (S r) k'
  end.

(** The state after [k] such rounds and one last query. *)
Definition polled (st : state) (k : nat) : state :=
  {| workflow_data := workflow_data st; config_data := config_data st;
     uuids := uuids st; requests := requests st + S k;
     clock_reads := clock_reads st;
     timeline :=
       (timeline st ++ rounds (requests st) k
          ++ [Sent (requests st + k)])%list;
     files := files st |}.

(** Reading the shared template: what [prompt_structure[node][inputs_key]]
    and [prompt_structure[node][inputs_key][field]] evaluate to in a
    state, and whether the field is there. *)
Definition inputs_of (st : state) (node : value) : result value :=
  rbind (py_getitem (workflow_data st) node) (fun n =>
    py_getitem n (VStr inputs_key)).

Definition read_input (st : state) (node : value) (field : string)
  : result value :=
  rbind (inputs_of st node) (fun inputs => py_getitem inputs (VStr field)).

Definition has_field (st : state) (node : value) (field : string) : bool :=
  match rbind (inputs_of st node) (py_contains (VStr field)) with
  | Ok b => b
  | Err _ => false
  end.

(** The seed fields the seed loop fills, in the order it fills them. *)
Definition seed_slots_of (st : state) (node : value) : list (value * string) :=
  ((if has_field st node seed_key then [(node, seed_key)] else [])
     ++ (if has_field st node noise_seed_key then [(node, noise_seed_key)]
         else []))%list.

Definition seed_slots (st : state) (nodes : list value)
  : list (value * string) :=
  flat_map (seed_slots_of st) nodes.

(** [same_slot node field n f]: [n], [f] name the input [field] of [node]. *)
Definition same_slot (node : value) (field : string) (n : value) (f : string)
  : bool :=
  value_eqb n node && String.eqb f field.

(** The template of [st'] is the template of [st] with [v] assigned to
    one input, and nothing else in the state has changed. *)
Definition assigned (st st' : state) (node : value) (field : string)
  (v : value) : Prop :=
  (exists a, node = VStr a) /\
  (exists wf', workflow_data st' = VDict wf') /\
  config_data st' = config_data st /\
  uuids st' = uuids st /\
  requests st' = requests st /\
  clock_reads st' = clock_reads st /\
  timeline st' = timeline st /\
  files st' = files st /\
  (forall n f,
      read_input st' n f
      = if same_slot node field n f then Ok v else read_input st n f) /\
  (forall n f,
      has_field st' n f = has_field st n f || same_slot node field n f).

(** One conditional seed assignment of the seed loop (lines 143-144, and
    again 145-146 for the other field). *)
Definition seed_field (w : world) (node : value) (field : string) : M unit :=
  (has <- has_input node field ;;
   if has then seed <- make_random_seed w ;; set_input node field seed
   else ret tt)%py.

(** What one such assignment does when the field is there: one draw, its
    reduction stored in the field, every other input as before. *)
Definition seed_drawn (w : world) (st st' : state) (node : value)
  (field : string) : Prop :=
  (exists a, node = VStr a) /\
  (exists wf', workflow_data st' = VDict wf') /\
  uuids st' = S (uuids st) /\
  (forall n f,
      read_input st' n f
      = if same_slot node field n f
        then Ok (VInt (reduce_seed (uuid4_int w (uuids st))))
        else read_input st n f) /\
  (forall n f, has_field st' n f = has_field st n f).

(** A computation keeps a relation between the state it starts in and
    the state it leaves, however it ends. *)
Definition keeps {A} (R : state -> state -> Prop) (c : M A) : Prop :=
  forall st, R st (snd (c st)).

(** A computation ends: it returns or raises. *)
Definition halts {A} (c : M A) : Prop :=
  forall st, fst (c st) <> Running.



(** The arguments the handler passes on. *)
Definition call_prompt (arguments : list (string * value)) : value :=
  arguments_get arguments "prompt".
Definition call_title (arguments : list (string * value)) : value :=
  arguments_get arguments "title".
Definition call_aspect_ratio (arguments : list (string * value)) : value :=
  arguments_get arguments "aspect_ratio".

(** In the [outputs] of a terminal history, the save node has no image:
    the node is missing, or it has no images list, or the list is empty. *)
Definition no_save_node_images (outputs : list (string * value))
  (save_node : string) : Prop :=
  match dict_lookup save_node outputs with
  | None => True
  | Some node_output =>
      py_contains (VStr "images") node_output = Ok false \/
      (py_contains (VStr "images") node_output = Ok true /\
       exists images,
         py_getitem node_output (VStr "images") = Ok images /\
         py_iter images = Ok [])
  end.

(** Every key of [output_images] is a str. *)
Definition str_keys (output_images : output_map) : Prop :=
  Forall (fun kv => exists a, fst kv = VStr a) output_images.

(** Neither the files nor the config change. *)
Definition same_files_and_config (st st' : state) : Prop :=
  files st' = files st /\ config_data st' = config_data st.

(** The template is a dictionary that has no node [a]; the config is the
    dictionary [config]. *)
Definition lacks_node (a : string) (config : list (string * value))
  (st : state) : Prop :=
  config_data st = VDict config /\
  exists wf, workflow_data st = VDict wf /\ dict_lookup a wf = None.

Definition still_lacks (a : string) (config : list (string * value))
  (st st' : state) : Prop :=
  lacks_node a config st -> lacks_node a config st'.

Definition same_requests (st st' : state) : Prop :=
  requests st' = requests st.

(** From every state that satisfies [I], the computation raises. *)
Definition raises_from {A} (I : state -> Prop) (c : M A) : Prop :=
  forall st, I st -> exists e, fst (c st) = Raise e.

(** What [comfyui_generate_image] does once the payload is built: lines
    169 to 212, with the correlation id of the call. *)
Definition after_build (w : world) (cfg : settings) (fuel : nat)
  (title : value) (client_id : string) : M (option string * string) :=
  (prompt_id <-
     (prompt_structure <- gets workflow_data ;;
      result <- queue_prompt w client_id prompt_structure ;;
      lift (py_getitem result (VStr "prompt_id"))) ;;
   wait_for_completion w fuel prompt_id ;;
   output_images <- retrieve_images w prompt_id ;;
   save_image w cfg title output_images)%py.

Definition same_template (st st' : state) : Prop :=
  workflow_data st' = workflow_data st.

(** The template stays a dictionary, the config stays what it is. *)
Definition stays_dict (st st' : state) : Prop :=
  config_data st' = config_data st /\
  ((exists wf, workflow_data st = VDict wf) ->
   exists wf', workflow_data st' = VDict wf').

(** The state after [n] rounds of "query, sleep 1" and nothing else. *)
Definition waited (st : state) (n : nat) : state :=
  {| workflow_data := workflow_data st; config_data := config_data st;
     uuids := uuids st; requests := requests st + n;
     clock_reads := clock_reads st;
     timeline := (timeline st ++ rounds (requests st) n)%list;
     files := files st |}.

(** Only the template and the number of draws may differ: no request, no
    sleep, no clock read, no file, and the config as it was. *)
Definition only_template_and_draws (st st' : state) : Prop :=
  config_data st' = config_data st /\
  requests st' = requests st /\
  clock_reads st' = clock_reads st /\
  timeline st' = timeline st /\
  files st' = files st.

(** The body of the POST /prompt request. *)
Definition prompt_request (template : value) (client_id : string) : value :=
  VDict [("prompt", template); ("client_id", VStr client_id)].

(** One conditional assignment of the size loop (lines 137-138, and again
    139-140 for the other field): written only if the field is there. *)
Definition fill_input (node : value) (field : string) (v : value) : M unit :=
  (has <- has_input node field ;;
   if has then set_input node field v else ret tt)%py.

(** What the size loop leaves in input [f] of node [n]: the width or the
    height when [n] is one of the listed nodes and already had that
    input, otherwise what was there. *)
Definition sized_input (st : state) (nodes : list value)
  (width height : value) (n : value) (f : string) : result value :=
  if existsb (value_eqb n) nodes && has_field st n f then
    if String.eqb f width_key then Ok width
    else if String.eqb f height_key then Ok height
    else read_input st n f
  else read_input st n f.

(** Nothing but the template differs. *)
Definition only_template (st st' : state) : Prop :=
  uuids st' = uuids st /\ only_template_and_draws st st'.

(** The inputs the payload builder assigns to. *)
Definition injected_fields : list string :=
  [width_key; height_key; seed_key; noise_seed_key; text_key].

(** [prompt_structure[node][k]] in a state. *)
Definition node_entry (st : state) (node : value) (k : string)
  : result value :=
  rbind (py_getitem (workflow_data st) node) (fun n =>
    py_getitem n (VStr k)).

(** What assignments to the inputs named in [fields] leave of a template
    that is a dictionary: the same nodes in the same order, every entry
    of a node other than its inputs, and every input not named in
    [fields]. *)
Definition template_frame (fields : list string) (st st' : state) : Prop :=
  forall wf,
    workflow_data st = VDict wf ->
    exists wf',
      workflow_data st' = VDict wf' /\
      dict_keys wf' = dict_keys wf /\
      (forall n k, k <> inputs_key -> node_entry st' n k = node_entry st n k) /\
      (forall n f,
          ~ In f fields ->
          read_input st' n f = read_input st n f /\
          has_field st' n f = has_field st n f).

(** Ascending code-point order, the order of [sorted]. *)
Definition ascending (a b : string) : Prop := String.leb a b = true.

(** Replacing one character everywhere, and escaping the three characters
    '&', '<' and '>' in one pass. *)
Fixpoint subst_char (c : ascii) (new s : string) : string :=
  match s with
  | EmptyString => EmptyString
  | String d s' =>
      (if Ascii.eqb c d then new else String d EmptyString)
        ++ subst_char c new s'
  end.

Definition escape_char (c : ascii) : string :=
  if Ascii.eqb "&" c then "&amp;"
  else if Ascii.eqb "<" c then "&lt;"
  else if Ascii.eqb ">" c then "&gt;"
  else String c EmptyString.

Fixpoint escape_each (s : string) : string :=
  match s with
  | EmptyString => EmptyString
  | String c s' => escape_char c ++ escape_each s'
  end.

(** The two files the module body opens, lines 45-47 and 97-98: both in
    the [workflows] directory of the working directory, named after the
    workflow. *)
Definition startup_working_dir (w : world) : string :=
  match getenv w "WORKING_DIR" with
  | Some d => d
  | None => getcwd w
  end.

Definition workflow_json_path (w : world) : string :=
  path_join (path_join (startup_working_dir w) "workflows")
    (getenv_default w "COMFYUI_WORKFLOW_NAME" "flux-krea" ++ ".json").

Definition config_yaml_path (w : world) : string :=
  path_join (path_join (startup_working_dir w) "workflows")
    (getenv_default w "COMFYUI_WORKFLOW_NAME" "flux-krea" ++ ".yaml").

(** The state with another identifier under [save_image_node] (when the
    config is a mapping). *)
Definition with_save_image_node (st : state) (v : value) : state :=
  {| workflow_data := workflow_data st;
     config_data :=
       match config_data st with
       | VDict d => VDict (dict_set save_image_node_key v d)
       | c => c
       end;
     uuids := uuids st; requests := requests st;
     clock_reads := clock_reads st; timeline := timeline st;
     files := files st |}.

(** Running [c] from a state changed by [g] is running [c] and changing
    the state by [g] afterwards: [c] neither reads nor writes what [g]
    changes. *)
Definition commutes {A} (g : state -> state) (c : M A) : Prop :=
  forall st, c (g st) = (fst (c st), g (snd (c st))).

(** Lines 122 to 195 of [comfyui_generate_image]: everything before the
    image is saved. *)
Definition before_saving (w : world) (fuel : nat)
  (prompt aspect_ratio : value) : M output_map :=
  (prompt_id <- submit_job w prompt aspect_ratio ;;
   wait_for_completion w fuel prompt_id ;;
   retrieve_images w prompt_id)%py.

(** Lines 169 to 171 for a payload already built: post the shared
    template under the call's correlation id, read the job id. *)
Definition post_template (w : world) (client_id : string) : M value :=
  (prompt_structure <- gets workflow_data ;;
   result <- queue_prompt w client_id prompt_structure ;;
   lift (py_getitem result (VStr "prompt_id")))%py.

Section Properties.
Variable w : world.
Variable cfg : settings.

(** ** C6: the title in the file name *)

Lemma matches_special_char (c : ascii) :
  matches_char special_char_pattern c = negb (word_char c).
Proof.
  destruct c as [[] [] [] [] [] [] [] []]; reflexivity.
Qed.

Lemma re_sub_special_cons (c : ascii) (s : string) :
  re_sub special_char_pattern "-" (String c s)
  = String (sanitized_char c) (re_sub special_char_pattern "-" s).
Proof.
  cbn [re_sub]. rewrite matches_special_char. unfold sanitized_char.
  destruct (word_char c); reflexivity.
Qed.

Lemma re_sub_special_length (s : string) :
  String.length (re_sub special_char_pattern "-" s) = String.length s.
Proof.
  induction s as [|c s IH]; [reflexivity|].
  rewrite re_sub_special_cons. cbn [String.length]. now rewrite IH.
Qed.

Lemma re_sub_special_get (s : string) (i : nat) :
  String.get i (re_sub special_char_pattern "-" s)
  = option_map sanitized_char (String.get i s).
Proof.
  revert i; induction s as [|c s IH]; intros i; [reflexivity|].
  rewrite re_sub_special_cons. destruct i as [|i]; cbn [String.get].
  - reflexivity.
  - apply IH.
Qed.

(** C6, counterexample: with one dash per replaced character the title
    "Sun & Moon!!" does not become "Sun--Moon--": the three characters
    between the words give three dashes. *)
Lemma sanitize_sun_moon_not_two_dashes :
  re_sub special_char_pattern "-" "Sun & Moon!!" <> "Sun--Moon--".
Proof. vm_compute. discriminate. Qed.

(** C6, amended: sanitization replaces every character outside
    [A-Za-z0-9_] by one '-' and keeps every other character, position by
    position, so the length is unchanged; and it turns "Sun & Moon!!"
    into "Sun---Moon--". *)
Theorem sanitize_one_dash_per_character :
  (forall title : string,
      String.length (re_sub special_char_pattern "-" title)
      = String.length title /\
      forall i,
        String.get i (re_sub special_char_pattern "-" title)
        = option_map (fun c => if word_char c then c else "-"%char)
            (String.get i title)) /\
  re_sub special_char_pattern "-" "Sun & Moon!!" = "Sun---Moon--".
Proof.
  split.
  - intros title; split.
    + apply re_sub_special_length.
    + apply re_sub_special_get.
  - reflexivity.
Qed.

(** ** Running the monad *)

Lemma bind_return {A B} (c : M A) (f : A -> M B) st a st' :
  c st = (Return a, st') -> bind c f st = f a st'.
Proof. intros H. unfold bind. now rewrite H. Qed.

Lemma bind_raise {A B} (c : M A) (f : A -> M B) st e st' :
  c st = (Raise e, st') -> bind c f st = (Raise e, st').
Proof. intros H. unfold bind. now rewrite H. Qed.

Lemma bind_running {A B} (c : M A) (f : A -> M B) st st' :
  c st = (Running, st') -> bind c f st = (Running, st').
Proof. intros H. unfold bind. now rewrite H. Qed.

Lemma bind_lift_return {A B} (o : result A) (f : A -> M B) st a :
  o = Ok a -> bind (lift o) f st = f a st.
Proof. intros ->. reflexivity. Qed.

(** ** C10: a tool the server does not know *)

Lemma handle_call_tool_other (fuel : nat) (name : string)
  (arguments : list (string * value)) (st : state) :
  name <> "image_generate" ->
  handle_call_tool w cfg fuel name arguments st
  = (Return (text_block ("Unknown tool: " ++ name)), st).
Proof.
  intros Hname. unfold handle_call_tool.
  destruct (String.eqb_spec name "image_generate") as [E|_];
    [contradiction|reflexivity].
Qed.

(** C10: for a tool name other than "image_generate" the handler
    returns the single text block "Unknown tool: <name>", whatever the
    arguments, and touches nothing. *)
Theorem unknown_tool_text (fuel : nat) (name : string)
  (arguments : list (string * value)) (st : state) :
  name <> "image_generate" ->
  handle_call_tool w cfg fuel name arguments st
  = (Return [{| type_ := "text"; text := "Unknown tool: " ++ name |}], st).
Proof. apply handle_call_tool_other. Qed.

(** ** C5: the aspect-ratio resolver *)

Lemma alias_table_lookup (alias ratio : string) :
  In (alias, ratio) alias_table ->
  py_contains (VStr alias) aspect_ratio_aliases = Ok true /\
  py_getitem aspect_ratio_aliases (VStr alias) = Ok (VStr ratio).
Proof.
  unfold alias_table. cbn [In].
  intros H; repeat (destruct H as [H|H]; [inversion H; subst; split; reflexivity|]).
  contradiction.
Qed.

Lemma resolve_size_ratio (st : state) (v : value) (known : bool)
  (ratio : string) (width height : value) :
  py_contains v aspect_ratio_aliases = Ok known ->
  py_getitem aspect_ratio_aliases (if known then v else VStr "square")
  = Ok (VStr ratio) ->
  configured_pair st ratio width height ->
  resolve_size v st = (Return (width, height), st).
Proof.
  intros Hin Hget (config & table & Hc & Ht & Hp).
  unfold resolve_size.
  rewrite (bind_lift_return _ _ _ _ Hin).
  rewrite (bind_lift_return _ _ _ _ Hget).
  unfold bind at 1, gets at 1. rewrite Hc.
  unfold bind, lift. cbn [py_getitem]. rewrite Ht.
  cbn [py_getitem]. rewrite Hp. reflexivity.
Qed.

(** C5: every alias of the table (each canonical ratio and each
    synonym) resolves to the pair the aspect-ratio table holds for its
    ratio; every other alias, the empty string included, and a missing
    one resolve to the pair held for "1:1".  No error, no state change. *)
Theorem resolver_pairs (st : state) (width height : value) :
  (forall alias ratio,
      In (alias, ratio) alias_table ->
      configured_pair st ratio width height ->
      resolve_size (VStr alias) st = (Return (width, height), st)) /\
  (forall alias,
      (forall ratio, ~ In (alias, ratio) alias_table) ->
      configured_pair st "1:1" width height ->
      resolve_size (VStr alias) st = (Return (width, height), st)) /\
  (configured_pair st "1:1" width height ->
   resolve_size VNone st = (Return (width, height), st)).
Proof.
  split; [|split].
  - intros alias ratio Hin Hp.
    destruct (alias_table_lookup _ _ Hin) as [Hc Hg].
    now apply (resolve_size_ratio st _ true ratio).
  - intros alias Hnot Hp.
    apply (resolve_size_ratio st _ false "1:1"); [|reflexivity|exact Hp].
    cbn [py_contains aspect_ratio_aliases]. f_equal.
    unfold dict_mem.
    destruct (dict_lookup alias _) as [v|] eqn:E; [exfalso|reflexivity].
    cbn [dict_lookup] in E.
    repeat match type of E with
           | (if String.eqb ?a ?b then _ else _) = _ =>
               destruct (String.eqb_spec a b) as [->|_];
               [eapply Hnot; unfold alias_table; cbn [In];
                repeat (try (left; reflexivity); right) |]
           end.
    discriminate.
  - intros Hp.
    now apply (resolve_size_ratio st _ false "1:1").
Qed.

(** ** C8: the completion poller *)

Lemma polled_step (st : state) (k : nat) :
  polled (with_timeline (sent st) (timeline (sent st) ++ [Slept 1])%list) k
  = polled st (S k).
Proof.
  unfold polled, with_timeline, sent, with_requests; cbn. f_equal.
  - lia.
  - rewrite <- !app_assoc. cbn. do 4 f_equal.
    now replace (requests st + S k)%nat with (S (requests st + k)) by lia.
Qed.

Lemma polled_zero (st : state) : sent st = polled st 0.
Proof.
  unfold polled, sent, with_timeline, with_requests; cbn. f_equal.
  - lia.
  - now rewrite Nat.add_0_r.
Qed.

(* one iteration on a pending response: sleep 1 and go round again *)
Lemma wait_pending (fuel : nat) (prompt_id history : value) (st : state) :
  get_history_response w (requests st) prompt_id = Ok history ->
  job_pending prompt_id history ->
  wait_for_completion w (S fuel) prompt_id st
  = wait_for_completion w fuel prompt_id
      (with_timeline (sent st) (timeline (sent st) ++ [Slept 1])%list).
Proof.
  intros Hr Hp. cbn [wait_for_completion].
  unfold bind at 1, get_history, http. rewrite Hr. cbn [lift].
  destruct Hp as [Hu | (data & flag & Hc & Hg & Hf & Ht)].
  - unfold job_unknown in Hu. unfold bind at 1. rewrite Hu.
    reflexivity.
  - unfold bind at 1. rewrite Hc. cbn [lift].
    unfold bind at 1. rewrite Hg. cbn [lift].
    unfold bind at 1. rewrite Hf. cbn [lift]. rewrite Ht.
    reflexivity.
Qed.

(* one iteration on a terminal response: leave the loop, no sleep *)
Lemma wait_terminal (fuel : nat) (prompt_id history : value) (st : state) :
  get_history_response w (requests st) prompt_id = Ok history ->
  job_terminal prompt_id history ->
  wait_for_completion w (S fuel) prompt_id st = (Return tt, polled st 0).
Proof.
  intros Hr (data & flag & Hc & Hg & Hf & Ht). cbn [wait_for_completion].
  unfold bind at 1, get_history, http. rewrite Hr. cbn [lift].
  unfold bind at 1. rewrite Hc. cbn [lift].
  unfold bind at 1. rewrite Hg. cbn [lift].
  unfold bind at 1. rewrite Hf. cbn [lift]. rewrite Ht.
  unfold ret. now rewrite polled_zero.
Qed.

(* the cases of one iteration *)
Lemma wait_cases (fuel : nat) (prompt_id : value) (st : state) :
  (exists history,
      get_history_response w (requests st) prompt_id = Ok history /\
      (job_pending prompt_id history \/ job_terminal prompt_id history)) \/
  (exists e st', wait_for_completion w (S fuel) prompt_id st = (Raise e, st')).
Proof.
  cbn [wait_for_completion].
  unfold bind at 1, get_history, http.
  destruct (get_history_response w (requests st) prompt_id)
    as [history|e] eqn:Hr; cbn [lift]; [|right; eauto].
  unfold bind at 1.
  destruct (py_contains prompt_id history) as [[|]|e] eqn:Hc; cbn [lift];
    [| |right; eauto].
  - unfold bind at 1.
    destruct (py_getitem history prompt_id) as [data|e] eqn:Hg; cbn [lift];
      [|right; eauto].
    unfold bind at 1.
    destruct (py_get data (VStr "is_processing") (VBool false))
      as [flag|e] eqn:Hf; cbn [lift]; [|right; eauto].
    left. exists history. split; [reflexivity|].
    destruct (truthy flag) eqn:Ht.
    + left. right. now exists data, flag.
    + right. now exists data, flag.
  - left. exists history. split; [reflexivity|]. left. now left.
Qed.

Lemma wait_exit_sound (fuel : nat) (prompt_id : value) :
  forall st st',
    wait_for_completion w fuel prompt_id st = (Return tt, st') ->
    exists k,
      (k < fuel)%nat /\ st' = polled st k /\
      (forall i, (i < k)%nat ->
         exists history,
           get_history_response w (requests st + i) prompt_id = Ok history /\
           job_pending prompt_id history) /\
      (exists history,
          get_history_response w (requests st + k) prompt_id = Ok history /\
          job_terminal prompt_id history).
Proof.
  induction fuel as [|fuel IH]; intros st st' Hrun; [discriminate|].
  destruct (wait_cases fuel prompt_id st)
    as [(history & Hr & [Hp|Ht]) | (e & st1 & Hraise)].
  - rewrite (wait_pending _ _ _ _ Hr Hp) in Hrun.
    destruct (IH _ _ Hrun) as (k & Hk & Hst & Hbefore & Hlast).
    exists (S k). rewrite polled_step in Hst. cbn [requests with_timeline with_requests sent] in *.
    split; [lia|]. split; [exact Hst|]. split.
    + intros [|i] Hi.
      * exists history. now rewrite Nat.add_0_r.
      * destruct (Hbefore i ltac:(lia)) as (h & Hh & Hhp).
        exists h. split; [|exact Hhp].
        now replace (requests st + S i)%nat with (S (requests st) + i)%nat by lia.
    + destruct Hlast as (h & Hh & Hht). exists h. split; [|exact Hht].
      now replace (requests st + S k)%nat with (S (requests st) + k)%nat by lia.
  - rewrite (wait_terminal _ _ _ _ Hr Ht) in Hrun.
    inversion Hrun; subst. exists 0%nat.
    split; [lia|]. split; [reflexivity|]. split.
    + intros i Hi; lia.
    + exists history. now rewrite Nat.add_0_r.
  - rewrite Hraise in Hrun. discriminate.
Qed.

Lemma wait_exit_complete (prompt_id : value) (k : nat) :
  forall fuel st,
    (k < fuel)%nat ->
    (forall i, (i < k)%nat ->
       exists history,
         get_history_response w (requests st + i) prompt_id = Ok history /\
         job_pending prompt_id history) ->
    (exists history,
        get_history_response w (requests st + k) prompt_id = Ok history /\
        job_terminal prompt_id history) ->
    wait_for_completion w fuel prompt_id st = (Return tt, polled st k).
Proof.
  induction k as [|k IH]; intros [|fuel] st Hk Hbefore Hlast; try lia.
  - destruct Hlast as (h & Hh & Hht). rewrite Nat.add_0_r in Hh.
    now apply (wait_terminal _ _ h).
  - destruct (Hbefore 0%nat ltac:(lia)) as (h & Hh & Hhp).
    rewrite Nat.add_0_r in Hh.
    rewrite (wait_pending _ _ _ _ Hh Hhp), <- polled_step.
    apply IH; [lia| |]; cbn [requests with_timeline with_requests sent].
    + intros i Hi. destruct (Hbefore (S i) ltac:(lia)) as (h' & Hh' & Hp').
      exists h'. split; [|exact Hp'].
      now replace (S (requests st) + i)%nat with (requests st + S i)%nat by lia.
    + destruct Hlast as (h' & Hh' & Ht'). exists h'. split; [|exact Ht'].
      now replace (S (requests st) + k)%nat with (requests st + S k)%nat by lia.
Qed.

(** C8: the poller leaves its loop only on a response that reports the
    job as no longer processing.  If the loop exits, it exits at its
    query number [k]: the [k] responses before were all pending (job id
    not yet in the history, or still processing), response [k] is
    terminal, and the timeline of the loop is [k] times "query, then
    sleep 1" followed by the last query: every pending answer is followed
    by one sleep of 1 before the next query, and nothing else happens.
    Conversely such a sequence of responses makes the loop exit there. *)
Theorem poller_exits_only_when_terminal (fuel : nat) (prompt_id : value)
  (st : state) :
  (forall st',
      wait_for_completion w fuel prompt_id st = (Return tt, st') ->
      exists k,
        (k < fuel)%nat /\
        requests st' = (requests st + S k)%nat /\
        timeline st' = (timeline st ++ rounds (requests st) k
                          ++ [Sent (requests st + k)])%list /\
        st' = polled st k /\
        (forall i, (i < k)%nat ->
           exists history,
             get_history_response w (requests st + i) prompt_id = Ok history /\
             job_pending prompt_id history) /\
        (exists history,
            get_history_response w (requests st + k) prompt_id = Ok history /\
            job_terminal prompt_id history)) /\
  (forall k,
      (k < fuel)%nat ->
      (forall i, (i < k)%nat ->
         exists history,
           get_history_response w (requests st + i) prompt_id = Ok history /\
           job_pending prompt_id history) ->
      (exists history,
          get_history_response w (requests st + k) prompt_id = Ok history /\
          job_terminal prompt_id history) ->
      wait_for_completion w fuel prompt_id st = (Return tt, polled st k)).
Proof.
  split.
  - intros st' Hrun.
    destruct (wait_exit_sound _ _ _ _ Hrun) as (k & Hk & Hst & Hb & Hl).
    exists k. subst st'. repeat split; auto.
  - intros k Hk Hb Hl. now apply wait_exit_complete.
Qed.

(** ** Dictionaries *)

Lemma dict_lookup_set_same {V} (k : string) (v : V) (d : list (string * V)) :
  dict_lookup k (dict_set k v d) = Some v.
Proof.
  induction d as [|[k' v'] d IH]; cbn.
  - now rewrite String.eqb_refl.
  - destruct (String.eqb k k') eqn:E; cbn; rewrite E; auto.
Qed.

Lemma dict_lookup_set_other {V} (k k' : string) (v : V)
  (d : list (string * V)) :
  k <> k' -> dict_lookup k (dict_set k' v d) = dict_lookup k d.
Proof.
  intros Hne. induction d as [|[k0 v0] d IH]; cbn.
  - destruct (String.eqb_spec k k'); [contradiction|reflexivity].
  - destruct (String.eqb_spec k' k0) as [->|Hk0]; cbn.
    + destruct (String.eqb_spec k k0); [contradiction|reflexivity].
    + destruct (String.eqb_spec k k0); [reflexivity|exact IH].
Qed.

Lemma dict_lookup_set {V} (k k' : string) (v : V) (d : list (string * V)) :
  dict_lookup k (dict_set k' v d)
  = if String.eqb k k' then Some v else dict_lookup k d.
Proof.
  destruct (String.eqb_spec k k') as [->|Hne].
  - apply dict_lookup_set_same.
  - now apply dict_lookup_set_other.
Qed.

Lemma dict_mem_set {V} (k k' : string) (v : V) (d : list (string * V)) :
  dict_mem k (dict_set k' v d) = String.eqb k k' || dict_mem k d.
Proof.
  unfold dict_mem. rewrite dict_lookup_set.
  destruct (String.eqb k k'); reflexivity.
Qed.

(** ** Writing into the shared template *)

Lemma node_inputs_run (node : value) (st : state) :
  node_inputs node st = lift (inputs_of st node) st.
Proof.
  unfold node_inputs, inputs_of, bind, gets, lift, rbind.
  destruct (py_getitem (workflow_data st) node); [|reflexivity].
  destruct (py_getitem a (VStr inputs_key)); reflexivity.
Qed.

Lemma has_input_run (node : value) (field : string) (st : state) :
  has_input node field st
  = lift (rbind (inputs_of st node) (py_contains (VStr field))) st.
Proof.
  unfold has_input. unfold bind at 1. rewrite node_inputs_run.
  unfold lift, rbind. destruct (inputs_of st node); [|reflexivity].
  destruct (py_contains (VStr field) a); reflexivity.
Qed.

(* on a template that is a dictionary, a successful assignment goes
   through three dictionaries *)
Lemma set_input_return (node : value) (field : string) (v : value)
  (st st' : state) (wf : list (string * value)) :
  workflow_data st = VDict wf ->
  set_input node field v st = (Return tt, st') ->
  exists a n i,
    node = VStr a /\
    dict_lookup a wf = Some (VDict n) /\
    dict_lookup inputs_key n = Some (VDict i) /\
    st' = with_workflow st
            (VDict (dict_set a
                      (VDict (dict_set inputs_key
                                (VDict (dict_set field v i)) n)) wf)).
Proof.
  intros Hwf. unfold set_input, bind, gets, lift, modify. rewrite Hwf.
  destruct node as [| | | |a| |]; cbn [py_getitem]; try discriminate.
  destruct (dict_lookup a wf) as [n|] eqn:Ha; [|discriminate].
  destruct n as [| | | | | |n]; cbn [py_getitem as_index]; try discriminate.
  destruct (dict_lookup inputs_key n) as [i|] eqn:Hi; [|discriminate].
  destruct i as [| | | | | |i]; cbn [py_setitem]; try discriminate.
  intros H; inversion H; subst. now exists a, n, i.
Qed.

Lemma set_input_not_return (node : value) (field : string) (v : value)
  (st : state) :
  (exists st', set_input node field v st = (Return tt, st')) \/
  (exists e, set_input node field v st = (Raise e, st)).
Proof.
  unfold set_input, bind, gets, lift, modify.
  destruct (py_getitem (workflow_data st) node); [|right; eauto].
  destruct (py_getitem a (VStr inputs_key)); [|right; eauto].
  destruct (py_setitem a0 field v); [left|right]; eauto.
Qed.

Lemma inputs_of_dict (st : state) (wf : list (string * value)) (a : string) :
  workflow_data st = VDict wf ->
  inputs_of st (VStr a)
  = match dict_lookup a wf with
    | Some n => py_getitem n (VStr inputs_key)
    | None => Err (KeyError (VStr a))
    end.
Proof.
  intros Hwf. unfold inputs_of. rewrite Hwf. cbn [py_getitem rbind].
  destruct (dict_lookup a wf); reflexivity.
Qed.

(* after the assignment: the inputs of every node, read back *)
Lemma inputs_of_after_set (a field : string) (v : value) (st : state)
  (wf n i : list (string * value)) (node : value) :
  workflow_data st = VDict wf ->
  dict_lookup a wf = Some (VDict n) ->
  dict_lookup inputs_key n = Some (VDict i) ->
  inputs_of
    (with_workflow st
       (VDict (dict_set a
                 (VDict (dict_set inputs_key (VDict (dict_set field v i)) n))
                 wf))) node
  = if value_eqb node (VStr a) then Ok (VDict (dict_set field v i))
    else inputs_of st node.
Proof.
  intros Hwf Ha Hi. unfold inputs_of. cbn [workflow_data with_workflow].
  rewrite Hwf.
  destruct node as [| | | |b| |]; try reflexivity.
  cbn [value_eqb py_getitem]. rewrite dict_lookup_set.
  destruct (String.eqb_spec b a) as [->|Hne]; cbn [rbind].
  - cbn [py_getitem]. now rewrite dict_lookup_set_same.
  - reflexivity.
Qed.

Lemma value_eqb_str (n : value) (a : string) :
  value_eqb n (VStr a) = true <-> n = VStr a.
Proof.
  destruct n as [| | | |s| |]; cbn; try (split; intros H; discriminate H).
  destruct (String.eqb_spec s a); split; intros H; congruence.
Qed.

Lemma set_input_assigned (node : value) (field : string) (v : value)
  (st st' : state) (wf : list (string * value)) :
  workflow_data st = VDict wf ->
  set_input node field v st = (Return tt, st') ->
  assigned st st' node field v.
Proof.
  intros Hwf Hrun.
  destruct (set_input_return _ _ _ _ _ _ Hwf Hrun)
    as (a & n & i & -> & Ha & Hi & ->).
  unfold assigned. cbn [with_workflow workflow_data config_data uuids
    requests clock_reads timeline files].
  repeat (split; [eauto; reflexivity|]).
  assert (Hin : inputs_of st (VStr a) = Ok (VDict i)).
  { rewrite (inputs_of_dict _ _ _ Hwf), Ha. cbn [py_getitem]. now rewrite Hi. }
  split; intros m f.
  - unfold read_input, same_slot.
    rewrite (inputs_of_after_set _ _ _ _ _ _ _ m Hwf Ha Hi).
    destruct (value_eqb m (VStr a)) eqn:E; cbn [andb rbind]; [|reflexivity].
    apply value_eqb_str in E. subst m. rewrite Hin. cbn [py_getitem rbind].
    rewrite dict_lookup_set.
    destruct (String.eqb f field); reflexivity.
  - unfold has_field, same_slot.
    rewrite (inputs_of_after_set _ _ _ _ _ _ _ m Hwf Ha Hi).
    destruct (value_eqb m (VStr a)) eqn:E; cbn [andb rbind].
    + apply value_eqb_str in E. subst m. rewrite Hin. cbn [py_contains rbind].
      rewrite dict_mem_set. apply orb_comm.
    + now rewrite orb_false_r.
Qed.

(** ** C7: seeds *)

Lemma reduce_seed_range (u : Z) : 0 <= reduce_seed u < 10 ^ 10.
Proof. unfold reduce_seed. apply Z.mod_pos_bound. reflexivity. Qed.

(* the conversion to a double: exact below 2^53, and above it a multiple
   of the unit in the last place within half a unit of the integer *)
Lemma float_of_int_exact (u : Z) :
  0 <= u < 2 ^ 53 -> float_of_int u = u.
Proof.
  intros Hu. unfold float_of_int.
  destruct (Z.leb_spec (Z.log2 u + 1) 53) as [Hle|Hgt]; [reflexivity|].
  exfalso.
  destruct (Z.eq_dec u 0) as [->|Hnz]; [cbn in Hgt; lia|].
  assert (Hlog : Z.log2 u < 53) by (apply Z.log2_lt_pow2; lia).
  lia.
Qed.

Lemma float_of_int_nearest (u : Z) :
  2 ^ 53 <= u ->
  float_of_int u mod 2 ^ (Z.log2 u - 52) = 0 /\
  2 * Z.abs (u - float_of_int u) <= 2 ^ (Z.log2 u - 52).
Proof.
  intros Hu. unfold float_of_int.
  assert (Hlog : 53 <= Z.log2 u).
  { replace 53 with (Z.log2 (2 ^ 53)) by reflexivity.
    now apply Z.log2_le_mono. }
  destruct (Z.leb_spec (Z.log2 u + 1) 53) as [Hle|Hgt]; [lia|].
  cbv zeta.
  replace (Z.log2 u + 1 - 53) with (Z.log2 u - 52) by lia.
  set (sh := Z.log2 u - 52).
  assert (Hsh : 1 <= sh) by (unfold sh; lia).
  rewrite Z.shiftr_div_pow2 by lia.
  rewrite !Z.shiftl_mul_pow2 by lia.
  rewrite Z.mul_1_l.
  assert (Hpos : 0 < 2 ^ sh) by (apply Z.pow_pos_nonneg; lia).
  assert (Hhalf : 2 ^ sh = 2 * 2 ^ (sh - 1)).
  { replace sh with (1 + (sh - 1)) at 1 by lia.
    rewrite Z.pow_add_r by lia. reflexivity. }
  pose proof (Z.div_mod u (2 ^ sh) ltac:(lia)) as Hdm.
  pose proof (Z.mod_pos_bound u (2 ^ sh) Hpos) as Hb.
  set (q := u / 2 ^ sh) in *.
  set (r := u mod 2 ^ sh) in *.
  replace (u - q * 2 ^ sh) with r by lia.
  set (half := 2 ^ (sh - 1)) in *.
  split.
  - apply Z.mod_mul. lia.
  - destruct ((half <? r) || ((r =? half) && Z.odd q)) eqn:E.
    + assert (half <= r).
      { apply orb_true_iff in E. destruct E as [E|E].
        - apply Z.ltb_lt in E. lia.
        - apply andb_true_iff in E. destruct E as [E _].
          apply Z.eqb_eq in E. lia. }
      rewrite Z.abs_neq by nia. nia.
    + apply orb_false_iff in E. destruct E as [E _].
      apply Z.ltb_ge in E.
      rewrite Z.abs_eq by nia. nia.
Qed.

Lemma make_random_seed_run (st : state) :
  make_random_seed w st
  = (Return (VInt (reduce_seed (uuid4_int w (uuids st)))),
     with_uuids st (S (uuids st))).
Proof. reflexivity. Qed.

Lemma bind_assoc {A B C} (c : M A) (f : A -> M B) (g : B -> M C) st :
  bind (bind c f) g st = bind c (fun x => bind (f x) g) st.
Proof.
  unfold bind. destruct (c st) as [[a|e|] st1]; reflexivity.
Qed.

Lemma set_seed_node_fields (node : value) (st : state) :
  set_seed_node w node st
  = bind (seed_field w node seed_key)
      (fun _ => seed_field w node noise_seed_key) st.
Proof.
  unfold set_seed_node, seed_field. rewrite bind_assoc. reflexivity.
Qed.

Lemma same_slot_true (a field : string) (n : value) (f : string) :
  same_slot (VStr a) field n f = true <-> n = VStr a /\ f = field.
Proof.
  unfold same_slot. rewrite andb_true_iff, value_eqb_str.
  now rewrite String.eqb_eq.
Qed.

Lemma seed_field_return (node : value) (field : string) (st st' : state)
  (wf : list (string * value)) :
  workflow_data st = VDict wf ->
  seed_field w node field st = (Return tt, st') ->
  if has_field st node field then seed_drawn w st st' node field
  else st' = st.
Proof.
  intros Hwf. unfold seed_field. unfold bind at 1. rewrite has_input_run.
  destruct (has_field st node field) eqn:Hfield; unfold has_field in Hfield;
    destruct (rbind (inputs_of st node) (py_contains (VStr field)))
      as [has|e] eqn:Hh; cbn [lift]; try discriminate; subst has.
  - unfold bind. rewrite make_random_seed_run.
    intros Hset.
    apply (set_input_assigned _ _ _ _ _ wf) in Hset; [|exact Hwf].
    destruct Hset as (Hname & Hwf' & _ & Hu & _ & _ & _ & _ & Hread & Hhas).
    unfold seed_drawn.
    split; [exact Hname|]. split; [exact Hwf'|]. split; [exact Hu|]. split.
    + intros n f. rewrite Hread. reflexivity.
    + intros n f. rewrite Hhas.
      change (has_field (with_uuids st (S (uuids st))) n f)
        with (has_field st n f).
      destruct (same_slot node field n f) eqn:E; [|apply orb_false_r].
      rewrite orb_true_r. destruct Hname as [a ->].
      apply same_slot_true in E. destruct E as [-> ->].
      unfold has_field. now rewrite Hh.
  - intros H; now inversion H.
Qed.

(* a seed node: its present fields get consecutive draws, seed first *)
Lemma set_seed_node_return (node : value) (st st' : state)
  (wf : list (string * value)) :
  workflow_data st = VDict wf ->
  set_seed_node w node st = (Return tt, st') ->
  (exists wf', workflow_data st' = VDict wf') /\
  uuids st' = (uuids st + List.length (seed_slots_of st node))%nat /\
  (forall n f, has_field st' n f = has_field st n f) /\
  (forall n f, n <> node -> read_input st' n f = read_input st n f) /\
  (forall j n f,
      nth_error (seed_slots_of st node) j = Some (n, f) ->
      read_input st' n f
      = Ok (VInt (reduce_seed (uuid4_int w (uuids st + j))))).
Proof.
  intros Hwf. rewrite set_seed_node_fields. unfold bind at 1.
  destruct (seed_field w node seed_key st) as [[[]|e|] st1] eqn:H1;
    try discriminate.
  intros H2.
  pose proof (seed_field_return _ _ _ _ _ Hwf H1) as S1.
  assert (Hwf1 : exists wf1, workflow_data st1 = VDict wf1).
  { destruct (has_field st node seed_key); [apply S1|subst; eauto]. }
  destruct Hwf1 as [wf1 Hwf1].
  pose proof (seed_field_return _ _ _ _ _ Hwf1 H2) as S2.
  assert (Hhas1 : forall n f, has_field st1 n f = has_field st n f).
  { destruct (has_field st node seed_key); [apply S1|now subst]. }
  rewrite Hhas1 in S2. unfold seed_slots_of.
  destruct (has_field st node seed_key) eqn:Hs;
    destruct (has_field st node noise_seed_key) eqn:Hn;
    cbn [app List.length].
  - destruct S1 as ([a ->] & _ & Hu1 & Hr1 & _).
    destruct S2 as (_ & Hwf2 & Hu2 & Hr2 & Hh2).
    split; [exact Hwf2|]. split; [lia|]. split.
    { intros n f. now rewrite Hh2, Hhas1. }
    split.
    + intros n f Hne. rewrite Hr2, Hr1.
      destruct (same_slot (VStr a) noise_seed_key n f) eqn:E2.
      { apply same_slot_true in E2. now destruct E2. }
      destruct (same_slot (VStr a) seed_key n f) eqn:E1.
      { apply same_slot_true in E1. now destruct E1. }
      reflexivity.
    + intros [|[|j]] n f Hj; cbn in Hj; inversion Hj; subst.
      * rewrite Hr2, Hr1. rewrite Nat.add_0_r.
        unfold same_slot at 1. cbn [String.eqb seed_key noise_seed_key].
        rewrite andb_false_r.
        replace (same_slot (VStr a) seed_key (VStr a) seed_key) with true;
          [reflexivity|].
        symmetry. now apply same_slot_true.
      * rewrite Hr2.
        replace (same_slot (VStr a) noise_seed_key (VStr a) noise_seed_key)
          with true by (symmetry; now apply same_slot_true).
        now rewrite Hu1, Nat.add_1_r.
      * destruct j; discriminate.
  - destruct S1 as ([a ->] & Hwf1' & Hu1 & Hr1 & _). subst st'.
    split; [exact Hwf1'|]. split; [lia|]. split; [exact Hhas1|]. split.
    + intros n f Hne. rewrite Hr1.
      destruct (same_slot (VStr a) seed_key n f) eqn:E1; [|reflexivity].
      apply same_slot_true in E1. now destruct E1.
    + intros [|j] n f Hj; cbn in Hj; inversion Hj; subst.
      * rewrite Hr1, Nat.add_0_r.
        replace (same_slot (VStr a) seed_key (VStr a) seed_key) with true;
          [reflexivity|].
        symmetry. now apply same_slot_true.
      * destruct j; discriminate.
  - subst st1.
    destruct S2 as ([a ->] & Hwf2 & Hu2 & Hr2 & Hh2).
    split; [exact Hwf2|]. split; [lia|]. split; [exact Hh2|]. split.
    + intros n f Hne. rewrite Hr2.
      destruct (same_slot (VStr a) noise_seed_key n f) eqn:E2; [|reflexivity].
      apply same_slot_true in E2. now destruct E2.
    + intros [|j] n f Hj; cbn in Hj; inversion Hj; subst.
      * rewrite Hr2, Nat.add_0_r.
        replace (same_slot (VStr a) noise_seed_key (VStr a) noise_seed_key)
          with true; [reflexivity|].
        symmetry. now apply same_slot_true.
      * destruct j; discriminate.
  - subst st1 st'. split; [eauto|]. split; [lia|].
    split; [reflexivity|]. split; [reflexivity|].
    intros [|j] n f Hj; discriminate.
Qed.

Lemma seed_slots_ext (st st1 : state) (nodes : list value) :
  (forall n f, has_field st1 n f = has_field st n f) ->
  seed_slots st1 nodes = seed_slots st nodes.
Proof.
  intros Hh. unfold seed_slots. induction nodes as [|node rest IH]; cbn.
  - reflexivity.
  - rewrite IH. unfold seed_slots_of. now rewrite !Hh.
Qed.

Lemma seed_slots_of_node (st : state) (node : value) (j : nat) (n : value)
  (f : string) :
  nth_error (seed_slots_of st node) j = Some (n, f) -> n = node.
Proof.
  unfold seed_slots_of. intros H. apply nth_error_In in H.
  destruct (has_field st node seed_key);
    destruct (has_field st node noise_seed_key); cbn in H;
    repeat (destruct H as [H|H]; [now inversion H|]); contradiction.
Qed.

Lemma for_each_cons {A} (x : A) (l : list A) (body : A -> M unit) st :
  for_each (x :: l) body st = bind (body x) (fun _ => for_each l body) st.
Proof. reflexivity. Qed.

(* the seed loop: slot number j gets draw number j *)
Lemma seed_loop_return (nodes : list value) :
  forall (st st' : state) (wf : list (string * value)),
    workflow_data st = VDict wf ->
    NoDup nodes ->
    for_each nodes (set_seed_node w) st = (Return tt, st') ->
    (exists wf', workflow_data st' = VDict wf') /\
    uuids st' = (uuids st + List.length (seed_slots st nodes))%nat /\
    (forall n f, has_field st' n f = has_field st n f) /\
    (forall n f, ~ In n nodes -> read_input st' n f = read_input st n f) /\
    (forall j n f,
        nth_error (seed_slots st nodes) j = Some (n, f) ->
        read_input st' n f
        = Ok (VInt (reduce_seed (uuid4_int w (uuids st + j))))).
Proof.
  induction nodes as [|node rest IH]; intros st st' wf Hwf Hnd Hrun.
  - inversion Hrun; subst. cbn. split; [eauto|]. split; [lia|].
    split; [reflexivity|]. split; [reflexivity|].
    intros [|j] n f H; discriminate.
  - rewrite for_each_cons in Hrun. unfold bind in Hrun.
    destruct (set_seed_node w node st) as [[[]|e|] st1] eqn:Hnode;
      try discriminate.
    destruct (set_seed_node_return _ _ _ _ Hwf Hnode)
      as ([wf1 Hwf1] & Hu1 & Hh1 & Hframe1 & Hslots1).
    inversion Hnd as [|? ? Hnotin Hnd']; subst.
    destruct (IH _ _ _ Hwf1 Hnd' Hrun) as (Hwf' & Hu & Hh & Hframe & Hslots).
    rewrite (seed_slots_ext _ _ _ Hh1) in Hu, Hslots.
    cbn [seed_slots flat_map]. fold (seed_slots st rest).
    split; [exact Hwf'|]. split; [rewrite length_app; lia|].
    split; [intros n f; now rewrite Hh, Hh1|].
    split.
    + intros n f Hn. rewrite Hframe, Hframe1; [reflexivity| |];
        intros H; apply Hn; [now left|now right].
    + intros j n f Hj.
      destruct (Nat.lt_ge_cases j (List.length (seed_slots_of st node)))
        as [Hlt|Hge].
      * rewrite nth_error_app1 in Hj by exact Hlt.
        pose proof (seed_slots_of_node _ _ _ _ _ Hj) as ->.
        rewrite Hframe by exact Hnotin. now apply Hslots1.
      * rewrite nth_error_app2 in Hj by exact Hge.
        rewrite (Hslots _ _ _ Hj), Hu1.
        replace (uuids st + List.length (seed_slots_of st node)
                 + (j - List.length (seed_slots_of st node)))%nat
          with (uuids st + j)%nat by lia.
        reflexivity.
Qed.

Lemma config_list_run (st : state) (config : list (string * value))
  (key : string) (nodes : list value) :
  config_data st = VDict config ->
  dict_lookup key config = Some (VList nodes) ->
  config_list key st = (Return nodes, st).
Proof.
  intros Hc Hk. unfold config_list, bind, gets, lift. rewrite Hc.
  cbn [py_getitem]. rewrite Hk. reflexivity.
Qed.

(** C7: every seed is a non-negative integer below 10^10, obtained by
    reducing one draw of [uuid4]: the draw [u] itself modulo 10^10 when
    [u] is below 2^53, and otherwise [r] modulo 10^10 where [r] is the
    double next to [u] (a multiple of the unit in the last place of [u],
    [2^(log2 u - 52)], at most half a unit away from [u]).  Every seed
    field filled in one invocation gets a draw of its own: the seed loop
    makes exactly one draw per field it fills, and the field filled in
    position [j] (nodes in list order, [seed] before [noise_seed]) holds
    the reduction of draw number [j] counted from the loop's start. *)
Theorem seeds_in_range_one_draw_each :
  (forall u, 0 <= reduce_seed u < 10 ^ 10) /\
  (forall u, 0 <= u < 2 ^ 53 -> reduce_seed u = u mod 10 ^ 10) /\
  (forall u,
      2 ^ 53 <= u ->
      exists r,
        reduce_seed u = r mod 10 ^ 10 /\
        r mod 2 ^ (Z.log2 u - 52) = 0 /\
        2 * Z.abs (u - r) <= 2 ^ (Z.log2 u - 52)) /\
  (forall st,
      make_random_seed w st
      = (Return (VInt (reduce_seed (uuid4_int w (uuids st)))),
         with_uuids st (S (uuids st)))) /\
  (forall st st' wf config nodes,
      workflow_data st = VDict wf ->
      config_data st = VDict config ->
      dict_lookup seed_nodes_key config = Some (VList nodes) ->
      NoDup nodes ->
      set_seeds w st = (Return tt, st') ->
      uuids st' = (uuids st + List.length (seed_slots st nodes))%nat /\
      forall j node field,
        nth_error (seed_slots st nodes) j = Some (node, field) ->
        exists seed,
          read_input st' node field = Ok (VInt seed) /\
          seed = reduce_seed (uuid4_int w (uuids st + j)) /\
          0 <= seed < 10 ^ 10).
Proof.
  split; [exact reduce_seed_range|].
  split; [intros u Hu; unfold reduce_seed; now rewrite float_of_int_exact|].
  split.
  { intros u Hu. exists (float_of_int u). split; [reflexivity|].
    now apply float_of_int_nearest. }
  split; [exact make_random_seed_run|].
  intros st st' wf config nodes Hwf Hc Hk Hnd Hrun.
  unfold set_seeds in Hrun.
  rewrite (bind_return _ _ _ _ _ (config_list_run _ _ _ _ Hc Hk)) in Hrun.
  destruct (seed_loop_return _ _ _ _ Hwf Hnd Hrun)
    as (_ & Hu & _ & _ & Hslots).
  split; [exact Hu|].
  intros j node field Hj.
  exists (reduce_seed (uuid4_int w (uuids st + j))).
  split; [exact (Hslots _ _ _ Hj)|].
  split; [reflexivity|apply reduce_seed_range].
Qed.

(** ** What the stages leave alone, and that they end *)

Section Keeps.
Variable R : state -> state -> Prop.
Hypothesis R_refl : forall st, R st st.
Hypothesis R_trans : forall a b c, R a b -> R b c -> R a c.

Lemma keeps_ret {A} (a : A) : keeps R (ret a).
Proof. intros st. apply R_refl. Qed.

Lemma keeps_lift {A} (r : result A) : keeps R (lift r).
Proof. intros st. destruct r; apply R_refl. Qed.

Lemma keeps_raise {A} (e : exn) : keeps R (@raise A e).
Proof. intros st. apply R_refl. Qed.

Lemma keeps_running {A} : keeps R (@running A).
Proof. intros st. apply R_refl. Qed.

Lemma keeps_gets {A} (f : state -> A) : keeps R (gets f).
Proof. intros st. apply R_refl. Qed.

Lemma keeps_check (err : option exn) : keeps R (check err).
Proof. destruct err; [apply keeps_raise|apply keeps_ret]. Qed.

Lemma keeps_modify (f : state -> state) :
  (forall st, R st (f st)) -> keeps R (modify f).
Proof. intros H st. apply H. Qed.

Lemma keeps_bind {A B} (c : M A) (f : A -> M B) :
  keeps R c -> (forall a, keeps R (f a)) -> keeps R (bind c f).
Proof.
  intros Hc Hf st. specialize (Hc st). unfold bind.
  destruct (c st) as [[a|e|] st1]; cbn [snd] in *; auto.
  eapply R_trans; [exact Hc|apply Hf].
Qed.

Lemma keeps_try_except {A} (body : M A) (handler : exn -> M A) :
  keeps R body -> (forall e, keeps R (handler e)) ->
  keeps R (try_except body handler).
Proof.
  intros Hb Hh st. specialize (Hb st). unfold try_except.
  destruct (body st) as [[a|e|] st1]; cbn [snd] in *; auto.
  eapply R_trans; [exact Hb|apply Hh].
Qed.

Lemma keeps_for_each {A} (l : list A) (body : A -> M unit) :
  (forall x, keeps R (body x)) -> keeps R (for_each l body).
Proof.
  intros Hb. induction l as [|x l IH]; cbn [for_each].
  - apply keeps_ret.
  - apply keeps_bind; auto.
Qed.

(** The stages, given what [R] tolerates. *)
Hypothesis R_uuids : forall st n, R st (with_uuids st n).
Hypothesis R_requests : forall st, R st (sent st).
Hypothesis R_timeline : forall st l, R st (with_timeline st l).

Lemma keeps_http {A} (oracle : nat -> result A) : keeps R (http oracle).
Proof.
  intros st. unfold http.
  destruct (oracle (requests st)); apply R_requests.
Qed.

Lemma keeps_uuid4 : keeps R (uuid4 w).
Proof. intros st. apply R_uuids. Qed.

Lemma keeps_set_input_workflow (node : value) (field : string)
  (v : value) :
  (forall st wf, R st (with_workflow st wf)) ->
  keeps R (set_input node field v).
Proof.
  intros R_workflow st. unfold set_input, bind, gets, lift, modify.
  destruct (py_getitem (workflow_data st) node); [|apply R_refl].
  destruct (py_getitem a (VStr inputs_key)); [|apply R_refl].
  destruct (py_setitem a0 field v); [apply R_workflow|apply R_refl].
Qed.

Ltac step_keeps :=
  first
    [ apply keeps_ret | apply keeps_lift | apply keeps_raise
    | apply keeps_running
    | apply keeps_gets | apply keeps_check
    | apply keeps_http | apply keeps_uuid4
    | apply keeps_modify; intros; apply R_timeline
    | apply keeps_for_each; intros
    | apply keeps_bind; [|intros]
    | match goal with
      | |- keeps _ (if ?b then _ else _) => destruct b
      | |- keeps _ (match ?x with _ => _ end) => destruct x
      | |- keeps _ (let (_, _) := ?x in _) => destruct x
      end ].

Section Injector.
Hypothesis R_set_input :
  forall node field v, keeps R (set_input node field v).

Lemma keeps_set_size_node (width height node : value) :
  keeps R (set_size_node width height node).
Proof.
  unfold set_size_node, has_input, node_inputs.
  repeat first [apply R_set_input | step_keeps].
Qed.

Lemma keeps_set_seed_node (node : value) :
  keeps R (set_seed_node w node).
Proof.
  unfold set_seed_node, has_input, node_inputs, make_random_seed.
  repeat first [apply R_set_input | step_keeps].
Qed.

Lemma keeps_build_payload (prompt aspect_ratio : value) :
  keeps R (build_payload w prompt aspect_ratio).
Proof.
  unfold build_payload, resolve_size, set_image_size, set_seeds,
    set_prompt, config_list.
  repeat first [apply R_set_input | apply keeps_set_size_node
               | apply keeps_set_seed_node | step_keeps].
Qed.

Lemma keeps_submit_job (prompt aspect_ratio : value) :
  keeps R (submit_job w prompt aspect_ratio).
Proof.
  unfold submit_job, queue_prompt.
  repeat first [apply keeps_build_payload | step_keeps].
Qed.
End Injector.

Lemma keeps_wait_for_completion (fuel : nat) (prompt_id : value) :
  keeps R (wait_for_completion w fuel prompt_id).
Proof.
  induction fuel as [|fuel IH]; cbn [wait_for_completion].
  - apply keeps_running.
  - unfold get_history, sleep. repeat first [apply IH | step_keeps].
Qed.

Lemma keeps_fetch_images (images : list value) :
  forall acc, keeps R (fetch_images w images acc).
Proof.
  induction images as [|image rest IH]; intros acc; cbn [fetch_images].
  - apply keeps_ret.
  - unfold get_image. repeat first [apply IH | step_keeps].
Qed.

Lemma keeps_collect_outputs (history : value) (node_ids : list value) :
  forall acc, keeps R (collect_outputs w history node_ids acc).
Proof.
  induction node_ids as [|node_id rest IH]; intros acc;
    cbn [collect_outputs].
  - apply keeps_ret.
  - repeat first [apply IH | apply keeps_fetch_images | step_keeps].
Qed.

Lemma keeps_retrieve_images (prompt_id : value) :
  keeps R (retrieve_images w prompt_id).
Proof.
  unfold retrieve_images, get_history.
  repeat first [apply keeps_collect_outputs | step_keeps].
Qed.

Hypothesis R_clock_reads : forall st n, R st (with_clock_reads st n).
Hypothesis R_files : forall st fs, R st (with_files st fs).

Ltac step_keeps_disk :=
  first
    [ apply keeps_modify; intros; first [apply R_clock_reads | apply R_files]
    | step_keeps ].

Lemma keeps_save_image (title : value) (output_images : output_map) :
  keeps R (save_image w cfg title output_images).
Proof. unfold save_image. repeat step_keeps_disk. Qed.

Lemma keeps_write_prompt_file (image_filename : string) (prompt : value) :
  keeps R (write_prompt_file w cfg image_filename prompt).
Proof. unfold write_prompt_file. repeat step_keeps_disk. Qed.
End Keeps.

Lemma halts_ret {A} (a : A) : halts (ret a).
Proof. intros st; discriminate. Qed.

Lemma halts_lift {A} (r : result A) : halts (lift r).
Proof. intros st; destruct r; discriminate. Qed.

Lemma halts_raise {A} (e : exn) : halts (@raise A e).
Proof. intros st; discriminate. Qed.

Lemma halts_gets {A} (f : state -> A) : halts (gets f).
Proof. intros st; discriminate. Qed.

Lemma halts_check (err : option exn) : halts (check err).
Proof. destruct err; [apply halts_raise|apply halts_ret]. Qed.

Lemma halts_modify (f : state -> state) : halts (modify f).
Proof. intros st; discriminate. Qed.

Lemma halts_bind {A B} (c : M A) (f : A -> M B) :
  halts c -> (forall a, halts (f a)) -> halts (bind c f).
Proof.
  intros Hc Hf st. specialize (Hc st). unfold bind.
  destruct (c st) as [[a|e|] st1]; cbn [fst] in *;
    [apply Hf|discriminate|contradiction].
Qed.

Lemma halts_try_except {A} (body : M A) (handler : exn -> M A) :
  halts body -> (forall e, halts (handler e)) ->
  halts (try_except body handler).
Proof.
  intros Hb Hh st. specialize (Hb st). unfold try_except.
  destruct (body st) as [[a|e|] st1]; cbn [fst] in *;
    [discriminate|apply Hh|contradiction].
Qed.

Lemma halts_for_each {A} (l : list A) (body : A -> M unit) :
  (forall x, halts (body x)) -> halts (for_each l body).
Proof.
  intros Hb. induction l as [|x l IH]; cbn [for_each].
  - apply halts_ret.
  - apply halts_bind; auto.
Qed.

Lemma halts_http {A} (oracle : nat -> result A) : halts (http oracle).
Proof. intros st. unfold http. apply halts_lift. Qed.

Lemma halts_uuid4 : halts (uuid4 w).
Proof. intros st; discriminate. Qed.

Ltac step_halts :=
  first
    [ apply halts_ret | apply halts_lift | apply halts_raise
    | apply halts_gets | apply halts_check | apply halts_modify
    | apply halts_http | apply halts_uuid4
    | apply halts_for_each; intros
    | apply halts_bind; [|intros]
    | match goal with
      | |- halts (if ?b then _ else _) => destruct b
      | |- halts (match ?x with _ => _ end) => destruct x
      | |- halts (let (_, _) := ?x in _) => destruct x
      end ].

Lemma halts_set_input (node : value) (field : string) (v : value) :
  halts (set_input node field v).
Proof. unfold set_input. repeat step_halts. Qed.

Lemma halts_has_input (node : value) (field : string) :
  halts (has_input node field).
Proof. unfold has_input, node_inputs. repeat step_halts. Qed.

Lemma halts_build_payload (prompt aspect_ratio : value) :
  halts (build_payload w prompt aspect_ratio).
Proof.
  unfold build_payload, resolve_size, set_image_size, set_seeds, set_prompt,
    set_size_node, set_seed_node, config_list, make_random_seed.
  repeat first [apply halts_set_input | apply halts_has_input | step_halts].
Qed.







(** ** C9: errors stop at the handler *)


(* the handler, case by case on what the pipeline did *)
Lemma handle_call_tool_cases (fuel : nat) (arguments : list (string * value))
  (st : state) :
  handle_call_tool w cfg fuel "image_generate" arguments st
  = match comfyui_generate_image w cfg fuel (call_prompt arguments)
            (call_title arguments) (call_aspect_ratio arguments) st with
    | (Return (Some f, markdown), st1) =>
        if String.eqb f "" then (Return (text_block markdown), st1)
        else
          match write_prompt_file w cfg f (call_prompt arguments) st1 with
          | (Return _, st2) => (Return (text_block markdown), st2)
          | (Raise e, st2) =>
              (Return (text_block ("Error generating image: "
                                   ++ str_exn w e)), st2)
          | (Running, st2) => (Running, st2)
          end
    | (Return (None, markdown), st1) => (Return (text_block markdown), st1)
    | (Raise e, st1) =>
        (Return (text_block ("Error generating image: " ++ str_exn w e)), st1)
    | (Running, st1) => (Running, st1)
    end.
Proof.
  unfold handle_call_tool. cbn [String.eqb Ascii.eqb Bool.eqb].
  unfold try_except, bind, call_prompt, call_title, call_aspect_ratio.
  destruct (comfyui_generate_image _ _ _ _ _ _ _) as [[[[f|] md]|e|] st1];
    try reflexivity.
  destruct (String.eqb f ""); cbn [negb]; [reflexivity|].
  destruct (write_prompt_file _ _ _ _ _) as [[[]|e|] st2]; reflexivity.
Qed.



(* the module body, by the two files it reads *)
Lemma module_init_steps :
  module_init w
  = match filter (env_missing w) required_vars with
    | _ :: _ =>
        Err (ValueError
               ("Missing required environment variables: "
                  ++ join ", " (filter (env_missing w) required_vars)
                  ++ ". Please set these in your .env file."))
    | [] =>
        rbind (json_load w (workflow_json_path w)) (fun workflow =>
        rbind (yaml_safe_load w (config_yaml_path w)) (fun config =>
        rbind (fill_aspect_ratios config) (fun config' =>
          Ok ({| comfyui_host := getenv_default w "COMFYUI_HOST" "127.0.0.1";
                 comfyui_port := getenv_default w "COMFYUI_PORT" "8188";
                 output_dir := getenv_default w "OUTPUT_DIR" "./output";
                 image_app_base_url :=
                   getenv_default w "IMAGE_APP_BASE_URL"
                     "http://127.0.0.1:8081/view";
                 comfyui_workflow_name :=
                   getenv_default w "COMFYUI_WORKFLOW_NAME" "flux-krea";
                 working_dir := startup_working_dir w |},
              {| workflow_data := workflow; config_data := config';
                 uuids := 0; requests := 0; clock_reads := 0;
                 timeline := []; files := [] |}))))
    end.
Proof.
  unfold module_init. cbv zeta.
  destruct (filter (env_missing w) required_vars); reflexivity.
Qed.



(** ** C4: no image on the save node *)

Lemma out_set_str_keys (k : string) (v : list bytes) (acc : output_map) :
  str_keys acc -> str_keys (out_set (VStr k) v acc).
Proof.
  unfold str_keys. induction 1 as [|[k0 v0] acc [a Ha] Hacc IH];
    cbn [out_set].
  - constructor; [now exists k|constructor].
  - cbn [fst] in Ha. subst k0. cbn [value_eqb].
    destruct (String.eqb k a); constructor; cbn [fst]; eauto.
Qed.

Lemma out_get_set (s k : string) (v : list bytes) (acc : output_map) :
  str_keys acc ->
  out_get s (out_set (VStr k) v acc)
  = if String.eqb s k then v else out_get s acc.
Proof.
  unfold str_keys. induction 1 as [|[k0 v0] acc [a Ha] Hacc IH];
    cbn [out_set out_get value_eqb].
  - destruct (String.eqb s k); reflexivity.
  - cbn [fst] in Ha. subst k0. cbn [value_eqb].
    destruct (String.eqb_spec k a) as [->|Hka]; cbn [out_get value_eqb].
    + destruct (String.eqb s a); reflexivity.
    + destruct (String.eqb_spec s a) as [->|Hsa].
      * destruct (String.eqb_spec a k); [congruence|reflexivity].
      * exact IH.
Qed.

(* the loop over the output nodes never puts an image under the save
   node's key *)
Lemma collect_outputs_no_save (history : value)
  (outputs : list (string * value)) (s : string) :
  py_getitem history (VStr "outputs") = Ok (VDict outputs) ->
  no_save_node_images outputs s ->
  forall keys acc st o st',
    str_keys acc ->
    out_get s acc = [] ->
    collect_outputs w history (map VStr keys) acc st = (Return o, st') ->
    out_get s o = [].
Proof.
  intros Hout Hno. induction keys as [|k keys IH];
    intros acc st o st' Hkeys Hacc Hrun; cbn [map collect_outputs] in Hrun.
  - inversion Hrun; now subst.
  - unfold bind at 1 in Hrun. rewrite Hout in Hrun. cbn [lift] in Hrun.
    unfold bind at 1 in Hrun. cbn [py_getitem] in Hrun.
    destruct (dict_lookup k outputs) as [node_output|] eqn:Hk;
      cbn [lift] in Hrun; [|discriminate].
    unfold bind at 1 in Hrun.
    destruct (py_contains (VStr "images") node_output) as [has|e] eqn:Hc;
      cbn [lift] in Hrun; [|discriminate].
    unfold bind at 1 in Hrun.
    match type of Hrun with
    | context [match ?c st with _ => _ end] =>
        destruct (c st) as [[images_output|e|] st1] eqn:Himg
    end; try discriminate.
    cbn [hashable] in Hrun.
    apply IH in Hrun; [exact Hrun|now apply out_set_str_keys|].
    rewrite out_get_set by exact Hkeys.
    destruct (String.eqb_spec s k) as [->|Hne]; [|exact Hacc].
    unfold no_save_node_images in Hno. rewrite Hk in Hno.
    destruct Hno as [Hfalse | (Htrue & images & Hg & Hi)].
    + rewrite Hc in Hfalse. inversion Hfalse; subst has.
      inversion Himg. reflexivity.
    + rewrite Hc in Htrue. inversion Htrue; subst has.
      unfold bind in Himg. rewrite Hg in Himg. cbn [lift] in Himg.
      rewrite Hi in Himg. cbn [lift fetch_images] in Himg.
      inversion Himg. reflexivity.
Qed.

Lemma retrieve_images_no_save (prompt_id response history : value)
  (outputs : list (string * value)) (s : string) (st : state) :
  get_history_response w (requests st) prompt_id = Ok response ->
  py_getitem response prompt_id = Ok history ->
  py_getitem history (VStr "outputs") = Ok (VDict outputs) ->
  no_save_node_images outputs s ->
  forall o st',
    retrieve_images w prompt_id st = (Return o, st') -> out_get s o = [].
Proof.
  intros Hr Hh Hout Hno o st'. unfold retrieve_images.
  unfold bind at 1, get_history, http. rewrite Hr. cbn [lift].
  unfold bind at 1. rewrite Hh. cbn [lift].
  unfold bind at 1. rewrite Hout. cbn [lift].
  unfold bind at 1. cbn [py_iter lift].
  apply (collect_outputs_no_save _ _ _ Hout Hno); [constructor|reflexivity].
Qed.

(* a terminal history without [outputs]: line 188 raises KeyError *)
Lemma retrieve_images_no_outputs (prompt_id response : value)
  (h : list (string * value)) (st : state) :
  get_history_response w (requests st) prompt_id = Ok response ->
  py_getitem response prompt_id = Ok (VDict h) ->
  dict_lookup "outputs" h = None ->
  retrieve_images w prompt_id st
  = (Raise (KeyError (VStr "outputs")), sent st).
Proof.
  intros Hr Hh Hout. unfold retrieve_images.
  unfold bind at 1, get_history, http. rewrite Hr. cbn [lift].
  unfold bind at 1. rewrite Hh. cbn [lift].
  unfold bind at 1. cbn [py_getitem]. rewrite Hout. reflexivity.
Qed.

Lemma save_image_none (title save_node : value) (o : output_map)
  (st : state) :
  py_getitem (config_data st) (VStr save_image_node_key) = Ok save_node ->
  out_get (py_str w save_node) o = [] ->
  save_image w cfg title o st = (Return (None, no_image_message), st).
Proof.
  intros Hs Ho. unfold save_image, bind, gets. rewrite Hs. cbn [lift].
  rewrite Ho. reflexivity.
Qed.

Lemma same_files_and_config_refl (st : state) : same_files_and_config st st.
Proof. now split. Qed.

Lemma same_files_and_config_trans (a b c : state) :
  same_files_and_config a b -> same_files_and_config b c ->
  same_files_and_config a c.
Proof. intros [H1 H2] [H3 H4]. split; congruence. Qed.

(* submitting, polling and collecting the outputs write no file and do
   not touch the config *)
Lemma generate_prefix_same_files (fuel : nat) (prompt aspect_ratio : value)
  (st : state) :
  same_files_and_config st
    (snd (bind (submit_job w prompt aspect_ratio)
            (fun prompt_id =>
               bind (wait_for_completion w fuel prompt_id)
                 (fun _ => retrieve_images w prompt_id)) st)).
Proof.
  revert st.
  assert (Hw : forall st wf, same_files_and_config st (with_workflow st wf))
    by (intros; now split).
  assert (Hu : forall st n, same_files_and_config st (with_uuids st n))
    by (intros; now split).
  assert (Hq : forall st, same_files_and_config st (sent st))
    by (intros; now split).
  assert (Hs : forall st l, same_files_and_config st (with_timeline st l))
    by (intros; now split).
  pose proof same_files_and_config_refl as Hrefl.
  pose proof same_files_and_config_trans as Htrans.
  apply keeps_bind; [exact Htrans| |intros pid; apply keeps_bind;
                                   [exact Htrans| |intros _]].
  - apply keeps_submit_job; try assumption.
    intros node field v. now apply keeps_set_input_workflow.
  - now apply keeps_wait_for_completion.
  - now apply keeps_retrieve_images.
Qed.

(** C4, amended: the code has no NoOutputError.  Take a terminal history
    for the job.  When it has an [outputs] mapping in which the node
    designated [save_image_node] has no image (the node is missing from
    it, or has no images list, or an empty one) and the images of the
    other nodes are retrieved without error, the pipeline raises
    nothing: it returns the pair of [None] and "Unspecified error. No
    image generated.", whatever the other nodes produced, writes no
    file, and the handler returns that sentence as its one text block.
    When retrieval itself raises, the handler returns the one text block
    "Error generating image: " followed by the error's text, and no file
    is written either; that is the case of a history without [outputs],
    where the error is the KeyError of that key. *)
Theorem no_image_without_save_node_output (fuel : nat)
  (arguments : list (string * value)) (st st1 st2 : state)
  (prompt_id response history save_node : value) :
  submit_job w (call_prompt arguments) (call_aspect_ratio arguments) st
  = (Return prompt_id, st1) ->
  wait_for_completion w fuel prompt_id st1 = (Return tt, st2) ->
  get_history_response w (requests st2) prompt_id = Ok response ->
  py_getitem response prompt_id = Ok history ->
  py_getitem (config_data st) (VStr save_image_node_key) = Ok save_node ->
  (forall outputs o st3,
      py_getitem history (VStr "outputs") = Ok (VDict outputs) ->
      no_save_node_images outputs (py_str w save_node) ->
      retrieve_images w prompt_id st2 = (Return o, st3) ->
      comfyui_generate_image w cfg fuel (call_prompt arguments)
        (call_title arguments) (call_aspect_ratio arguments) st
      = (Return (None, "Unspecified error. No image generated."), st3) /\
      handle_call_tool w cfg fuel "image_generate" arguments st
      = (Return [{| type_ := "text";
                    text := "Unspecified error. No image generated." |}],
         st3) /\
      files st3 = files st) /\
  (forall e st3,
      retrieve_images w prompt_id st2 = (Raise e, st3) ->
      comfyui_generate_image w cfg fuel (call_prompt arguments)
        (call_title arguments) (call_aspect_ratio arguments) st
      = (Raise e, st3) /\
      handle_call_tool w cfg fuel "image_generate" arguments st
      = (Return [{| type_ := "text";
                    text := "Error generating image: " ++ str_exn w e |}],
         st3) /\
      files st3 = files st) /\
  (forall h,
      history = VDict h ->
      dict_lookup "outputs" h = None ->
      handle_call_tool w cfg fuel "image_generate" arguments st
      = (Return [{| type_ := "text";
                    text := "Error generating image: "
                            ++ repr w (VStr "outputs") |}],
         sent st2)).
Proof.
  intros Hsub Hwait Hr Hh Hsave.
  pose proof (generate_prefix_same_files fuel (call_prompt arguments)
                (call_aspect_ratio arguments) st) as Hkeep.
  unfold bind at 1 in Hkeep. rewrite Hsub in Hkeep.
  unfold bind at 1 in Hkeep. rewrite Hwait in Hkeep.
  assert (Hgen :
    comfyui_generate_image w cfg fuel (call_prompt arguments)
      (call_title arguments) (call_aspect_ratio arguments) st
    = bind (retrieve_images w prompt_id)
        (fun o => save_image w cfg (call_title arguments) o) st2).
  { unfold comfyui_generate_image. unfold bind at 1. rewrite Hsub.
    unfold bind at 1. now rewrite Hwait. }
  rewrite handle_call_tool_cases, Hgen. clear Hgen.
  split; [|split].
  - intros outputs o st3 Hout Hno Hret.
    rewrite Hret in Hkeep. cbn [snd] in Hkeep.
    destruct Hkeep as [Hfiles Hconfig].
    pose proof (retrieve_images_no_save _ _ _ _ _ _ Hr Hh Hout Hno _ _ Hret)
      as Hnone.
    rewrite <- Hconfig in Hsave.
    rewrite (bind_return _ _ _ _ _ Hret).
    rewrite (save_image_none _ _ _ _ Hsave Hnone).
    now repeat split.
  - intros e st3 Hret.
    rewrite Hret in Hkeep. cbn [snd] in Hkeep.
    destruct Hkeep as [Hfiles _].
    rewrite (bind_raise _ _ _ _ _ Hret). now repeat split.
  - intros h -> Hout.
    now rewrite (bind_raise _ _ _ _ _
                   (retrieve_images_no_outputs _ _ _ _ Hr Hh Hout)).
Qed.

(** ** C3: the prompt file next to the image *)

Lemma bind_return_inv {A B} (c : M A) (f : A -> M B) st b st' :
  bind c f st = (Return b, st') ->
  exists a st1, c st = (Return a, st1) /\ f a st1 = (Return b, st').
Proof.
  unfold bind. destruct (c st) as [[a|e|] st1]; try discriminate.
  intros H. now exists a, st1.
Qed.

Lemma save_image_filename (title : value) (o : output_map) (st st' : state)
  (f markdown : string) :
  save_image w cfg title o st = (Return (Some f, markdown), st') ->
  f <> "".
Proof.
  unfold save_image, bind, gets, lift, check, raise, ret, modify.
  intros H.
  repeat match type of H with
         | context [match ?x with _ => _ end] =>
             destruct x eqn:?; try discriminate
         end;
    inversion H; subst;
    match goal with
    | |- (?a ++ _)%string <> _ => destruct a; discriminate
    end.
Qed.

Lemma generate_filename (fuel : nat) (prompt title aspect_ratio : value)
  (st st' : state) (f markdown : string) :
  comfyui_generate_image w cfg fuel prompt title aspect_ratio st
  = (Return (Some f, markdown), st') ->
  f <> "".
Proof.
  unfold comfyui_generate_image. intros H.
  apply bind_return_inv in H. destruct H as (pid & st1 & _ & H).
  apply bind_return_inv in H. destruct H as (u & st2 & _ & H).
  apply bind_return_inv in H. destruct H as (o & st3 & _ & H).
  now apply save_image_filename in H.
Qed.

Lemma write_prompt_file_raise (f : string) (prompt : value)
  (st st' : state) (e : exn) :
  write_prompt_file w cfg f prompt st = (Raise e, st') ->
  forall p,
    p <> path_join (output_dir cfg) (str_replace ".png" ".txt" f) ->
    dict_lookup p (files st') = dict_lookup p (files st).
Proof.
  unfold write_prompt_file. intros H p Hp.
  unfold bind at 1, check at 1 in H.
  destruct (open_write_error w _) as [e1|]; unfold raise, ret in H.
  - now inversion H.
  - unfold bind at 1, modify at 1 in H.
    destruct prompt as [| | | |content| |];
      try (inversion H; subst; cbn [files with_files];
           now apply dict_lookup_set_other).
    unfold bind, check, modify in H.
    destruct (write_error w _ content) as [e2|]; unfold raise, ret in H;
      [|discriminate].
    inversion H; subst; cbn [files with_files].
    now apply dict_lookup_set_other.
Qed.

(** C3, amended: when the pipeline has written the image and returned
    its file name and reference string, and writing the prompt file then
    fails with an error [e], the tool call does not return the reference
    string: the handler catches [e] like any other error and returns the
    one text block "Error generating image: " followed by [str(e)].  It
    does not raise, and every file other than the prompt file is left
    as the pipeline wrote it. *)
Theorem sidecar_failure_becomes_error_text (fuel : nat)
  (arguments : list (string * value)) (st st1 st2 : state)
  (f markdown : string) (e : exn) :
  comfyui_generate_image w cfg fuel (call_prompt arguments)
    (call_title arguments) (call_aspect_ratio arguments) st
  = (Return (Some f, markdown), st1) ->
  write_prompt_file w cfg f (call_prompt arguments) st1 = (Raise e, st2) ->
  handle_call_tool w cfg fuel "image_generate" arguments st
  = (Return [{| type_ := "text";
                text := "Error generating image: " ++ str_exn w e |}], st2)
  /\
  forall p,
    p <> path_join (output_dir cfg) (str_replace ".png" ".txt" f) ->
    dict_lookup p (files st2) = dict_lookup p (files st1).
Proof.
  intros Hgen Hwrite. split.
  - rewrite handle_call_tool_cases, Hgen.
    pose proof (generate_filename _ _ _ _ _ _ _ _ Hgen) as Hf.
    destruct (String.eqb_spec f ""); [contradiction|].
    now rewrite Hwrite.
  - exact (write_prompt_file_raise _ _ _ _ _ Hwrite).
Qed.

(** ** C2: a role list that names a node the template does not have *)

Lemma raises_bind_now {A B} (I : state -> Prop) (c : M A) (f : A -> M B) :
  raises_from I c -> raises_from I (bind c f).
Proof.
  intros Hc st Hst. destruct (Hc st Hst) as [e He]. exists e.
  unfold bind. destruct (c st) as [[a|e'|] st1]; cbn [fst] in *;
    congruence.
Qed.

Lemma raises_bind_later {A B} (I : state -> Prop) (c : M A)
  (f : A -> M B) :
  halts c ->
  keeps (fun st st' => I st -> I st') c ->
  (forall a, raises_from I (f a)) ->
  raises_from I (bind c f).
Proof.
  intros Hh Hk Hf st Hst. specialize (Hh st). specialize (Hk st Hst).
  unfold bind. destruct (c st) as [[a|e|] st1]; cbn [fst snd] in *.
  - now apply Hf.
  - now exists e.
  - contradiction.
Qed.

Lemma for_each_raises {A} (I : state -> Prop) (body : A -> M unit)
  (x0 : A) (l : list A) :
  (forall x, halts (body x)) ->
  (forall x, keeps (fun st st' => I st -> I st') (body x)) ->
  raises_from I (body x0) ->
  In x0 l ->
  raises_from I (for_each l body).
Proof.
  intros Hh Hk Hx0. induction l as [|x l IH]; intros Hin; [contradiction|].
  cbn [for_each]. destruct Hin as [->|Hin].
  - now apply raises_bind_now.
  - apply raises_bind_later; auto.
Qed.

Section MissingNode.
Variable a : string.
Variable config : list (string * value).

Let R := still_lacks a config.

Lemma still_lacks_refl (st : state) : R st st.
Proof. intros H; exact H. Qed.

Lemma still_lacks_trans (s1 s2 s3 : state) : R s1 s2 -> R s2 s3 -> R s1 s3.
Proof. unfold R, still_lacks. auto. Qed.

Lemma still_lacks_uuids (st : state) (n : nat) : R st (with_uuids st n).
Proof. intros H; exact H. Qed.

Lemma still_lacks_set_input (node : value) (field : string) (v : value) :
  keeps R (set_input node field v).
Proof.
  intros st [Hc (wf & Hwf & Ha)].
  destruct (set_input node field v st) as [[[]|e|] st1] eqn:Hrun;
    cbn [snd].
  - destruct (set_input_return _ _ _ _ _ _ Hwf Hrun)
      as (b & n & i & -> & Hb & Hi & ->).
    split; [exact Hc|]. eexists. split; [reflexivity|].
    rewrite dict_lookup_set_other; [exact Ha|congruence].
  - destruct (set_input_not_return node field v st)
      as [[st' H]|[e' H]]; rewrite H in Hrun; inversion Hrun; subst.
    split; [exact Hc|]. now exists wf.
  - destruct (halts_set_input node field v st). now rewrite Hrun.
Qed.

Lemma has_input_missing (field : string) :
  raises_from (lacks_node a config) (has_input (VStr a) field).
Proof.
  intros st [_ (wf & Hwf & Ha)]. exists (KeyError (VStr a)).
  rewrite has_input_run, (inputs_of_dict _ _ _ Hwf), Ha. reflexivity.
Qed.

Lemma set_input_missing (field : string) (v : value) :
  raises_from (lacks_node a config) (set_input (VStr a) field v).
Proof.
  intros st [_ (wf & Hwf & Ha)]. exists (KeyError (VStr a)).
  unfold set_input, bind, gets, lift. rewrite Hwf. cbn [py_getitem].
  now rewrite Ha.
Qed.

Lemma config_list_lacks (key : string) (nodes : list value)
  (body : value -> M unit) :
  dict_lookup key config = Some (VList nodes) ->
  raises_from (lacks_node a config) (for_each nodes body) ->
  raises_from (lacks_node a config)
    (bind (config_list key) (fun l => for_each l body)).
Proof.
  intros Hk Hloop st Hst. destruct (Hloop st Hst) as [e He].
  exists e. destruct Hst as [Hc _].
  now rewrite (bind_return _ _ _ _ _ (config_list_run _ _ _ _ Hc Hk)).
Qed.

Lemma build_payload_missing_node (prompt aspect_ratio : value)
  (key : string) (nodes : list value) :
  In key [image_size_nodes_key; seed_nodes_key; prompt_nodes_key] ->
  dict_lookup key config = Some (VList nodes) ->
  In (VStr a) nodes ->
  raises_from (lacks_node a config) (build_payload w prompt aspect_ratio).
Proof.
  intros Hkey Hk Hin.
  pose proof still_lacks_refl as Hrefl.
  pose proof still_lacks_trans as Htrans.
  pose proof still_lacks_uuids as Huuids.
  pose proof still_lacks_set_input as Hset.
  assert (Hsize : forall width height,
             keeps R (set_image_size width height)).
  { intros. unfold set_image_size, config_list.
    repeat first
      [ apply keeps_set_size_node; assumption
      | apply keeps_for_each; [exact Hrefl|exact Htrans|intros]
      | apply keeps_gets; exact Hrefl
      | apply keeps_lift; exact Hrefl
      | apply keeps_bind; [exact Htrans| |intros] ]. }
  assert (Hseeds : keeps R (set_seeds w)).
  { unfold set_seeds, config_list.
    repeat first
      [ apply keeps_set_seed_node; assumption
      | apply keeps_for_each; [exact Hrefl|exact Htrans|intros]
      | apply keeps_gets; exact Hrefl
      | apply keeps_lift; exact Hrefl
      | apply keeps_bind; [exact Htrans| |intros] ]. }
  unfold build_payload.
  apply raises_bind_later;
    [apply halts_uuid4|now apply keeps_uuid4|intros u].
  apply raises_bind_later;
    [unfold resolve_size; repeat step_halts
    |unfold resolve_size;
     repeat first [ apply keeps_gets; exact Hrefl
                  | apply keeps_lift; exact Hrefl
                  | apply keeps_bind; [exact Htrans| |intros] ]
    |intros [width height]].
  cbn [In] in Hkey. destruct Hkey as [<-|[<-|[<-|[]]]].
  - apply raises_bind_now. unfold set_image_size.
    apply (config_list_lacks _ nodes); [exact Hk|].
    apply (for_each_raises _ _ (VStr a));
      [intros; unfold set_size_node;
       repeat first [apply halts_set_input | apply halts_has_input
                    | step_halts]
      |intros; now apply keeps_set_size_node
      |unfold set_size_node; apply raises_bind_now, has_input_missing
      |exact Hin].
  - apply raises_bind_later;
      [unfold set_image_size, config_list, set_size_node;
       repeat first [apply halts_set_input | apply halts_has_input
                    | step_halts]
      |apply Hsize|intros _].
    apply raises_bind_now. unfold set_seeds.
    apply (config_list_lacks _ nodes); [exact Hk|].
    apply (for_each_raises _ _ (VStr a));
      [intros; unfold set_seed_node, make_random_seed;
       repeat first [apply halts_set_input | apply halts_has_input
                    | step_halts]
      |intros; now apply keeps_set_seed_node
      |unfold set_seed_node; apply raises_bind_now, has_input_missing
      |exact Hin].
  - apply raises_bind_later;
      [unfold set_image_size, config_list, set_size_node;
       repeat first [apply halts_set_input | apply halts_has_input
                    | step_halts]
      |apply Hsize|intros _].
    apply raises_bind_later;
      [unfold set_seeds, config_list, set_seed_node, make_random_seed;
       repeat first [apply halts_set_input | apply halts_has_input
                    | step_halts]
      |apply Hseeds|intros _].
    apply raises_bind_now. unfold set_prompt.
    apply (config_list_lacks _ nodes); [exact Hk|].
    apply (for_each_raises _ _ (VStr a));
      [intros; apply halts_set_input
      |intros; apply Hset
      |apply set_input_missing
      |exact Hin].
Qed.
End MissingNode.

Lemma fill_aspect_ratios_dict (config : list (string * value)) :
  exists config',
    fill_aspect_ratios (VDict config) = Ok (VDict config') /\
    forall k, k <> aspect_ratios_key ->
              dict_lookup k config' = dict_lookup k config.
Proof.
  unfold fill_aspect_ratios. cbn [py_contains rbind py_getitem].
  unfold dict_mem.
  destruct (dict_lookup aspect_ratios_key config) as [table|];
    cbn [rbind]; [destruct (truthy table)|]; cbn [py_setitem];
    eexists; (split; [reflexivity|]); intros k Hk;
    try reflexivity; now apply dict_lookup_set_other.
Qed.

(* the module body loads the two files and checks nothing in them *)
Lemma module_init_loads (wf : value) (config : list (string * value)) :
  filter (env_missing w) required_vars = [] ->
  json_load w (workflow_json_path w) = Ok wf ->
  yaml_safe_load w (config_yaml_path w) = Ok (VDict config) ->
  exists cfg0 st0 config',
    module_init w = Ok (cfg0, st0) /\
    workflow_data st0 = wf /\
    config_data st0 = VDict config' /\
    forall k, k <> aspect_ratios_key ->
              dict_lookup k config' = dict_lookup k config.
Proof.
  intros Henv Hjson Hyaml.
  destruct (fill_aspect_ratios_dict config) as (config' & Hfill & Hsame).
  rewrite module_init_steps, Henv, Hjson, Hyaml. cbn [rbind].
  rewrite Hfill. cbn [rbind].
  eexists _, _, config'. split; [reflexivity|]. now repeat split.
Qed.

Lemma same_requests_refl (st : state) : same_requests st st.
Proof. reflexivity. Qed.

Lemma same_requests_trans (a b c : state) :
  same_requests a b -> same_requests b c -> same_requests a c.
Proof. unfold same_requests. congruence. Qed.

Lemma build_payload_same_requests (prompt aspect_ratio : value) :
  keeps same_requests (build_payload w prompt aspect_ratio).
Proof.
  apply keeps_build_payload.
  - exact same_requests_refl.
  - exact same_requests_trans.
  - reflexivity.
  - intros node field v. apply keeps_set_input_workflow;
      [exact same_requests_refl|reflexivity].
Qed.

Lemma generate_raise_in_build (fuel : nat) (prompt title aspect_ratio : value)
  (st st' : state) (e : exn) :
  build_payload w prompt aspect_ratio st = (Raise e, st') ->
  comfyui_generate_image w cfg fuel prompt title aspect_ratio st
  = (Raise e, st').
Proof.
  intros Hb. unfold comfyui_generate_image, submit_job.
  apply bind_raise. now apply bind_raise.
Qed.

(** *** What reads the identifier of the save node *)

Section Commutes.
Variable g : state -> state.

Lemma commutes_ret {A} (a : A) : commutes g (ret a).
Proof. intros st. reflexivity. Qed.

Lemma commutes_lift {A} (r : result A) : commutes g (lift r).
Proof. intros st. destruct r; reflexivity. Qed.

Lemma commutes_raise {A} (e : exn) : commutes g (@raise A e).
Proof. intros st. reflexivity. Qed.

Lemma commutes_running {A} : commutes g (@running A).
Proof. intros st. reflexivity. Qed.

Lemma commutes_check (err : option exn) : commutes g (check err).
Proof. destruct err; [apply commutes_raise|apply commutes_ret]. Qed.

Lemma commutes_gets {A} (f : state -> A) :
  (forall st, f (g st) = f st) -> commutes g (gets f).
Proof. intros H st. unfold gets. now rewrite H. Qed.

Lemma commutes_modify (h : state -> state) :
  (forall st, h (g st) = g (h st)) -> commutes g (modify h).
Proof. intros H st. unfold modify. now rewrite H. Qed.

Lemma commutes_bind {A B} (c : M A) (f : A -> M B) :
  commutes g c -> (forall a, commutes g (f a)) -> commutes g (bind c f).
Proof.
  intros Hc Hf st. unfold bind. rewrite Hc.
  destruct (c st) as [[a|e|] st1]; cbn [fst snd]; [apply Hf| |];
    reflexivity.
Qed.

Lemma commutes_for_each {A} (l : list A) (body : A -> M unit) :
  (forall x, commutes g (body x)) -> commutes g (for_each l body).
Proof.
  intros Hb. induction l as [|x l IH]; cbn [for_each].
  - apply commutes_ret.
  - apply commutes_bind; auto.
Qed.

Hypothesis g_requests : forall st, requests (g st) = requests st.
Hypothesis g_sent : forall st, sent (g st) = g (sent st).
Hypothesis g_uuids : forall st, uuids (g st) = uuids st.
Hypothesis g_with_uuids :
  forall st n, with_uuids (g st) n = g (with_uuids st n).
Hypothesis g_with_timeline :
  forall st l, with_timeline (g st) l = g (with_timeline st l).
Hypothesis g_timeline : forall st, timeline (g st) = timeline st.

Lemma commutes_http {A} (oracle : nat -> result A) :
  commutes g (http oracle).
Proof.
  intros st. unfold http. rewrite g_requests, g_sent.
  destruct (oracle (requests st)); reflexivity.
Qed.

Lemma commutes_uuid4 : commutes g (uuid4 w).
Proof. intros st. unfold uuid4. now rewrite g_uuids, g_with_uuids. Qed.

Lemma commutes_sleep (d : Z) : commutes g (sleep d).
Proof.
  intros st. unfold sleep, modify. now rewrite g_timeline, g_with_timeline.
Qed.

Lemma commutes_wait_for_completion (fuel : nat) (prompt_id : value) :
  commutes g (wait_for_completion w fuel prompt_id).
Proof.
  induction fuel as [|fuel IH]; cbn [wait_for_completion].
  - apply commutes_running.
  - unfold get_history.
    repeat first
      [ apply IH | apply commutes_http | apply commutes_sleep
      | apply commutes_ret | apply commutes_lift
      | apply commutes_bind; [|intros]
      | match goal with
        | |- commutes _ (if ?b then _ else _) => destruct b
        end ].
Qed.

Lemma commutes_fetch_images (images : list value) :
  forall acc, commutes g (fetch_images w images acc).
Proof.
  induction images as [|image rest IH]; intros acc; cbn [fetch_images].
  - apply commutes_ret.
  - unfold get_image.
    repeat first
      [ apply IH | apply commutes_http | apply commutes_lift
      | apply commutes_bind; [|intros] ].
Qed.

Lemma commutes_collect_outputs (history : value) (node_ids : list value) :
  forall acc, commutes g (collect_outputs w history node_ids acc).
Proof.
  induction node_ids as [|node_id rest IH]; intros acc;
    cbn [collect_outputs].
  - apply commutes_ret.
  - repeat first
      [ apply IH | apply commutes_fetch_images | apply commutes_raise
      | apply commutes_ret | apply commutes_lift
      | apply commutes_bind; [|intros]
      | match goal with
        | |- commutes _ (if ?b then _ else _) => destruct b
        end ].
Qed.

Lemma commutes_retrieve_images (prompt_id : value) :
  commutes g (retrieve_images w prompt_id).
Proof.
  unfold retrieve_images, get_history.
  repeat first
    [ apply commutes_collect_outputs | apply commutes_http
    | apply commutes_lift | apply commutes_bind; [|intros] ].
Qed.

End Commutes.

(* the config read under every key but [save_image_node] *)
Lemma getitem_other_save_node (st : state) (key : string) (v : value) :
  key <> save_image_node_key ->
  py_getitem (config_data (with_save_image_node st v)) (VStr key)
  = py_getitem (config_data st) (VStr key).
Proof.
  intros Hk. cbn [config_data with_save_image_node].
  destruct (config_data st) as [| | | | | |d]; try reflexivity.
  cbn [py_getitem]. now rewrite (dict_lookup_set_other _ _ _ _ Hk).
Qed.

Lemma commutes_config_read {A} (v : value) (key : string)
  (k : value -> M A) :
  key <> save_image_node_key ->
  (forall a, commutes (fun st => with_save_image_node st v) (k a)) ->
  commutes (fun st => with_save_image_node st v)
    (bind (gets config_data)
       (fun config => bind (lift (py_getitem config (VStr key))) k)).
Proof.
  intros Hk Hc st. unfold bind at 1 2, gets.
  rewrite (getitem_other_save_node _ _ _ Hk).
  unfold bind, lift.
  destruct (py_getitem (config_data st) (VStr key)) as [a|e];
    [apply Hc|reflexivity].
Qed.

Lemma commutes_set_input_save_node (v node : value) (field : string)
  (x : value) :
  commutes (fun st => with_save_image_node st v) (set_input node field x).
Proof.
  intros st. unfold set_input, bind, gets, lift, modify.
  cbn [workflow_data with_save_image_node].
  destruct (py_getitem (workflow_data st) node); [|reflexivity].
  destruct (py_getitem a (VStr inputs_key)); [|reflexivity].
  destruct (py_setitem a0 field x); reflexivity.
Qed.

(* nothing before the saving step depends on the save node's identifier *)
Lemma before_saving_save_node (fuel : nat) (prompt aspect_ratio v : value) :
  commutes (fun st => with_save_image_node st v)
    (before_saving w fuel prompt aspect_ratio).
Proof.
  assert (G1 : forall st, requests (with_save_image_node st v) = requests st)
    by reflexivity.
  assert (G2 : forall st,
             sent (with_save_image_node st v)
             = with_save_image_node (sent st) v) by reflexivity.
  assert (G3 : forall st, uuids (with_save_image_node st v) = uuids st)
    by reflexivity.
  assert (G4 : forall st n,
             with_uuids (with_save_image_node st v) n
             = with_save_image_node (with_uuids st n) v) by reflexivity.
  assert (G5 : forall st l,
             with_timeline (with_save_image_node st v) l
             = with_save_image_node (with_timeline st l) v) by reflexivity.
  assert (G6 : forall st, timeline (with_save_image_node st v) = timeline st)
    by reflexivity.
  unfold before_saving, submit_job, build_payload, resolve_size,
    set_image_size, set_seeds, set_prompt, config_list, set_size_node,
    set_seed_node, has_input, node_inputs, make_random_seed, queue_prompt.
  repeat first
    [ apply commutes_config_read; [discriminate|intros]
    | apply commutes_set_input_save_node
    | apply commutes_wait_for_completion; assumption
    | apply commutes_retrieve_images; assumption
    | apply commutes_http; assumption
    | apply commutes_uuid4; assumption
    | apply commutes_ret | apply commutes_lift
    | apply commutes_gets; reflexivity
    | apply commutes_for_each; intros
    | apply commutes_bind; [|intros]
    | match goal with
      | |- commutes _ (if ?b then _ else _) => destruct b
      | |- commutes _ (let (_, _) := ?x in _) => destruct x
      end ].
Qed.

(* the saving step does not read the template *)
Lemma save_image_any_template (title : value) (o : output_map)
  (wf' : value) :
  commutes (fun st => with_workflow st wf') (save_image w cfg title o).
Proof.
  unfold save_image.
  repeat first
    [ apply commutes_ret | apply commutes_lift | apply commutes_raise
    | apply commutes_check
    | apply commutes_gets; reflexivity
    | apply commutes_modify; reflexivity
    | apply commutes_bind; [|intros]
    | match goal with
      | |- commutes _ (match ?x with _ => _ end) => destruct x
      end ].
Qed.

(** C2, amended: start-up does not look at the role lists.  With the
    required variables set and the workflow's two files loadable the
    module loads whatever they contain.  A node identifier listed in
    [image_size_nodes], [seed_nodes] or [prompt_nodes] that the template
    does not have is first met while a generation request is handled:
    building the payload raises before any request goes to the engine,
    and the handler returns the one text block "Error generating
    image: " followed by the error's text.  The identifier under
    [save_image_node] is never looked up in the template: nothing before
    the saving step depends on it (run from a state with another
    identifier there, lines 122 to 195 do the same and leave that
    identifier in place), and the saving step gives the same result
    whatever the template is. *)
Theorem missing_node_found_at_request :
  (forall wf config,
      filter (env_missing w) required_vars = [] ->
      json_load w (workflow_json_path w) = Ok wf ->
      yaml_safe_load w (config_yaml_path w) = Ok (VDict config) ->
      exists cfg0 st0 config',
        module_init w = Ok (cfg0, st0) /\
        workflow_data st0 = wf /\
        config_data st0 = VDict config' /\
        forall k, k <> aspect_ratios_key ->
                  dict_lookup k config' = dict_lookup k config) /\
  (forall fuel arguments st wf config key nodes a,
      workflow_data st = VDict wf ->
      config_data st = VDict config ->
      In key [image_size_nodes_key; seed_nodes_key; prompt_nodes_key] ->
      dict_lookup key config = Some (VList nodes) ->
      In (VStr a) nodes ->
      dict_lookup a wf = None ->
      exists e st',
        comfyui_generate_image w cfg fuel (call_prompt arguments)
          (call_title arguments) (call_aspect_ratio arguments) st
        = (Raise e, st') /\
        requests st' = requests st /\
        handle_call_tool w cfg fuel "image_generate" arguments st
        = (Return [{| type_ := "text";
                      text := "Error generating image: " ++ str_exn w e |}],
           st')) /\
  (forall fuel prompt aspect_ratio v st,
      before_saving w fuel prompt aspect_ratio (with_save_image_node st v)
      = (fst (before_saving w fuel prompt aspect_ratio st),
         with_save_image_node
           (snd (before_saving w fuel prompt aspect_ratio st)) v)) /\
  (forall title output_images st wf',
      save_image w cfg title output_images (with_workflow st wf')
      = (fst (save_image w cfg title output_images st),
         with_workflow (snd (save_image w cfg title output_images st)) wf')).
Proof.
  split; [exact module_init_loads|]. split; [|split].
  - intros fuel arguments st wf config key nodes a Hwf Hc Hkey Hk Hin Ha.
    assert (Hlacks : lacks_node a config st).
    { split; [exact Hc|]. now exists wf. }
    destruct (build_payload_missing_node a config (call_prompt arguments)
                (call_aspect_ratio arguments) key nodes Hkey Hk Hin st Hlacks)
      as [e He].
    pose proof (build_payload_same_requests (call_prompt arguments)
                  (call_aspect_ratio arguments) st) as Hreq.
    destruct (build_payload w (call_prompt arguments)
                (call_aspect_ratio arguments) st) as [o st'] eqn:Hb.
    cbn [fst snd] in *. subst o.
    exists e, st'.
    pose proof (generate_raise_in_build fuel _ (call_title arguments) _ _ _ _
                  Hb) as Hgen.
    split; [exact Hgen|]. split; [exact Hreq|].
    now rewrite handle_call_tool_cases, Hgen.
  - intros fuel prompt aspect_ratio v st.
    exact (before_saving_save_node fuel prompt aspect_ratio v st).
  - intros title output_images st wf'.
    exact (save_image_any_template title output_images wf' st).
Qed.

(** ** C1: the template is written in place *)

Lemma generate_split (fuel : nat) (prompt title aspect_ratio : value)
  (st : state) :
  comfyui_generate_image w cfg fuel prompt title aspect_ratio st
  = bind (build_payload w prompt aspect_ratio)
      (after_build w cfg fuel title) st.
Proof.
  unfold comfyui_generate_image, submit_job. now rewrite bind_assoc.
Qed.

Lemma same_template_refl (st : state) : same_template st st.
Proof. reflexivity. Qed.

Lemma same_template_trans (a b c : state) :
  same_template a b -> same_template b c -> same_template a c.
Proof. unfold same_template. congruence. Qed.

(* queueing, polling, fetching and saving leave the template as the
   payload builder left it *)
Lemma after_build_same_template (fuel : nat) (title : value)
  (client_id : string) :
  keeps same_template (after_build w cfg fuel title client_id).
Proof.
  pose proof same_template_refl as Hrefl.
  pose proof same_template_trans as Htrans.
  unfold after_build, queue_prompt.
  repeat first
    [ apply keeps_wait_for_completion; try assumption; reflexivity
    | apply keeps_retrieve_images; try assumption; reflexivity
    | apply keeps_save_image; try assumption; reflexivity
    | apply keeps_http; reflexivity
    | apply keeps_gets; exact Hrefl
    | apply keeps_lift; exact Hrefl
    | apply keeps_bind; [exact Htrans| |intros] ].
Qed.

Lemma write_prompt_file_same_template (f : string) (prompt : value) :
  keeps same_template (write_prompt_file w cfg f prompt).
Proof.
  apply keeps_write_prompt_file.
  - exact same_template_refl.
  - exact same_template_trans.
  - reflexivity.
Qed.

Lemma read_input_same_template (st st' : state) (n : value) (f : string) :
  same_template st st' -> read_input st' n f = read_input st n f.
Proof.
  unfold same_template, read_input, inputs_of. now intros ->.
Qed.

Lemma stays_dict_refl (st : state) : stays_dict st st.
Proof. split; auto. Qed.

Lemma stays_dict_trans (a b c : state) :
  stays_dict a b -> stays_dict b c -> stays_dict a c.
Proof. intros [H1 H2] [H3 H4]. split; [congruence|auto]. Qed.

Lemma stays_dict_set_input (node : value) (field : string) (v : value) :
  keeps stays_dict (set_input node field v).
Proof.
  intros st. split.
  - unfold set_input, bind, gets, lift, modify.
    destruct (py_getitem (workflow_data st) node); [|reflexivity].
    destruct (py_getitem a (VStr inputs_key)); [|reflexivity].
    destruct (py_setitem a0 field v); reflexivity.
  - intros [wf Hwf].
    destruct (set_input_not_return node field v st) as [[st' H]|[e H]];
      rewrite H; cbn [snd]; [|now exists wf].
    destruct (set_input_return _ _ _ _ _ _ Hwf H)
      as (b & n & i & _ & _ & _ & ->).
    eexists; reflexivity.
Qed.

(* the loop over the prompt nodes: every node of the list ends up with
   the prompt as its text, and a text already equal to the prompt stays *)
Lemma prompt_loop_return (prompt : value) (nodes : list value) :
  forall st st' wf,
    workflow_data st = VDict wf ->
    for_each nodes (fun prompt_node => set_input prompt_node text_key prompt)
      st = (Return tt, st') ->
    (exists wf', workflow_data st' = VDict wf') /\
    (forall n, read_input st n text_key = Ok prompt ->
               read_input st' n text_key = Ok prompt) /\
    (forall n, In n nodes -> read_input st' n text_key = Ok prompt).
Proof.
  induction nodes as [|node rest IH]; intros st st' wf Hwf Hrun.
  - inversion Hrun; subst. split; [eauto|]. split; [auto|contradiction].
  - rewrite for_each_cons in Hrun.
    apply bind_return_inv in Hrun. destruct Hrun as ([] & st1 & H1 & Hrest).
    destruct (set_input_assigned _ _ _ _ _ _ Hwf H1)
      as ([a ->] & [wf1 Hwf1] & _ & _ & _ & _ & _ & _ & Hread & _).
    destruct (IH _ _ _ Hwf1 Hrest) as (Hwf' & Hmono & Hall).
    assert (Hmono1 : forall n, read_input st n text_key = Ok prompt ->
                               read_input st1 n text_key = Ok prompt).
    { intros n Hn. rewrite Hread.
      destruct (same_slot (VStr a) text_key n text_key); auto. }
    split; [exact Hwf'|]. split; [auto|].
    intros n [<-|Hn]; [|now apply Hall].
    apply Hmono. rewrite Hread.
    replace (same_slot (VStr a) text_key (VStr a) text_key) with true;
      [reflexivity|symmetry; now apply same_slot_true].
Qed.

(* when the payload builder returns, the prompt nodes hold the prompt *)
Lemma build_payload_return (prompt aspect_ratio : value) (st st' : state)
  (client_id : string) (wf config : list (string * value))
  (nodes : list value) :
  workflow_data st = VDict wf ->
  config_data st = VDict config ->
  dict_lookup prompt_nodes_key config = Some (VList nodes) ->
  build_payload w prompt aspect_ratio st = (Return client_id, st') ->
  forall n, In n nodes -> read_input st' n text_key = Ok prompt.
Proof.
  intros Hwf Hc Hk Hrun.
  pose proof stays_dict_refl as Hrefl.
  pose proof stays_dict_trans as Htrans.
  pose proof stays_dict_set_input as Hset.
  assert (Hu : forall st n, stays_dict st (with_uuids st n))
    by (intros; split; [reflexivity|auto]).
  unfold build_payload in Hrun.
  apply bind_return_inv in Hrun. destruct Hrun as (u & s1 & H1 & Hrun).
  apply bind_return_inv in Hrun.
  destruct Hrun as ([width height] & s2 & H2 & Hrun).
  apply bind_return_inv in Hrun. destruct Hrun as ([] & s3 & H3 & Hrun).
  apply bind_return_inv in Hrun. destruct Hrun as ([] & s4 & H4 & Hrun).
  apply bind_return_inv in Hrun. destruct Hrun as ([] & s5 & H5 & Hrun).
  inversion Hrun; subst.
  assert (K1 : stays_dict st s1).
  { pose proof (keeps_uuid4 _ Hu st) as K. now rewrite H1 in K. }
  assert (K2 : stays_dict s1 s2).
  { assert (K : keeps stays_dict (resolve_size aspect_ratio)).
    { unfold resolve_size.
      repeat first [ apply keeps_gets; exact Hrefl
                   | apply keeps_lift; exact Hrefl
                   | apply keeps_bind; [exact Htrans| |intros] ]. }
    specialize (K s1). now rewrite H2 in K. }
  assert (K3 : stays_dict s2 s3).
  { assert (K : keeps stays_dict (set_image_size width height)).
    { unfold set_image_size, config_list.
      repeat first
        [ apply keeps_set_size_node; assumption
        | apply keeps_for_each; [exact Hrefl|exact Htrans|intros]
        | apply keeps_gets; exact Hrefl
        | apply keeps_lift; exact Hrefl
        | apply keeps_bind; [exact Htrans| |intros] ]. }
    specialize (K s2). now rewrite H3 in K. }
  assert (K4 : stays_dict s3 s4).
  { assert (K : keeps stays_dict (set_seeds w)).
    { unfold set_seeds, config_list.
      repeat first
        [ apply keeps_set_seed_node; assumption
        | apply keeps_for_each; [exact Hrefl|exact Htrans|intros]
        | apply keeps_gets; exact Hrefl
        | apply keeps_lift; exact Hrefl
        | apply keeps_bind; [exact Htrans| |intros] ]. }
    specialize (K s3). now rewrite H4 in K. }
  destruct (Htrans _ _ _ (Htrans _ _ _ (Htrans _ _ _ K1 K2) K3) K4)
    as [Hc4 Hd4].
  destruct (Hd4 (ex_intro _ wf Hwf)) as [wf4 Hwf4].
  rewrite Hc in Hc4.
  unfold set_prompt in H5.
  rewrite (bind_return _ _ _ _ _ (config_list_run _ _ _ _ Hc4 Hk)) in H5.
  now destruct (prompt_loop_return _ _ _ _ _ Hwf4 H5) as (_ & _ & Hall).
Qed.

Lemma submit_job_posts_template (prompt aspect_ratio : value)
  (st sB : state) (client_id : string) :
  build_payload w prompt aspect_ratio st = (Return client_id, sB) ->
  submit_job w prompt aspect_ratio st
  = lift (rbind (post_prompt w (requests sB)
                   (VDict [("prompt", workflow_data sB);
                           ("client_id", VStr client_id)]))
            (fun result => py_getitem result (VStr "prompt_id")))
      (sent sB).
Proof.
  intros Hb. unfold submit_job. rewrite (bind_return _ _ _ _ _ Hb).
  unfold bind, gets, queue_prompt, http.
  destruct (post_prompt w (requests sB) _) as [result|e]; cbn [lift rbind];
    [|reflexivity].
  destruct (py_getitem result (VStr "prompt_id")); reflexivity.
Qed.


(** * Further properties of [server.py] *)

(** ** The seed reduction keeps no low bits *)

Lemma float_of_int_large (u : Z) :
  2 ^ 63 <= u -> exists q, float_of_int u = q * 1024.
Proof.
  intros Hu. unfold float_of_int.
  assert (Hlog : 63 <= Z.log2 u).
  { replace 63 with (Z.log2 (2 ^ 63)) by reflexivity.
    now apply Z.log2_le_mono. }
  destruct (Z.leb_spec (Z.log2 u + 1) 53) as [Hle|Hgt]; [lia|].
  cbv zeta.
  set (sh := Z.log2 u + 1 - 53).
  assert (Hsh : 10 <= sh) by (unfold sh; lia).
  match goal with
  | |- exists q, Z.shiftl ?m sh = _ => set (mant := m)
  end.
  exists (mant * 2 ^ (sh - 10)).
  rewrite Z.shiftl_mul_pow2 by lia.
  replace sh with ((sh - 10) + 10) at 1 by lia.
  rewrite Z.pow_add_r by lia.
  change (2 ^ 10) with 1024. ring.
Qed.

(** X1: [uuid4().int % 1e10] is computed in floating point, so for every
    draw of at least 2^63 (a version-4 UUID has bit 78 set) the seed is a
    multiple of 1024: the low ten bits of every seed are zero. *)
Theorem seed_is_multiple_of_1024 (u : Z) :
  2 ^ 63 <= u -> reduce_seed u mod 1024 = 0.
Proof.
  intros Hu. destruct (float_of_int_large u Hu) as [q Hq].
  unfold reduce_seed. rewrite Hq.
  change (10 ^ 10) with (9765625 * 1024).
  rewrite Z.mul_mod_distr_r by lia.
  apply Z.mod_mul. lia.
Qed.

(** ** Start-up: the environment *)

Lemma env_missing_false (name : string) :
  env_missing w name = false <->
  exists v, getenv w name = Some v /\ v <> "".
Proof.
  unfold env_missing. destruct (getenv w name) as [v|].
  - destruct (String.eqb_spec v ""); split.
    + discriminate.
    + intros (v' & Hv & Hne). congruence.
    + intros _. now exists v.
    + reflexivity.
  - split; [discriminate|]. intros (v & Hv & _). discriminate.
Qed.

Lemma getenv_default_set (name default v : string) :
  getenv w name = Some v -> getenv_default w name default = v.
Proof. unfold getenv_default. now intros ->. Qed.

(** X2: the module refuses to start unless each of the five required
    variables is set to a non-empty value: otherwise it raises the
    ValueError that lists the missing names.  So whenever start-up
    succeeds every setting is the value of its variable, and the defaults
    written next to [os.getenv] ("127.0.0.1", "8188", "./output", ...)
    are never the values in use. *)
Theorem startup_needs_every_variable :
  (filter (env_missing w) required_vars <> [] ->
   module_init w
   = Err (ValueError ("Missing required environment variables: "
                      ++ join ", " (filter (env_missing w) required_vars)
                      ++ ". Please set these in your .env file."))) /\
  (forall cfg0 st0,
      module_init w = Ok (cfg0, st0) ->
      getenv w "COMFYUI_HOST" = Some (comfyui_host cfg0) /\
      getenv w "COMFYUI_PORT" = Some (comfyui_port cfg0) /\
      getenv w "OUTPUT_DIR" = Some (output_dir cfg0) /\
      getenv w "IMAGE_APP_BASE_URL" = Some (image_app_base_url cfg0) /\
      getenv w "COMFYUI_WORKFLOW_NAME" = Some (comfyui_workflow_name cfg0) /\
      comfyui_host cfg0 <> "" /\ comfyui_port cfg0 <> "" /\
      output_dir cfg0 <> "" /\ image_app_base_url cfg0 <> "" /\
      comfyui_workflow_name cfg0 <> "").
Proof.
  split.
  - intros Hmiss. unfold module_init.
    destruct (filter (env_missing w) required_vars); [contradiction|].
    reflexivity.
  - intros cfg0 st0. unfold module_init.
    destruct (filter (env_missing w) required_vars) as [|x l] eqn:Hf;
      [|discriminate].
    assert (Hall : forall name, In name required_vars ->
                                env_missing w name = false).
    { intros name Hin. destruct (env_missing w name) eqn:E; [|reflexivity].
      assert (Hx : In name (filter (env_missing w) required_vars))
        by (apply filter_In; now split).
      rewrite Hf in Hx. contradiction. }
    assert (H1 := proj1 (env_missing_false _)
                    (Hall "COMFYUI_HOST" ltac:(cbn; tauto))).
    assert (H2 := proj1 (env_missing_false _)
                    (Hall "COMFYUI_PORT" ltac:(cbn; tauto))).
    assert (H3 := proj1 (env_missing_false _)
                    (Hall "OUTPUT_DIR" ltac:(cbn; tauto))).
    assert (H4 := proj1 (env_missing_false _)
                    (Hall "IMAGE_APP_BASE_URL" ltac:(cbn; tauto))).
    assert (H5 := proj1 (env_missing_false _)
                    (Hall "COMFYUI_WORKFLOW_NAME" ltac:(cbn; tauto))).
    destruct H1 as (v1 & E1 & N1), H2 as (v2 & E2 & N2),
      H3 as (v3 & E3 & N3), H4 as (v4 & E4 & N4), H5 as (v5 & E5 & N5).
    rewrite (getenv_default_set _ _ _ E1), (getenv_default_set _ _ _ E2),
      (getenv_default_set _ _ _ E3), (getenv_default_set _ _ _ E4),
      (getenv_default_set _ _ _ E5).
    destruct (json_load w _) as [wf|e]; [|discriminate].
    destruct (yaml_safe_load w _) as [config|e]; [|discriminate].
    cbn [rbind].
    destruct (fill_aspect_ratios config) as [config'|e]; [|discriminate].
    cbn [rbind]. intros H; inversion H; subst; cbn.
    repeat split; assumption.
Qed.

(** ** Start-up: the aspect-ratio table *)

Lemma fill_aspect_ratios_ok (config config' : value) :
  fill_aspect_ratios config = Ok config' ->
  exists d d' table,
    config = VDict d /\ config' = VDict d' /\
    dict_lookup aspect_ratios_key d' = Some table /\
    truthy table = true /\
    (forall k, k <> aspect_ratios_key -> dict_lookup k d' = dict_lookup k d) /\
    table = match dict_lookup aspect_ratios_key d with
            | Some own => if truthy own then own else default_aspect_ratios
            | None => default_aspect_ratios
            end.
Proof.
  unfold fill_aspect_ratios.
  destruct config as [| | | |s|l|d]; cbn [py_contains rbind]; try discriminate.
  - (* a str: [in] answers, the subscript fails *)
    destruct (is_substring aspect_ratios_key s); cbn [py_getitem as_index rbind
      py_setitem]; discriminate.
  - destruct (existsb (value_eqb (VStr aspect_ratios_key)) l);
      cbn [py_getitem as_index rbind py_setitem]; discriminate.
  - unfold dict_mem. cbn [py_getitem].
    destruct (dict_lookup aspect_ratios_key d) as [own|] eqn:Hown;
      cbn [rbind].
    + destruct (truthy own) eqn:Ht; cbn [py_setitem]; intros H;
        inversion H; subst.
      * exists d, d, own. rewrite Hown, Ht. repeat split; auto.
      * exists d, (dict_set aspect_ratios_key default_aspect_ratios d),
          default_aspect_ratios.
        rewrite Hown, Ht.
        repeat split; auto using dict_lookup_set_same.
        intros k Hk. now apply dict_lookup_set_other.
    + cbn [py_setitem]. intros H; inversion H; subst.
      exists d, (dict_set aspect_ratios_key default_aspect_ratios d),
        default_aspect_ratios.
      rewrite Hown.
      repeat split; auto using dict_lookup_set_same.
      intros k Hk. now apply dict_lookup_set_other.
Qed.

Lemma module_init_config (cfg0 : settings) (st0 : state) :
  module_init w = Ok (cfg0, st0) ->
  exists config,
    yaml_safe_load w (config_yaml_path w) = Ok config /\
    fill_aspect_ratios config = Ok (config_data st0).
Proof.
  rewrite module_init_steps.
  destruct (filter (env_missing w) required_vars); [|discriminate].
  destruct (json_load w (workflow_json_path w)) as [wf|e]; [|discriminate].
  cbn [rbind].
  destruct (yaml_safe_load w (config_yaml_path w)) as [config|e] eqn:Hy;
    [|discriminate].
  cbn [rbind].
  destruct (fill_aspect_ratios config) as [config'|e] eqn:Hfill;
    [|discriminate].
  cbn [rbind]. intros H. inversion H; subst. exists config. now split.
Qed.

(* a config that is not a mapping cannot take the table *)
Lemma fill_aspect_ratios_not_dict (config : value) :
  (forall d, config <> VDict d) ->
  exists e, fill_aspect_ratios config = Err e.
Proof.
  intros Hnot.
  destruct (fill_aspect_ratios config) as [config'|e] eqn:Hfill; [|eauto].
  destruct (fill_aspect_ratios_ok _ _ Hfill) as (d & _ & _ & -> & _).
  now contradiction (Hnot d).
Qed.

(** X3: after a successful start-up the binding config is a mapping with
    a non-empty aspect-ratio table.  The config is what the workflow's
    YAML file ([workflows/<name>.yaml] under the working directory)
    holds, a mapping: its own table when it has a non-empty one, the
    built-in five-ratio table when the entry is missing or empty, and
    every other entry of the file is kept.  When that file holds
    something that is not a mapping (an empty file, a list, a scalar),
    start-up fails. *)
Theorem startup_aspect_ratio_table :
  (forall cfg0 st0,
      module_init w = Ok (cfg0, st0) ->
      exists d d' table,
        yaml_safe_load w (config_yaml_path w) = Ok (VDict d) /\
        config_data st0 = VDict d' /\
        dict_lookup aspect_ratios_key d' = Some table /\
        truthy table = true /\
        (forall k, k <> aspect_ratios_key ->
                   dict_lookup k d' = dict_lookup k d) /\
        table = match dict_lookup aspect_ratios_key d with
                | Some own =>
                    if truthy own then own else default_aspect_ratios
                | None => default_aspect_ratios
                end) /\
  (forall config,
      yaml_safe_load w (config_yaml_path w) = Ok config ->
      (forall d, config <> VDict d) ->
      exists e, module_init w = Err e).
Proof.
  split.
  - intros cfg0 st0 Hinit.
    destruct (module_init_config _ _ Hinit) as (config & Hy & Hfill).
    destruct (fill_aspect_ratios_ok _ _ Hfill)
      as (d & d' & table & -> & Hd' & Hrest).
    exists d, d', table. now split.
  - intros config Hy Hnot.
    destruct (fill_aspect_ratios_not_dict config Hnot) as [e He].
    destruct (module_init w) as [[cfg0 st0]|e0] eqn:Hinit; [|eauto].
    destruct (module_init_config _ _ Hinit) as (config0 & Hy0 & Hfill).
    rewrite Hy in Hy0. inversion Hy0; subst config0.
    rewrite He in Hfill. discriminate.
Qed.

(** ** The resolver on the built-in table, and where it fails *)

Lemma alias_known_ratio (alias : string) :
  exists known ratio,
    py_contains (VStr alias) aspect_ratio_aliases = Ok known /\
    py_getitem aspect_ratio_aliases
      (if known then VStr alias else VStr "square") = Ok (VStr ratio) /\
    In ratio ["1:1"; "16:9"; "9:16"; "4:3"; "3:4"] /\
    (known = false -> ratio = "1:1").
Proof.
  cbn [py_contains aspect_ratio_aliases]. unfold dict_mem.
  cbn [dict_lookup].
  repeat match goal with
         | |- context [String.eqb alias ?b] =>
             destruct (String.eqb_spec alias b) as [->|?];
             [eexists true, _; split; [reflexivity|];
              split; [cbn; rewrite ?String.eqb_refl; reflexivity|];
              split; [cbn [In]; repeat (first [left; reflexivity | right])
                     |discriminate] |]
         end.
  exists false, "1:1". split; [reflexivity|]. split; [reflexivity|].
  split; [left; reflexivity|reflexivity].
Qed.

(** X4: with the built-in table every alias string resolves: the
    resolver returns a pair of positive integers and raises nothing, an
    unlisted alias (the empty one included) getting 1024 x 1024. *)
Theorem resolver_total_on_default_table (st : state)
  (config : list (string * value)) (alias : string) :
  config_data st = VDict config ->
  dict_lookup aspect_ratios_key config = Some default_aspect_ratios ->
  exists width height,
    resolve_size (VStr alias) st = (Return (VInt width, VInt height), st) /\
    0 < width /\ 0 < height /\
    ((forall ratio, ~ In (alias, ratio) alias_table) ->
     width = 1024 /\ height = 1024).
Proof.
  intros Hc Ht.
  destruct (alias_known_ratio alias) as (known & ratio & Hin & Hget & Hr & Hk).
  assert (Hpair : forall wd ht,
             dict_lookup ratio
               [("16:9", VList [VInt 1280; VInt 720]);
                ("4:3", VList [VInt 1152; VInt 864]);
                ("1:1", VList [VInt 1024; VInt 1024]);
                ("3:4", VList [VInt 864; VInt 1152]);
                ("9:16", VList [VInt 720; VInt 1280])]
             = Some (VList [VInt wd; VInt ht]) ->
             resolve_size (VStr alias) st
             = (Return (VInt wd, VInt ht), st)).
  { intros wd ht Hl. apply (resolve_size_ratio st _ known ratio); auto.
    now exists config, [("16:9", VList [VInt 1280; VInt 720]);
                        ("4:3", VList [VInt 1152; VInt 864]);
                        ("1:1", VList [VInt 1024; VInt 1024]);
                        ("3:4", VList [VInt 864; VInt 1152]);
                        ("9:16", VList [VInt 720; VInt 1280])]. }
  assert (Hunknown : (forall r, ~ In (alias, r) alias_table) -> known = false).
  { intros Hnot. destruct known; [|reflexivity]. exfalso.
    cbn [py_contains aspect_ratio_aliases] in Hin. unfold dict_mem in Hin.
    cbn [dict_lookup] in Hin.
    repeat match type of Hin with
           | context [String.eqb alias ?b] =>
               destruct (String.eqb_spec alias b) as [->|?];
               [eapply Hnot; unfold alias_table; cbn [In];
                repeat (first [left; reflexivity | right]) |]
           end.
    discriminate. }
  cbn [In] in Hr.
  destruct Hr as [<-|[<-|[<-|[<-|[<-|[]]]]]].
  - exists 1024, 1024. split; [now apply Hpair|]. repeat split; lia.
  - exists 1280, 720. split; [now apply Hpair|]. split; [lia|].
    split; [lia|]. intros Hnot. specialize (Hk (Hunknown Hnot)). discriminate.
  - exists 720, 1280. split; [now apply Hpair|]. split; [lia|].
    split; [lia|]. intros Hnot. specialize (Hk (Hunknown Hnot)). discriminate.
  - exists 1152, 864. split; [now apply Hpair|]. split; [lia|].
    split; [lia|]. intros Hnot. specialize (Hk (Hunknown Hnot)). discriminate.
  - exists 864, 1152. split; [now apply Hpair|]. split; [lia|].
    split; [lia|]. intros Hnot. specialize (Hk (Hunknown Hnot)). discriminate.
Qed.

(** X5: where the resolver does fail.  An alias that is a list or a
    mapping raises TypeError (it cannot be looked up in the alias table).
    A table without the ratio asked for raises KeyError with that ratio:
    with a custom table that has no "1:1" entry an unknown alias is not
    quietly mapped to a square, the request fails.  An entry that is not
    a two-element sequence raises ValueError.  The state is untouched in
    each case. *)
Theorem resolver_failures (st : state) :
  (forall alias,
      hashable alias = false ->
      resolve_size alias st = (Raise unhashable, st)) /\
  (forall alias known ratio config table,
      py_contains alias aspect_ratio_aliases = Ok known ->
      py_getitem aspect_ratio_aliases
        (if known then alias else VStr "square") = Ok (VStr ratio) ->
      config_data st = VDict config ->
      dict_lookup aspect_ratios_key config = Some (VDict table) ->
      dict_lookup ratio table = None ->
      resolve_size alias st = (Raise (KeyError (VStr ratio)), st)) /\
  (forall alias known ratio config table entry,
      py_contains alias aspect_ratio_aliases = Ok known ->
      py_getitem aspect_ratio_aliases
        (if known then alias else VStr "square") = Ok (VStr ratio) ->
      config_data st = VDict config ->
      dict_lookup aspect_ratios_key config = Some (VDict table) ->
      dict_lookup ratio table = Some (VList entry) ->
      List.length entry <> 2%nat ->
      exists msg, resolve_size alias st = (Raise (ValueError msg), st)).
Proof.
  split; [|split].
  - intros alias Hh. unfold resolve_size, bind, lift.
    destruct alias; try discriminate; reflexivity.
  - intros alias known ratio config table Hin Hget Hc Ht Hr.
    unfold resolve_size.
    rewrite (bind_lift_return _ _ _ _ Hin).
    rewrite (bind_lift_return _ _ _ _ Hget).
    unfold bind at 1, gets at 1. rewrite Hc.
    unfold bind, lift. cbn [py_getitem]. rewrite Ht.
    cbn [py_getitem]. now rewrite Hr.
  - intros alias known ratio config table entry Hin Hget Hc Ht Hr Hlen.
    unfold resolve_size.
    rewrite (bind_lift_return _ _ _ _ Hin).
    rewrite (bind_lift_return _ _ _ _ Hget).
    unfold bind at 1, gets at 1. rewrite Hc.
    unfold bind, lift. cbn [py_getitem]. rewrite Ht.
    cbn [py_getitem]. rewrite Hr. cbn [py_unpack2 py_iter rbind].
    destruct entry as [|a [|b [|c entry]]]; cbn [List.length] in Hlen;
      try congruence; eexists; reflexivity.
Qed.

(** ** The poller: a failed query, and an engine that never finishes *)

Lemma wait_query_error (fuel : nat) (prompt_id : value) (e : exn)
  (st : state) :
  get_history_response w (requests st) prompt_id = Err e ->
  wait_for_completion w (S fuel) prompt_id st = (Raise e, polled st 0).
Proof.
  intros Hr. cbn [wait_for_completion].
  unfold bind at 1, get_history, http. rewrite Hr. cbn [lift].
  now rewrite polled_zero.
Qed.

Lemma wait_error_after (prompt_id : value) (e : exn) (k : nat) :
  forall fuel st,
    (k < fuel)%nat ->
    (forall i, (i < k)%nat ->
       exists history,
         get_history_response w (requests st + i) prompt_id = Ok history /\
         job_pending prompt_id history) ->
    get_history_response w (requests st + k) prompt_id = Err e ->
    wait_for_completion w fuel prompt_id st = (Raise e, polled st k).
Proof.
  induction k as [|k IH]; intros [|fuel] st Hk Hbefore Hlast; try lia.
  - rewrite Nat.add_0_r in Hlast. now apply wait_query_error.
  - destruct (Hbefore 0%nat ltac:(lia)) as (h & Hh & Hhp).
    rewrite Nat.add_0_r in Hh.
    rewrite (wait_pending _ _ _ _ Hh Hhp), <- polled_step.
    apply IH; [lia| |]; cbn [requests with_timeline with_requests sent].
    + intros i Hi. destruct (Hbefore (S i) ltac:(lia)) as (h' & Hh' & Hp').
      exists h'. split; [|exact Hp'].
      now replace (S (requests st) + i)%nat with (requests st + S i)%nat by lia.
    + now replace (S (requests st) + k)%nat with (requests st + S k)%nat by lia.
Qed.

(** X6: the poller does not retry a failed query.  When the first [k]
    history responses report the job as pending and query number [k]
    fails with an error [e], the loop ends there with [e], after [k]
    sleeps and [k + 1] queries; the pipeline makes no further request and
    writes no file, and the handler answers "Error generating image: "
    followed by [str(e)]. *)
Theorem poller_propagates_query_failure (fuel : nat)
  (arguments : list (string * value)) (st st1 : state) (prompt_id : value)
  (k : nat) (e : exn) :
  submit_job w (call_prompt arguments) (call_aspect_ratio arguments) st
  = (Return prompt_id, st1) ->
  (k < fuel)%nat ->
  (forall i, (i < k)%nat ->
     exists history,
       get_history_response w (requests st1 + i) prompt_id = Ok history /\
       job_pending prompt_id history) ->
  get_history_response w (requests st1 + k) prompt_id = Err e ->
  wait_for_completion w fuel prompt_id st1 = (Raise e, polled st1 k) /\
  handle_call_tool w cfg fuel "image_generate" arguments st
  = (Return [{| type_ := "text";
                text := "Error generating image: " ++ str_exn w e |}],
     polled st1 k).
Proof.
  intros Hsub Hk Hbefore Hlast.
  pose proof (wait_error_after _ _ _ _ _ Hk Hbefore Hlast) as Hwait.
  split; [exact Hwait|].
  rewrite handle_call_tool_cases. unfold comfyui_generate_image.
  rewrite (bind_return _ _ _ _ _ Hsub).
  now rewrite (bind_raise _ _ _ _ _ Hwait).
Qed.

Lemma waited_step (st : state) (n : nat) :
  waited (with_timeline (sent st) (timeline (sent st) ++ [Slept 1])%list) n
  = waited st (S n).
Proof.
  unfold waited, with_timeline, sent, with_requests; cbn. f_equal.
  - lia.
  - now rewrite <- !app_assoc.
Qed.

Lemma waited_zero (st : state) : waited st 0 = st.
Proof.
  destruct st. unfold waited; cbn. f_equal.
  - lia.
  - apply app_nil_r.
Qed.

Lemma wait_all_pending (prompt_id : value) (n : nat) :
  forall st,
    (forall i, (i < n)%nat ->
       exists history,
         get_history_response w (requests st + i) prompt_id = Ok history /\
         job_pending prompt_id history) ->
    wait_for_completion w n prompt_id st = (Running, waited st n).
Proof.
  induction n as [|n IH]; intros st Hall.
  - cbn [wait_for_completion]. unfold running. now rewrite waited_zero.
  - destruct (Hall 0%nat ltac:(lia)) as (h & Hh & Hhp).
    rewrite Nat.add_0_r in Hh.
    rewrite (wait_pending _ _ _ _ Hh Hhp), <- waited_step.
    apply IH. cbn [requests with_timeline with_requests sent].
    intros i Hi. destruct (Hall (S i) ltac:(lia)) as (h' & Hh' & Hp').
    exists h'. split; [|exact Hp'].
    now replace (S (requests st) + i)%nat with (requests st + S i)%nat by lia.
Qed.

(** X7: the poller has no timeout and no back-off.  As long as the
    engine keeps answering "pending" (job id unknown, or still
    processing) the loop goes on: after [n] such answers, for any [n], it
    is still running, having made exactly [n] queries each followed by a
    sleep of one second, and nothing else; and so the call has not
    answered either. *)
Theorem poller_has_no_timeout (n : nat) (arguments : list (string * value))
  (st st1 : state) (prompt_id : value) :
  submit_job w (call_prompt arguments) (call_aspect_ratio arguments) st
  = (Return prompt_id, st1) ->
  (forall i, (i < n)%nat ->
     exists history,
       get_history_response w (requests st1 + i) prompt_id = Ok history /\
       job_pending prompt_id history) ->
  wait_for_completion w n prompt_id st1 = (Running, waited st1 n) /\
  timeline (waited st1 n) = (timeline st1 ++ rounds (requests st1) n)%list /\
  handle_call_tool w cfg n "image_generate" arguments st
  = (Running, waited st1 n).
Proof.
  intros Hsub Hall.
  pose proof (wait_all_pending _ _ _ Hall) as Hwait.
  split; [exact Hwait|]. split; [reflexivity|].
  rewrite handle_call_tool_cases. unfold comfyui_generate_image.
  rewrite (bind_return _ _ _ _ _ Hsub).
  now rewrite (bind_running _ _ _ _ Hwait).
Qed.

(** ** Submitting the job *)

Lemma only_template_and_draws_refl (st : state) :
  only_template_and_draws st st.
Proof. now repeat split. Qed.

Lemma only_template_and_draws_trans (a b c : state) :
  only_template_and_draws a b -> only_template_and_draws b c ->
  only_template_and_draws a c.
Proof.
  intros (H1 & H2 & H3 & H4 & H5) (K1 & K2 & K3 & K4 & K5).
  repeat split; congruence.
Qed.

(* building the payload makes no request, sleeps not, reads no clock and
   writes no file, however it ends *)
Lemma build_payload_frame (prompt aspect_ratio : value) :
  keeps only_template_and_draws (build_payload w prompt aspect_ratio).
Proof.
  apply keeps_build_payload.
  - exact only_template_and_draws_refl.
  - exact only_template_and_draws_trans.
  - intros st n. now repeat split.
  - intros node field v. apply keeps_set_input_workflow;
      [exact only_template_and_draws_refl|].
    intros st wf. now repeat split.
Qed.

(** X8: a job the engine does not accept costs one request.  When the
    payload is built and the POST to /prompt fails with an error [e], or
    is answered with something that has no [prompt_id] to read, the call
    ends there: the handler answers "Error generating image: " followed
    by [str(e)]; that POST is the only request made, nothing was slept
    and no file was written. *)
Theorem submission_failure_one_request (fuel : nat)
  (arguments : list (string * value)) (st sB : state) (client_id : string)
  (e : exn) :
  build_payload w (call_prompt arguments) (call_aspect_ratio arguments) st
  = (Return client_id, sB) ->
  (post_prompt w (requests st) (prompt_request (workflow_data sB) client_id)
   = Err e \/
   exists result,
     post_prompt w (requests st) (prompt_request (workflow_data sB) client_id)
     = Ok result /\
     py_getitem result (VStr "prompt_id") = Err e) ->
  handle_call_tool w cfg fuel "image_generate" arguments st
  = (Return [{| type_ := "text";
                text := "Error generating image: " ++ str_exn w e |}],
     sent sB) /\
  requests (sent sB) = S (requests st) /\
  timeline (sent sB) = (timeline st ++ [Sent (requests st)])%list /\
  files (sent sB) = files st.
Proof.
  intros Hb Hpost.
  pose proof (build_payload_frame (call_prompt arguments)
                (call_aspect_ratio arguments) st) as Hframe.
  rewrite Hb in Hframe. cbn [snd] in Hframe.
  destruct Hframe as (_ & Hreq & _ & Htl & Hfiles).
  assert (Hsub :
    submit_job w (call_prompt arguments) (call_aspect_ratio arguments) st
    = (Raise e, sent sB)).
  { rewrite (submit_job_posts_template _ _ _ _ _ Hb). rewrite Hreq.
    unfold prompt_request in Hpost.
    destruct Hpost as [Hp | (result & Hp & Hg)]; rewrite Hp; cbn [rbind lift];
      [reflexivity|]. now rewrite Hg. }
  split.
  - rewrite handle_call_tool_cases. unfold comfyui_generate_image.
    now rewrite (bind_raise _ _ _ _ _ Hsub).
  - cbn [sent requests timeline files with_timeline with_requests].
    rewrite Hreq, Htl, Hfiles. now repeat split.
Qed.

(** ** The size loop *)

Lemma inputs_of_str (st : state) (wf : list (string * value)) (node i : value) :
  workflow_data st = VDict wf ->
  inputs_of st node = Ok i ->
  exists a, node = VStr a.
Proof.
  intros Hwf. unfold inputs_of. rewrite Hwf.
  destruct node as [| | | |a| |]; cbn [py_getitem rbind]; try discriminate.
  eauto.
Qed.

Lemma only_template_refl (st : state) : only_template st st.
Proof. split; [reflexivity|apply only_template_and_draws_refl]. Qed.

Lemma only_template_trans (a b c : state) :
  only_template a b -> only_template b c -> only_template a c.
Proof.
  intros [H1 H2] [K1 K2]. split; [congruence|].
  exact (only_template_and_draws_trans _ _ _ H2 K2).
Qed.

(* one conditional assignment that returns: the field is written if it
   was there, and no field appears *)
Lemma fill_input_return (node : value) (field : string) (v : value)
  (st st' : state) (wf : list (string * value)) :
  workflow_data st = VDict wf ->
  fill_input node field v st = (Return tt, st') ->
  (exists wf', workflow_data st' = VDict wf') /\
  only_template st st' /\
  (forall n f,
      read_input st' n f
      = if same_slot node field n f && has_field st n f then Ok v
        else read_input st n f) /\
  (forall n f, has_field st' n f = has_field st n f).
Proof.
  intros Hwf. unfold fill_input. unfold bind at 1. rewrite has_input_run.
  destruct (rbind (inputs_of st node) (py_contains (VStr field)))
    as [has|e] eqn:Hh; cbn [lift]; [|discriminate].
  assert (Hname : exists a, node = VStr a).
  { destruct (inputs_of st node) as [i|e] eqn:Hi; [|discriminate].
    exact (inputs_of_str _ _ _ _ Hwf Hi). }
  destruct Hname as [a ->].
  assert (Hfield : has_field st (VStr a) field = has).
  { unfold has_field. now rewrite Hh. }
  destruct has.
  - intros Hset.
    destruct (set_input_assigned _ _ _ _ _ _ Hwf Hset)
      as (_ & Hwf' & Hc & Hu & Hq & Hk & Ht & Hf & Hread & Hhas).
    split; [exact Hwf'|]. split; [now repeat split|]. split.
    + intros n f. rewrite Hread.
      destruct (same_slot (VStr a) field n f) eqn:E; [|reflexivity].
      apply same_slot_true in E. destruct E as [-> ->].
      now rewrite Hfield.
    + intros n f. rewrite Hhas.
      destruct (same_slot (VStr a) field n f) eqn:E; [|apply orb_false_r].
      apply same_slot_true in E. destruct E as [-> ->].
      now rewrite Hfield.
  - intros H; inversion H; subst st'.
    split; [eauto|]. split; [apply only_template_refl|]. split.
    + intros n f.
      destruct (same_slot (VStr a) field n f) eqn:E; [|reflexivity].
      apply same_slot_true in E. destruct E as [-> ->].
      now rewrite Hfield.
    + reflexivity.
Qed.

Lemma set_size_node_fields (width height node : value) (st : state) :
  set_size_node width height node st
  = bind (fill_input node width_key width)
      (fun _ => fill_input node height_key height) st.
Proof.
  unfold set_size_node, fill_input. rewrite bind_assoc. reflexivity.
Qed.

Lemma set_size_node_return (width height node : value) (st st' : state)
  (wf : list (string * value)) :
  workflow_data st = VDict wf ->
  set_size_node width height node st = (Return tt, st') ->
  (exists wf', workflow_data st' = VDict wf') /\
  only_template st st' /\
  (forall n f, read_input st' n f = sized_input st [node] width height n f) /\
  (forall n f, has_field st' n f = has_field st n f).
Proof.
  intros Hwf. rewrite set_size_node_fields. intros Hrun.
  apply bind_return_inv in Hrun. destruct Hrun as ([] & st1 & H1 & H2).
  destruct (fill_input_return _ _ _ _ _ _ Hwf H1)
    as ([wf1 Hwf1] & Ho1 & Hr1 & Hh1).
  destruct (fill_input_return _ _ _ _ _ _ Hwf1 H2)
    as (Hwf2 & Ho2 & Hr2 & Hh2).
  split; [exact Hwf2|].
  split; [exact (only_template_trans _ _ _ Ho1 Ho2)|]. split.
  - intros n f. rewrite Hr2, Hr1, Hh1. unfold sized_input, same_slot.
    cbn [existsb]. rewrite orb_false_r.
    destruct (String.eqb f width_key) eqn:Ew;
      destruct (String.eqb f height_key) eqn:Eh;
      try (apply String.eqb_eq in Ew; apply String.eqb_eq in Eh;
           rewrite Ew in Eh; discriminate Eh);
      destruct (value_eqb n node), (has_field st n f); reflexivity.
  - intros n f. now rewrite Hh2, Hh1.
Qed.

Lemma size_loop_return (width height : value) (nodes : list value) :
  forall st st' wf,
    workflow_data st = VDict wf ->
    for_each nodes (set_size_node width height) st = (Return tt, st') ->
    (exists wf', workflow_data st' = VDict wf') /\
    only_template st st' /\
    (forall n f, read_input st' n f = sized_input st nodes width height n f) /\
    (forall n f, has_field st' n f = has_field st n f).
Proof.
  induction nodes as [|node rest IH]; intros st st' wf Hwf Hrun.
  - inversion Hrun; subst. split; [eauto|].
    split; [apply only_template_refl|]. split; reflexivity.
  - rewrite for_each_cons in Hrun.
    apply bind_return_inv in Hrun. destruct Hrun as ([] & st1 & H1 & Hrest).
    destruct (set_size_node_return _ _ _ _ _ _ Hwf H1)
      as ([wf1 Hwf1] & Ho1 & Hr1 & Hh1).
    destruct (IH _ _ _ Hwf1 Hrest) as (Hwf' & Ho & Hr & Hh).
    split; [exact Hwf'|].
    split; [exact (only_template_trans _ _ _ Ho1 Ho)|]. split.
    + intros n f. rewrite Hr. unfold sized_input.
      rewrite Hh1, Hr1. unfold sized_input. cbn [existsb].
      rewrite orb_false_r.
      destruct (value_eqb n node), (existsb (value_eqb n) rest),
        (has_field st n f), (String.eqb f width_key),
        (String.eqb f height_key); reflexivity.
    + intros n f. now rewrite Hh, Hh1.
Qed.

(** X9: the size loop overwrites, it never adds.  When the loop over
    [image_size_nodes] returns, the [width] input of every listed node
    that had one holds the resolved width, and likewise [height]; a
    listed node without such an input does not get one; every other
    input of every node reads as before, and nothing but the shared
    template has changed. *)
Theorem size_written_into_existing_fields (width height : value)
  (st st' : state) (wf config : list (string * value))
  (nodes : list value) :
  workflow_data st = VDict wf ->
  config_data st = VDict config ->
  dict_lookup image_size_nodes_key config = Some (VList nodes) ->
  set_image_size width height st = (Return tt, st') ->
  (forall n f, read_input st' n f = sized_input st nodes width height n f) /\
  (forall n f, has_field st' n f = has_field st n f) /\
  only_template st st'.
Proof.
  intros Hwf Hc Hk Hrun. unfold set_image_size in Hrun.
  rewrite (bind_return _ _ _ _ _ (config_list_run _ _ _ _ Hc Hk)) in Hrun.
  destruct (size_loop_return _ _ _ _ _ _ Hwf Hrun) as (_ & Ho & Hr & Hh).
  split; [exact Hr|]. split; [exact Hh|exact Ho].
Qed.

(** ** What the payload builder leaves of the template *)

Lemma dict_keys_set_present {V} (k : string) (v v0 : V)
  (d : list (string * V)) :
  dict_lookup k d = Some v0 -> dict_keys (dict_set k v d) = dict_keys d.
Proof.
  unfold dict_keys. induction d as [|[k' v'] d IH]; cbn; [discriminate|].
  destruct (String.eqb k k'); cbn; [reflexivity|].
  intros H. now rewrite IH.
Qed.

Lemma template_frame_refl (fields : list string) (st : state) :
  template_frame fields st st.
Proof. intros wf Hwf. exists wf. repeat split; auto. Qed.

Lemma template_frame_trans (fields : list string) (a b c : state) :
  template_frame fields a b -> template_frame fields b c ->
  template_frame fields a c.
Proof.
  intros Hab Hbc wf Hwf.
  destruct (Hab wf Hwf) as (wf1 & Hwf1 & Hk1 & He1 & Hi1).
  destruct (Hbc wf1 Hwf1) as (wf2 & Hwf2 & Hk2 & He2 & Hi2).
  exists wf2. split; [exact Hwf2|]. split; [congruence|]. split.
  - intros n k Hk. now rewrite He2, He1.
  - intros n f Hf. destruct (Hi1 n f Hf) as [R1 F1].
    destruct (Hi2 n f Hf) as [R2 F2]. split; congruence.
Qed.

(* one assignment: the nodes, their other entries and their other inputs
   stay, whether the assignment succeeds or raises *)
Lemma set_input_template_frame (fields : list string) (node : value)
  (field : string) (v : value) :
  In field fields -> keeps (template_frame fields) (set_input node field v).
Proof.
  intros Hin st wf Hwf.
  destruct (set_input_not_return node field v st) as [[st' H]|[e H]];
    rewrite H; cbn [snd]; [|now apply template_frame_refl].
  pose proof (set_input_assigned _ _ _ _ _ _ Hwf H)
    as (_ & _ & _ & _ & _ & _ & _ & _ & Hread & Hhas).
  destruct (set_input_return _ _ _ _ _ _ Hwf H)
    as (a & n0 & i & -> & Ha & Hi & ->).
  eexists. split; [reflexivity|]. split; [|split].
  - exact (dict_keys_set_present _ _ _ _ Ha).
  - intros n k Hk. unfold node_entry. cbn [workflow_data with_workflow].
    rewrite Hwf.
    destruct n as [| | | |b| |]; try reflexivity.
    cbn [py_getitem]. rewrite dict_lookup_set.
    destruct (String.eqb_spec b a) as [->|Hne]; [|reflexivity].
    rewrite Ha. cbn [rbind py_getitem].
    now rewrite (dict_lookup_set_other _ _ _ _ Hk).
  - intros n f Hf.
    assert (Hslot : same_slot (VStr a) field n f = false).
    { destruct (same_slot (VStr a) field n f) eqn:E; [|reflexivity].
      apply same_slot_true in E. destruct E as [_ ->]. contradiction. }
    rewrite Hread, Hhas, Hslot. split; [reflexivity|apply orb_false_r].
Qed.

Lemma build_payload_template_frame (prompt aspect_ratio : value) :
  keeps (template_frame injected_fields)
    (build_payload w prompt aspect_ratio).
Proof.
  pose proof (template_frame_refl injected_fields) as Hrefl.
  pose proof (template_frame_trans injected_fields) as Htrans.
  assert (Hu : forall st n,
             template_frame injected_fields st (with_uuids st n))
    by (intros st n; exact (Hrefl st)).
  assert (Hset : forall node field v,
             In field injected_fields ->
             keeps (template_frame injected_fields)
               (set_input node field v))
    by (intros; now apply set_input_template_frame).
  unfold build_payload, resolve_size, set_image_size, set_seeds, set_prompt,
    config_list, set_size_node, set_seed_node, has_input, node_inputs,
    make_random_seed.
  repeat first
    [ apply Hset; unfold injected_fields; cbn [In];
      repeat (first [left; reflexivity | right])
    | apply keeps_uuid4; exact Hu
    | apply keeps_ret; exact Hrefl
    | apply keeps_lift; exact Hrefl
    | apply keeps_gets; exact Hrefl
    | apply keeps_for_each; [exact Hrefl|exact Htrans|intros]
    | apply keeps_bind; [exact Htrans| |intros]
    | match goal with
      | |- keeps _ (if ?b then _ else _) => destruct b
      | |- keeps _ (let (_, _) := ?x in _) => destruct x
      end ].
Qed.

(** X10: the payload builder assigns to five inputs and to nothing else.
    On a template that is a dictionary, however building the payload
    ends (it does end), the template still has the same nodes in the
    same order, every entry of a node other than its inputs reads as
    before, and so does every input not named [width], [height], [seed],
    [noise_seed] or [text]: none of them is changed, added or removed.
    Outside the template only the count of random draws has moved: no
    request, no sleep, no clock read, no file, the config as it was. *)
Theorem payload_builder_touches_five_inputs (prompt aspect_ratio : value)
  (st : state) (wf : list (string * value)) :
  workflow_data st = VDict wf ->
  fst (build_payload w prompt aspect_ratio st) <> Running /\
  only_template_and_draws st (snd (build_payload w prompt aspect_ratio st)) /\
  exists wf',
    workflow_data (snd (build_payload w prompt aspect_ratio st)) = VDict wf' /\
    dict_keys wf' = dict_keys wf /\
    (forall n k,
        k <> inputs_key ->
        node_entry (snd (build_payload w prompt aspect_ratio st)) n k
        = node_entry st n k) /\
    (forall n f,
        ~ In f [width_key; height_key; seed_key; noise_seed_key; text_key] ->
        read_input (snd (build_payload w prompt aspect_ratio st)) n f
        = read_input st n f /\
        has_field (snd (build_payload w prompt aspect_ratio st)) n f
        = has_field st n f).
Proof.
  intros Hwf.
  split; [apply halts_build_payload|].
  split; [apply build_payload_frame|].
  exact (build_payload_template_frame prompt aspect_ratio st wf Hwf).
Qed.

(** ** C1: what one call leaves in the shared template *)

(* the size lookup reads the config and nothing else *)
Lemma resolve_size_pure (aspect_ratio : value) (st : state) :
  resolve_size aspect_ratio st
  = lift
      (rbind (py_contains aspect_ratio aspect_ratio_aliases) (fun known =>
       rbind (py_getitem aspect_ratio_aliases
                (if known then aspect_ratio else VStr "square"))
         (fun ratio =>
       rbind (py_getitem (config_data st) (VStr aspect_ratios_key))
         (fun table =>
       rbind (py_getitem table ratio) py_unpack2)))) st.
Proof.
  unfold resolve_size, bind, gets, lift.
  destruct (py_contains aspect_ratio aspect_ratio_aliases) as [known|e];
    cbn [rbind]; [|reflexivity].
  destruct (py_getitem aspect_ratio_aliases _) as [ratio|e];
    cbn [rbind]; [|reflexivity].
  destruct (py_getitem (config_data st) (VStr aspect_ratios_key))
    as [table|e]; cbn [rbind]; [|reflexivity].
  destruct (py_getitem table ratio) as [pair|e]; cbn [rbind]; reflexivity.
Qed.

Lemma resolve_size_same_config (aspect_ratio : value) (st st1 st2 : state)
  (size : value * value) :
  config_data st1 = config_data st ->
  resolve_size aspect_ratio st1 = (Return size, st2) ->
  st2 = st1 /\ resolve_size aspect_ratio st = (Return size, st).
Proof.
  intros Hc. rewrite !resolve_size_pure, Hc. unfold lift.
  destruct (rbind _ _) as [p|e]; [|discriminate].
  intros H; inversion H; subst. now split.
Qed.

Lemma set_seeds_template_frame :
  keeps (template_frame [seed_key; noise_seed_key]) (set_seeds w).
Proof.
  pose proof (template_frame_refl [seed_key; noise_seed_key]) as Hrefl.
  pose proof (template_frame_trans [seed_key; noise_seed_key]) as Htrans.
  assert (Hu : forall st n,
             template_frame [seed_key; noise_seed_key] st
               (with_uuids st n))
    by (intros st n; exact (Hrefl st)).
  unfold set_seeds, config_list, set_seed_node, has_input, node_inputs,
    make_random_seed.
  repeat first
    [ apply set_input_template_frame; cbn [In];
      repeat (first [left; reflexivity | right])
    | apply keeps_uuid4; exact Hu
    | apply keeps_ret; exact Hrefl
    | apply keeps_lift; exact Hrefl
    | apply keeps_gets; exact Hrefl
    | apply keeps_for_each; [exact Hrefl|exact Htrans|intros]
    | apply keeps_bind; [exact Htrans| |intros]
    | match goal with
      | |- keeps _ (if ?b then _ else _) => destruct b
      end ].
Qed.

Lemma set_prompt_template_frame (prompt : value) :
  keeps (template_frame [text_key]) (set_prompt prompt).
Proof.
  pose proof (template_frame_refl [text_key]) as Hrefl.
  pose proof (template_frame_trans [text_key]) as Htrans.
  unfold set_prompt, config_list.
  repeat first
    [ apply set_input_template_frame; left; reflexivity
    | apply keeps_lift; exact Hrefl
    | apply keeps_gets; exact Hrefl
    | apply keeps_for_each; [exact Hrefl|exact Htrans|intros]
    | apply keeps_bind; [exact Htrans| |intros] ].
Qed.

(* the size loop, from the config *)
Lemma size_written_loop (width height : value) (st st' : state)
  (wf config : list (string * value)) (nodes : list value) :
  workflow_data st = VDict wf ->
  config_data st = VDict config ->
  dict_lookup image_size_nodes_key config = Some (VList nodes) ->
  set_image_size width height st = (Return tt, st') ->
  (forall n f, read_input st' n f = sized_input st nodes width height n f) /\
  (forall n f, has_field st' n f = has_field st n f) /\
  only_template st st' /\
  exists wf', workflow_data st' = VDict wf'.
Proof.
  intros Hwf Hc Hk Hrun. unfold set_image_size in Hrun.
  rewrite (bind_return _ _ _ _ _ (config_list_run _ _ _ _ Hc Hk)) in Hrun.
  destruct (size_loop_return _ _ _ _ _ _ Hwf Hrun) as (Hwf' & Ho & Hr & Hh).
  split; [exact Hr|]. split; [exact Hh|]. split; [exact Ho|exact Hwf'].
Qed.

(* what the payload builder has written when it returns *)
Lemma build_payload_writes (prompt aspect_ratio : value) (st sB : state)
  (client_id : string) (wf config : list (string * value))
  (size_nodes seed_nodes prompt_nodes : list value) :
  workflow_data st = VDict wf ->
  config_data st = VDict config ->
  dict_lookup image_size_nodes_key config = Some (VList size_nodes) ->
  dict_lookup seed_nodes_key config = Some (VList seed_nodes) ->
  dict_lookup prompt_nodes_key config = Some (VList prompt_nodes) ->
  NoDup seed_nodes ->
  build_payload w prompt aspect_ratio st = (Return client_id, sB) ->
  exists width height,
    resolve_size aspect_ratio st = (Return (width, height), st) /\
    (forall n, In n prompt_nodes -> read_input sB n text_key = Ok prompt) /\
    (forall n,
        In n size_nodes ->
        (has_field st n width_key = true ->
         read_input sB n width_key = Ok width) /\
        (has_field st n height_key = true ->
         read_input sB n height_key = Ok height)) /\
    (forall j node field,
        nth_error (seed_slots st seed_nodes) j = Some (node, field) ->
        read_input sB node field
        = Ok (VInt (reduce_seed (uuid4_int w (S (uuids st) + j))))).
Proof.
  intros Hwf Hc Hsize Hseed Hprompt Hnd Hrun.
  pose proof (build_payload_return _ _ _ _ _ _ _ _ Hwf Hc Hprompt Hrun)
    as Htext.
  unfold build_payload in Hrun.
  apply bind_return_inv in Hrun. destruct Hrun as (u & s1 & H1 & Hrun).
  apply bind_return_inv in Hrun.
  destruct Hrun as ([width height] & s2 & H2 & Hrun).
  apply bind_return_inv in Hrun. destruct Hrun as ([] & s3 & H3 & Hrun).
  apply bind_return_inv in Hrun. destruct Hrun as ([] & s4 & H4 & Hrun).
  apply bind_return_inv in Hrun. destruct Hrun as ([] & s5 & H5 & Hrun).
  inversion Hrun; subst. clear Hrun.
  unfold uuid4 in H1. inversion H1; subst u s1. clear H1.
  set (s1 := with_uuids st (S (uuids st))) in *.
  destruct (resolve_size_same_config aspect_ratio st s1 s2 (width, height)
              eq_refl H2) as [-> Hres].
  exists width, height. split; [exact Hres|]. split; [exact Htext|].
  (* the size loop *)
  destruct (size_written_loop width height s1 s3 wf config size_nodes
              Hwf Hc Hsize H3) as (Hr3 & Hh3 & Ho3 & [wf3 Hwf3]).
  (* the seed loop *)
  assert (Hc3 : config_data s3 = VDict config).
  { destruct Ho3 as (_ & Hcfg & _). now rewrite Hcfg. }
  unfold set_seeds in H4.
  rewrite (bind_return _ _ _ _ _ (config_list_run _ _ _ _ Hc3 Hseed)) in H4.
  destruct (seed_loop_return _ _ _ _ Hwf3 Hnd H4)
    as ([wf4 Hwf4] & _ & _ & _ & Hslots).
  pose proof (set_seeds_template_frame s3) as F4.
  unfold set_seeds in F4.
  rewrite (bind_return _ _ _ _ _ (config_list_run _ _ _ _ Hc3 Hseed)) in F4.
  rewrite H4 in F4. cbn [snd] in F4.
  destruct (F4 wf3 Hwf3) as (wf4' & _ & _ & _ & Fin4).
  pose proof (set_prompt_template_frame prompt s4) as F5.
  rewrite H5 in F5. cbn [snd] in F5.
  destruct (F5 wf4 Hwf4) as (wf5 & _ & _ & _ & Fin5).
  split.
  - intros n Hn.
    assert (Hex : forall f, has_field st n f = true ->
                            existsb (value_eqb n) size_nodes = true).
    { intros f Hf. unfold has_field in Hf.
      destruct (inputs_of st n) as [i|e] eqn:Hi; [|discriminate].
      destruct (inputs_of_str _ _ _ _ Hwf Hi) as [a ->].
      apply existsb_exists. exists (VStr a). split; [exact Hn|].
      cbn. apply String.eqb_refl. }
    split; intros Hhas; specialize (Hex _ Hhas).
    + destruct (Fin5 n width_key) as [R5 _];
        [cbn [In]; intros [H|[]]; discriminate H|].
      destruct (Fin4 n width_key) as [R4 _];
        [cbn [In]; intros [H|[H|[]]]; discriminate H|].
      rewrite R5, R4, Hr3. unfold sized_input.
      change (has_field s1 n width_key) with (has_field st n width_key).
      now rewrite Hex, Hhas.
    + destruct (Fin5 n height_key) as [R5 _];
        [cbn [In]; intros [H|[]]; discriminate H|].
      destruct (Fin4 n height_key) as [R4 _];
        [cbn [In]; intros [H|[H|[]]]; discriminate H|].
      rewrite R5, R4, Hr3. unfold sized_input.
      change (has_field s1 n height_key) with (has_field st n height_key).
      now rewrite Hex, Hhas.
  - intros j node field Hj.
    assert (Hslots3 : seed_slots s3 seed_nodes = seed_slots st seed_nodes).
    { apply seed_slots_ext. intros n f. now rewrite Hh3. }
    rewrite <- Hslots3 in Hj.
    assert (Hfield : field = seed_key \/ field = noise_seed_key).
    { clear - Hj. unfold seed_slots in Hj. apply nth_error_In in Hj.
      apply in_flat_map in Hj. destruct Hj as (x & _ & Hx).
      unfold seed_slots_of in Hx. apply in_app_or in Hx.
      destruct Hx as [Hx|Hx];
        [destruct (has_field s3 x seed_key)
        |destruct (has_field s3 x noise_seed_key)];
        cbn [In] in Hx; try contradiction;
        (destruct Hx as [Hx|Hx]; [|contradiction]); inversion Hx; auto. }
    destruct (Fin5 node field) as [R5 _].
    { cbn [In]. intros [H|[]]. destruct Hfield as [->| ->]; discriminate H. }
    rewrite R5, (Hslots _ _ _ Hj).
    destruct Ho3 as (Hu3 & _). now rewrite Hu3.
Qed.

Lemma post_template_posts (client_id : string) (st : state) :
  post_template w client_id st
  = lift (rbind (post_prompt w (requests st)
                   (VDict [("prompt", workflow_data st);
                           ("client_id", VStr client_id)]))
            (fun result => py_getitem result (VStr "prompt_id")))
      (sent st).
Proof.
  unfold post_template, bind, gets, queue_prompt, http.
  destruct (post_prompt w (requests st) _) as [result|e]; cbn [lift rbind];
    [|reflexivity].
  destruct (py_getitem result (VStr "prompt_id")); reflexivity.
Qed.

Lemma build_payload_keeps_dict (prompt aspect_ratio : value) (st : state)
  (wf config : list (string * value)) :
  workflow_data st = VDict wf ->
  config_data st = VDict config ->
  config_data (snd (build_payload w prompt aspect_ratio st)) = VDict config /\
  exists wf',
    workflow_data (snd (build_payload w prompt aspect_ratio st)) = VDict wf'.
Proof.
  intros Hwf Hc.
  destruct (build_payload_frame prompt aspect_ratio st) as (Hcfg & _).
  destruct (build_payload_template_frame prompt aspect_ratio st wf Hwf)
    as (wf' & Hwf' & _).
  split; [congruence|eauto].
Qed.

(** C1, amended: the Parameter Injector makes no copy.  It writes size,
    seed and prompt values straight into the one template object the
    process holds, and the graph posted to the engine is that object.
    Take an invocation that runs from its first step to its last with no
    step of another invocation in between, and that gets as far as
    submitting a job.  The graph it posts is the shared template as its
    own writes left it, and so is the shared template afterwards:
    the text input of every prompt node holds that invocation's prompt,
    the width and height inputs that the size nodes had hold the size
    resolved for its aspect ratio, and every seed field of the seed
    nodes holds the reduction of a draw of its own (the draws after the
    one for the correlation id, in the order of the fields); nothing
    puts the loaded values back.  The values are there for every other
    invocation too: when a second invocation builds its payload after
    the first has built its own and before the first posts, the graph
    the first posts is the template with the second's prompt in every
    prompt node. *)
Theorem prompt_written_into_shared_template :
  (forall fuel arguments st st' r wf config size_nodes seed_nodes
          prompt_nodes,
      workflow_data st = VDict wf ->
      config_data st = VDict config ->
      dict_lookup image_size_nodes_key config = Some (VList size_nodes) ->
      dict_lookup seed_nodes_key config = Some (VList seed_nodes) ->
      dict_lookup prompt_nodes_key config = Some (VList prompt_nodes) ->
      NoDup seed_nodes ->
      handle_call_tool w cfg fuel "image_generate" arguments st = (r, st') ->
      (requests st < requests st')%nat ->
      exists client_id sB width height,
        build_payload w (call_prompt arguments)
          (call_aspect_ratio arguments) st
        = (Return client_id, sB) /\
        submit_job w (call_prompt arguments) (call_aspect_ratio arguments) st
        = lift (rbind (post_prompt w (requests sB)
                         (VDict [("prompt", workflow_data sB);
                                 ("client_id", VStr client_id)]))
                  (fun result => py_getitem result (VStr "prompt_id")))
            (sent sB) /\
        workflow_data st' = workflow_data sB /\
        resolve_size (call_aspect_ratio arguments) st
        = (Return (width, height), st) /\
        (forall n, In n prompt_nodes ->
                   read_input st' n text_key = Ok (call_prompt arguments)) /\
        (forall n,
            In n size_nodes ->
            (has_field st n width_key = true ->
             read_input st' n width_key = Ok width) /\
            (has_field st n height_key = true ->
             read_input st' n height_key = Ok height)) /\
        (forall j node field,
            nth_error (seed_slots st seed_nodes) j = Some (node, field) ->
            read_input st' node field
            = Ok (VInt (reduce_seed (uuid4_int w (S (uuids st) + j)))))) /\
  (forall prompt1 aspect_ratio1 prompt2 aspect_ratio2 st s1 s2
          client_id1 client_id2 wf config prompt_nodes,
      workflow_data st = VDict wf ->
      config_data st = VDict config ->
      dict_lookup prompt_nodes_key config = Some (VList prompt_nodes) ->
      build_payload w prompt1 aspect_ratio1 st = (Return client_id1, s1) ->
      build_payload w prompt2 aspect_ratio2 s1 = (Return client_id2, s2) ->
      post_template w client_id1 s2
      = lift (rbind (post_prompt w (requests s2)
                       (VDict [("prompt", workflow_data s2);
                               ("client_id", VStr client_id1)]))
                (fun result => py_getitem result (VStr "prompt_id")))
          (sent s2) /\
      forall n, In n prompt_nodes -> read_input s2 n text_key = Ok prompt2).
Proof.
  split.
  - intros fuel arguments st st' r wf config size_nodes seed_nodes
      prompt_nodes Hwf Hc Hsize Hseed Hk Hnd Hrun Hreq.
    rewrite handle_call_tool_cases, generate_split in Hrun.
    pose proof (build_payload_same_requests (call_prompt arguments)
                  (call_aspect_ratio arguments) st) as Hsame.
    pose proof (halts_build_payload (call_prompt arguments)
                  (call_aspect_ratio arguments) st) as Hhalt.
    unfold bind at 1 in Hrun.
    destruct (build_payload w (call_prompt arguments)
                (call_aspect_ratio arguments) st) as [[cid|e|] sB] eqn:Hb;
      cbn [fst snd] in *; [| |contradiction].
    + destruct (build_payload_writes _ _ _ _ _ _ _ _ _ _ Hwf Hc Hsize Hseed
                  Hk Hnd Hb) as (width & height & Hres & Htext & Hsz & Hsd).
      exists cid, sB, width, height. split; [reflexivity|].
      split; [now apply submit_job_posts_template|].
      assert (Htpl : same_template sB st').
      { pose proof (after_build_same_template fuel (call_title arguments)
                      cid sB) as Hafter.
        destruct (after_build w cfg fuel (call_title arguments) cid sB)
          as [[[[f|] md]|e|] s2]; cbn [snd] in Hafter;
          try (inversion Hrun; subst; exact Hafter).
        destruct (String.eqb f ""); [inversion Hrun; subst; exact Hafter|].
        pose proof (write_prompt_file_same_template f
                      (call_prompt arguments) s2) as Hwrite.
        destruct (write_prompt_file w cfg f (call_prompt arguments) s2)
          as [[[]|e|] s3]; cbn [snd] in Hwrite; inversion Hrun; subst;
          exact (same_template_trans _ _ _ Hafter Hwrite). }
      split; [exact Htpl|]. split; [exact Hres|].
      split; [|split].
      * intros n Hn. rewrite (read_input_same_template _ _ _ _ Htpl).
        now apply Htext.
      * intros n Hn. rewrite !(read_input_same_template _ _ _ _ Htpl).
        now apply Hsz.
      * intros j node field Hj.
        rewrite (read_input_same_template _ _ _ _ Htpl). now apply Hsd.
    + inversion Hrun; subst. unfold same_requests in Hsame. lia.
  - intros prompt1 aspect_ratio1 prompt2 aspect_ratio2 st s1 s2
      client_id1 client_id2 wf config prompt_nodes Hwf Hc Hk Hb1 Hb2.
    split; [apply post_template_posts|].
    destruct (build_payload_keeps_dict prompt1 aspect_ratio1 st wf config
                Hwf Hc) as (Hc1 & wf1 & Hwf1).
    rewrite Hb1 in Hc1, Hwf1. cbn [snd] in Hc1, Hwf1.
    exact (build_payload_return _ _ _ _ _ _ _ _ Hwf1 Hc1 Hk Hb2).
Qed.

End Properties.

(** * Properties of [image_host.py] *)

Section HostProperties.
Import ImageHost.

(** ** Pages *)

Lemma slice_from_front {A} (l : list A) (start stop : Z) :
  0 <= start <= stop ->
  slice l start stop
  = firstn (Z.to_nat (stop - start)) (skipn (Z.to_nat start) l).
Proof.
  intros H. unfold slice.
  set (n := Z.of_nat (List.length l)).
  assert (Hn : 0 <= n) by (unfold n; lia).
  destruct (start <? 0) eqn:E1; [lia|].
  destruct (stop <? 0) eqn:E2; [lia|].
  destruct (Z.le_gt_cases n start) as [Hge|Hlt].
  - rewrite !skipn_all2 by (unfold n in *; lia).
    now rewrite !firstn_nil.
  - replace (Z.min start n) with start by lia.
    destruct (Z.le_gt_cases n stop) as [Hs|Hs].
    + replace (Z.min stop n) with n by lia.
      rewrite !firstn_all2; try reflexivity;
        rewrite length_skipn; unfold n in *; lia.
    + now replace (Z.min stop n) with stop by lia.
Qed.

Lemma paginated_files_page (files : list string) (page : Z) :
  1 <= page ->
  paginated_files files page
  = firstn 12 (skipn (12 * Z.to_nat (page - 1)) files).
Proof.
  intros H. unfold paginated_files, PAGE_SIZE.
  rewrite slice_from_front by lia.
  replace (Z.to_nat ((page - 1) * 12 + 12 - (page - 1) * 12)) with 12%nat
    by lia.
  now replace (Z.to_nat ((page - 1) * 12)) with (12 * Z.to_nat (page - 1))%nat
    by lia.
Qed.

Lemma firstn_plus {A} (n m : nat) (l : list A) :
  firstn (n + m) l = (firstn n l ++ firstn m (skipn n l))%list.
Proof.
  revert l. induction n as [|n IH]; intros l; [reflexivity|].
  destruct l as [|x l]; cbn; [now rewrite firstn_nil|].
  now rewrite IH.
Qed.

Lemma chunks_concat {A} (size : nat) (l : list A) (k : nat) :
  List.concat (map (fun i => firstn size (skipn (size * i) l)) (seq 0 k))
  = firstn (size * k) l.
Proof.
  induction k as [|k IH].
  - now rewrite Nat.mul_0_r.
  - rewrite seq_S, map_app, concat_app, IH. cbn [map List.concat plus].
    rewrite app_nil_r.
    replace (size * S k)%nat with (size * k + size)%nat by lia.
    now rewrite firstn_plus.
Qed.

Lemma total_pages_bounds (files : list string) :
  0 <= total_pages files /\
  Z.of_nat (List.length files) <= 12 * total_pages files /\
  12 * total_pages files < Z.of_nat (List.length files) + 12.
Proof.
  unfold total_pages, PAGE_SIZE.
  set (n := Z.of_nat (List.length files)).
  assert (Hn : 0 <= n) by (unfold n; lia).
  pose proof (Z.div_mod (n + 12 - 1) 12 ltac:(lia)) as Hdm.
  pose proof (Z.mod_pos_bound (n + 12 - 1) 12 ltac:(lia)) as Hb.
  lia.
Qed.

Lemma range_from_map (lo : Z) (n : nat) :
  range_from lo n = map (fun i => Z.of_nat i + lo) (seq 0 n).
Proof.
  revert lo. induction n as [|n IH]; intros lo; [reflexivity|].
  cbn [range_from seq map]. f_equal. rewrite IH, <- seq_shift, map_map.
  apply map_ext. intros i. lia.
Qed.

Lemma py_range_from_one (k : Z) :
  py_range 1 (k + 1) = map (fun i => Z.of_nat i + 1) (seq 0 (Z.to_nat k)).
Proof.
  unfold py_range. replace (k + 1 - 1) with k by lia.
  apply range_from_map.
Qed.

(** X11: the pages partition the listing.  Pages 1 to [total_pages],
    one after the other, give back the listing exactly: every file is on
    one page and in the listing's order.  No page holds more than twelve
    names, every page from 1 to [total_pages] holds at least one, and
    every page before the last holds twelve. *)
Theorem pages_partition_the_listing (files : list string) :
  List.concat (map (paginated_files files) (py_range 1 (total_pages files + 1)))
  = files /\
  (forall page, (List.length (paginated_files files page) <= 12)%nat) /\
  (forall page,
      1 <= page <= total_pages files -> paginated_files files page <> []) /\
  (forall page,
      1 <= page < total_pages files ->
      List.length (paginated_files files page) = 12%nat).
Proof.
  destruct (total_pages_bounds files) as (H0 & Hup & Hlow).
  split; [|split; [|split]].
  - rewrite py_range_from_one, map_map.
    rewrite (map_ext _ (fun i => firstn 12 (skipn (12 * i) files))).
    + rewrite chunks_concat. apply firstn_all2. lia.
    + intros i. rewrite paginated_files_page by lia.
      now replace (Z.to_nat (Z.of_nat i + 1 - 1)) with i by lia.
  - intros page. unfold paginated_files, slice, PAGE_SIZE.
    rewrite length_firstn.
    set (n := Z.of_nat (List.length files)).
    assert (Hn : 0 <= n) by (unfold n; lia).
    destruct ((page - 1) * 12 <? 0) eqn:E1;
      destruct ((page - 1) * 12 + 12 <? 0) eqn:E2; lia.
  - intros page Hp. rewrite paginated_files_page by lia.
    intros Hnil. apply (f_equal (@List.length string)) in Hnil.
    rewrite length_firstn, length_skipn in Hnil. cbn [List.length] in Hnil.
    lia.
  - intros page Hp. rewrite paginated_files_page by lia.
    rewrite length_firstn, length_skipn. lia.
Qed.

Lemma negative_page_from_the_end (files : list string) (page : Z) :
  page < 0 ->
  paginated_files files page
  = rev (firstn 12 (skipn (12 * Z.to_nat (- page)) (rev files))).
Proof.
  intros Hp. unfold paginated_files, slice, PAGE_SIZE.
  set (L := List.length files).
  set (x := (12 * Z.to_nat (- page))%nat).
  destruct ((page - 1) * 12 <? 0) eqn:E1; [|lia].
  destruct ((page - 1) * 12 + 12 <? 0) eqn:E2; [|lia].
  rewrite skipn_rev, firstn_rev, rev_involutive, length_firstn.
  fold L.
  replace (Nat.min (L - x) L) with (L - x)%nat by lia.
  rewrite skipn_firstn_comm.
  replace (Z.to_nat (Z.max ((page - 1) * 12 + Z.of_nat L) 0))
    with (L - x - 12)%nat by (unfold x; lia).
  replace (Z.to_nat (Z.max ((page - 1) * 12 + 12 + Z.of_nat L) 0
                     - Z.max ((page - 1) * 12 + Z.of_nat L) 0))
    with (L - x - (L - x - 12))%nat by (unfold x; lia).
  reflexivity.
Qed.

Lemma negative_page_length (files : list string) (page : Z) :
  page < 0 ->
  List.length (paginated_files files page)
  = Nat.min 12 (List.length files - 12 * Z.to_nat (- page)).
Proof.
  intros Hp. rewrite negative_page_from_the_end by exact Hp.
  rewrite length_rev, length_firstn, length_skipn, length_rev.
  reflexivity.
Qed.

(** X12: page numbers outside 1..[total_pages] are not rejected.  Page 0
    and every page beyond the last show no file.  A negative page number
    is taken as a slice counted from the end of the listing: page [-j]
    shows, in the order of the listing, what there is of the twelve
    names that come before the last [12 * j] names; that is
    [min 12 (length - 12 * j)] names: twelve when the listing has at
    least [12 * (j + 1)] names, fewer when it has less, and none once it
    has no more than [12 * j]. *)
Theorem pages_out_of_range (files : list string) (page : Z) :
  (page = 0 \/ total_pages files < page -> paginated_files files page = []) /\
  (page < 0 ->
   paginated_files files page
   = rev (firstn 12 (skipn (12 * Z.to_nat (- page)) (rev files))) /\
   List.length (paginated_files files page)
   = Nat.min 12 (List.length files - 12 * Z.to_nat (- page))) /\
  (page < 0 ->
   12 * (1 - page) <= Z.of_nat (List.length files) ->
   paginated_files files page
   = firstn 12
       (skipn (Z.to_nat (Z.of_nat (List.length files) - 12 * (1 - page)))
          files)) /\
  (page < 0 ->
   Z.of_nat (List.length files) <= 12 * (- page) ->
   paginated_files files page = []).
Proof.
  destruct (total_pages_bounds files) as (H0 & Hup & Hlow).
  split; [|split; [|split]].
  - intros [->|Hp].
    + unfold paginated_files, slice, PAGE_SIZE. cbn.
      replace (Z.to_nat _) with 0%nat by lia. reflexivity.
    + rewrite paginated_files_page by lia.
      rewrite skipn_all2 by lia. apply firstn_nil.
  - intros Hp. split.
    + now apply negative_page_from_the_end.
    + now apply negative_page_length.
  - intros Hp Hlen. unfold paginated_files, slice, PAGE_SIZE.
    set (n := Z.of_nat (List.length files)) in *.
    destruct ((page - 1) * 12 <? 0) eqn:E1; [|lia].
    destruct ((page - 1) * 12 + 12 <? 0) eqn:E2; [|lia].
    replace (Z.max ((page - 1) * 12 + n) 0) with (n - 12 * (1 - page)) by lia.
    replace (Z.max ((page - 1) * 12 + 12 + n) 0) with (n - 12 * (1 - page) + 12) by lia.
    now replace (Z.to_nat (n - 12 * (1 - page) + 12 - (n - 12 * (1 - page))))
      with 12%nat by lia.
  - intros Hp Hlen. unfold paginated_files, slice, PAGE_SIZE.
    set (n := Z.of_nat (List.length files)) in *.
    destruct ((page - 1) * 12 <? 0) eqn:E1; [|lia].
    destruct ((page - 1) * 12 + 12 <? 0) eqn:E2; [|lia].
    replace (Z.to_nat _) with 0%nat by lia. reflexivity.
Qed.

(** ** The pagination bar *)

Lemma in_range_from (p lo : Z) (n : nat) :
  In p (range_from lo n) <-> lo <= p < lo + Z.of_nat n.
Proof.
  revert lo. induction n as [|n IH]; intros lo; cbn [range_from In].
  - lia.
  - rewrite IH. lia.
Qed.

Lemma in_py_range (p lo hi : Z) : In p (py_range lo hi) <-> lo <= p < hi.
Proof. unfold py_range. rewrite in_range_from. lia. Qed.

Lemma in_numbered_link (p page : Z) (ps : list Z) :
  In (Link p) (numbered page ps) <-> In p ps /\ p <> page.
Proof.
  unfold numbered. rewrite in_map_iff. split.
  - intros (q & Hq & Hin). destruct (Z.eqb_spec q page); [discriminate|].
    injection Hq as ->. now split.
  - intros [Hin Hne]. exists p. split; [|exact Hin].
    destruct (Z.eqb_spec p page); [contradiction|reflexivity].
Qed.

Lemma in_numbered_other (item : bar_item) (page : Z) (ps : list Z) :
  In item (numbered page ps) ->
  (exists p, item = Link p) \/ item = Current page.
Proof.
  unfold numbered. rewrite in_map_iff. intros (q & <- & _).
  destruct (Z.eqb_spec q page) as [->|]; eauto.
Qed.

Lemma currents_of_range (page lo : Z) (n : nat) :
  filter is_current (numbered page (range_from lo n))
  = if (lo <=? page) && (page <? lo + Z.of_nat n) then [Current page]
    else [].
Proof.
  revert lo. induction n as [|n IH]; intros lo; cbn [range_from numbered map].
  - destruct (Z.leb_spec lo page), (Z.ltb_spec page (lo + Z.of_nat 0));
      cbn [andb]; try reflexivity; lia.
  - fold (numbered page (range_from (lo + 1) n)).
    destruct (Z.eqb_spec lo page) as [->|Hne]; cbn [filter is_current];
      rewrite IH.
    + destruct (Z.leb_spec (page + 1) page); [lia|]. cbn [andb].
      destruct (Z.leb_spec page page); [|lia].
      destruct (Z.ltb_spec page (page + Z.of_nat (S n))); [|lia].
      reflexivity.
    + destruct (Z.leb_spec (lo + 1) page), (Z.leb_spec lo page),
        (Z.ltb_spec page (lo + 1 + Z.of_nat n)),
        (Z.ltb_spec page (lo + Z.of_nat (S n)));
        cbn [andb]; try reflexivity; lia.
Qed.

Lemma currents_of_py_range (page lo hi : Z) :
  filter is_current (numbered page (py_range lo hi))
  = if (lo <=? page) && (page <? hi) then [Current page] else [].
Proof.
  unfold py_range. rewrite currents_of_range.
  destruct (Z.leb_spec lo page), (Z.ltb_spec page (lo + Z.of_nat (Z.to_nat (hi - lo)))),
    (Z.ltb_spec page hi); cbn [andb]; try reflexivity; lia.
Qed.

Ltac bar_cases page total :=
  unfold pagination;
  destruct (Z.ltb_spec 1 page); destruct (Z.ltb_spec page total);
  destruct (Z.leb_spec total 7); destruct (Z.leb_spec page 4);
  destruct (Z.leb_spec (total - 3) page); try lia.

Ltac bar_in :=
  repeat first
    [ rewrite in_app_iff in * | rewrite in_numbered_link in *
    | rewrite in_py_range in * ];
  cbn [In] in *.

Ltac solve_or :=
  match goal with
  | |- _ \/ _ => first [left; solve_or | right; solve_or]
  | |- _ /\ _ => split; solve_or
  | |- Link _ = Link _ => f_equal; lia
  | |- Previous _ = Previous _ => f_equal; lia
  | |- Next _ = Next _ => f_equal; lia
  | |- _ => lia
  end.

(** X13: the pagination bar, for a page that exists.  The bar marks
    exactly one entry as current, the page shown.  Every numbered link
    goes to another page between 1 and [total_pages]; the first page, the
    last page and both neighbours of the current page are always linked,
    and up to seven pages every page is.  "Previous" is there exactly
    when the page is not the first and goes to [page - 1]; "Next" exactly
    when it is not the last and goes to [page + 1]. *)
Theorem page_bar_shows_where_you_are (page total : Z) :
  1 <= page <= total ->
  filter is_current (pagination page total) = [Current page] /\
  (forall p, In (Link p) (pagination page total) ->
             1 <= p <= total /\ p <> page) /\
  (forall p, 1 <= p <= total -> p <> page ->
             p = 1 \/ p = total \/ page - 1 <= p <= page + 1 \/ total <= 7 ->
             In (Link p) (pagination page total)) /\
  (forall t, In (Previous t) (pagination page total)
             <-> 1 < page /\ t = page - 1) /\
  (forall t, In (Next t) (pagination page total)
             <-> page < total /\ t = page + 1).
Proof.
  intros Hp. split; [|split; [|split; [|split]]].
  - bar_cases page total;
      rewrite ?filter_app, ?currents_of_py_range; cbn [filter is_current app];
      rewrite ?app_nil_r;
      repeat match goal with
             | |- context [?a <=? ?b] => destruct (Z.leb_spec a b); try lia
             | |- context [?a <? ?b] => destruct (Z.ltb_spec a b); try lia
             end; reflexivity.
  - intros p Hin. revert Hin. bar_cases page total; intros Hin; bar_in;
      repeat match goal with
             | H : _ \/ _ |- _ => destruct H
             | H : _ /\ _ |- _ => destruct H
             | H : Link _ = Link _ |- _ => injection H as H
             | H : _ = Link _ |- _ => discriminate H
             | H : False |- _ => contradiction
             end; lia.
  - intros p Hr Hne Hwhich. bar_cases page total; bar_in;
      repeat match goal with
             | H : _ \/ _ |- _ => destruct H
             end;
      try lia; solve_or.
  - intros t. bar_cases page total; bar_in; split;
      try (intros [? ?]; subst t; solve_or);
      intros Hin;
      repeat match goal with
             | H : _ \/ _ |- _ => destruct H
             | H : _ /\ _ |- _ => destruct H
             | H : Previous _ = Previous _ |- _ => injection H as H
             | H : @eq bar_item _ _ |- _ => discriminate H
             | H : False |- _ => contradiction
             | H : In _ (numbered _ _) |- _ =>
                 apply in_numbered_other in H; destruct H as [[? H]|H]
             end; lia.
  - intros t. bar_cases page total; bar_in; split;
      try (intros [? ?]; subst t; solve_or);
      intros Hin;
      repeat match goal with
             | H : _ \/ _ |- _ => destruct H
             | H : _ /\ _ |- _ => destruct H
             | H : Next _ = Next _ |- _ => injection H as H
             | H : @eq bar_item _ _ |- _ => discriminate H
             | H : False |- _ => contradiction
             | H : In _ (numbered _ _) |- _ =>
                 apply in_numbered_other in H; destruct H as [[? H]|H]
             end; lia.
Qed.


(** ** The listing *)

Lemma insert_sorted_perm (x : string) (l : list string) :
  Permutation (insert_sorted x l) (x :: l).
Proof.
  induction l as [|y l IH]; cbn [insert_sorted]; [reflexivity|].
  destruct (String.leb x y); [reflexivity|].
  rewrite IH. apply perm_swap.
Qed.

Lemma sorted_perm (l : list string) : Permutation (sorted l) l.
Proof.
  induction l as [|x l IH]; cbn [sorted]; [reflexivity|].
  rewrite insert_sorted_perm. now apply perm_skip.
Qed.

Lemma insert_sorted_hd (a x : string) (l : list string) :
  ascending a x -> HdRel ascending a l ->
  HdRel ascending a (insert_sorted x l).
Proof.
  intros Hax Hal. destruct l as [|y l]; cbn [insert_sorted].
  - now constructor.
  - destruct (String.leb x y); constructor; [exact Hax|].
    now apply HdRel_inv in Hal.
Qed.

Lemma insert_sorted_sorted (x : string) (l : list string) :
  Sorted ascending l -> Sorted ascending (insert_sorted x l).
Proof.
  induction l as [|y l IH]; intros Hs; cbn [insert_sorted].
  - repeat constructor.
  - apply Sorted_inv in Hs. destruct Hs as [Hs Hhd].
    destruct (String.leb x y) eqn:E.
    + constructor; [now constructor|]. now constructor.
    + constructor; [now apply IH|].
      apply insert_sorted_hd; [|exact Hhd].
      unfold ascending. destruct (String.leb_total x y) as [H|H];
        [congruence|exact H].
Qed.

Lemma sorted_sorted (l : list string) : Sorted ascending (sorted l).
Proof.
  induction l as [|x l IH]; cbn [sorted]; [constructor|].
  now apply insert_sorted_sorted.
Qed.

Lemma sorted_snoc {A} (R : A -> A -> Prop) (l : list A) (x : A) :
  Sorted R l -> HdRel (fun a b => R b a) x (rev l) -> Sorted R (l ++ [x]).
Proof.
  induction l as [|a l IH]; intros Hs Hx; cbn [app].
  - repeat constructor.
  - apply Sorted_inv in Hs. destruct Hs as [Hs Hhd].
    cbn [rev] in Hx. constructor.
    + apply IH; [exact Hs|].
      destruct (rev l) as [|b r]; [constructor|].
      constructor. now apply HdRel_inv in Hx.
    + destruct l as [|b l]; cbn [app].
      * constructor. now apply HdRel_inv in Hx.
      * constructor. now apply HdRel_inv in Hhd.
Qed.

Lemma sorted_rev {A} (R : A -> A -> Prop) (l : list A) :
  Sorted R l -> Sorted (fun a b => R b a) (rev l).
Proof.
  induction l as [|a l IH]; intros Hs; cbn [rev]; [constructor|].
  apply Sorted_inv in Hs. destruct Hs as [Hs Hhd].
  apply sorted_snoc; [now apply IH|].
  now rewrite rev_involutive.
Qed.

Lemma in_png_files (names : list string) (f : string) :
  In f (png_files names) <-> In f names /\ is_png f = true.
Proof.
  unfold png_files. rewrite <- in_rev.
  rewrite <- filter_In. split; apply Permutation_in;
    [|symmetry]; apply sorted_perm.
Qed.

(** X14: the listing is the directory's PNG names, last name first.  It
    is a rearrangement of the names that end in ".png" in any letter
    case: none is lost, none is added, a name is listed as often as the
    directory gives it; and each name is followed by one that is not
    greater in code-point order. *)
Theorem listing_is_the_png_names_descending (names : list string) :
  Permutation (png_files names) (filter is_png names) /\
  Sorted (fun a b => String.leb b a = true) (png_files names) /\
  (forall f, In f (png_files names) <-> In f names /\ is_png f = true).
Proof.
  split; [|split].
  - unfold png_files. rewrite <- Permutation_rev. apply sorted_perm.
  - unfold png_files.
    exact (sorted_rev ascending _ (sorted_sorted _)).
  - apply in_png_files.
Qed.

Lemma in_firstn {A} (x : A) (n : nat) (l : list A) :
  In x (firstn n l) -> In x l.
Proof.
  revert l. induction n as [|n IH]; intros [|y l]; cbn;
    try contradiction.
  intros [H|H]; auto.
Qed.

Lemma in_skipn {A} (x : A) (n : nat) (l : list A) :
  In x (skipn n l) -> In x l.
Proof.
  revert l. induction n as [|n IH]; intros [|y l]; cbn; auto.
Qed.

Lemma in_slice {A} (x : A) (l : list A) (start stop : Z) :
  In x (slice l start stop) -> In x l.
Proof. unfold slice. intros H. now apply in_firstn, in_skipn in H. Qed.

(** X15: the listing and the two file routes apply the same test to a
    name.  Every item on every page stands for a name [f] of the output
    directory; its [href] is "/view/" followed by [f] and its [src]
    "/thumb/" followed by [f], the name put in as it is, without URL
    quoting; and [view_file] and [serve_thumbnail], called with the name
    [f] itself, pass their guard and call [send_from_directory] (on the
    output directory, and on its [thumbnails] subdirectory).  A name of
    the directory that the listing leaves out gets 400 "Only PNG files
    are allowed" from both routes.  What a request for a link delivers
    to the route is a matter of URL parsing and is not part of the
    statement. *)
Theorem gallery_items_pass_both_guards (OUTPUT_DIR : string)
  (names : list string) :
  (forall page item,
      In item (file_items (list_files names page)) ->
      exists f,
        In f names /\
        href item = "/view/" ++ f /\ src item = "/thumb/" ++ f /\
        view_file OUTPUT_DIR f = SendFromDirectory OUTPUT_DIR f /\
        serve_thumbnail OUTPUT_DIR f
        = SendFromDirectory (THUMBNAIL_DIR OUTPUT_DIR) f) /\
  (forall f,
      In f names ->
      ~ In f (png_files names) ->
      view_file OUTPUT_DIR f = Abort 400 "Only PNG files are allowed" /\
      serve_thumbnail OUTPUT_DIR f
      = Abort 400 "Only PNG files are allowed").
Proof.
  split.
  - intros page item. cbn [list_files file_items]. rewrite in_map_iff.
    intros (f & <- & Hin). unfold paginated_files in Hin.
    apply in_slice, in_png_files in Hin. destruct Hin as [Hin Hpng].
    exists f. unfold view_file, serve_thumbnail. rewrite Hpng.
    now repeat split.
  - intros f Hin Hnot. rewrite in_png_files in Hnot.
    unfold view_file, serve_thumbnail.
    destruct (is_png f); [|split; reflexivity].
    exfalso. apply Hnot. now split.
Qed.

(** ** Names *)

Lemma lower_app (a b : string) : lower (a ++ b) = lower a ++ lower b.
Proof. induction a as [|c a IH]; cbn; [reflexivity|now rewrite IH]. Qed.

Lemma length_app (a b : string) :
  String.length (a ++ b) = (String.length a + String.length b)%nat.
Proof. induction a as [|c a IH]; cbn; [reflexivity|now rewrite IH]. Qed.

Lemma drop_app (a b : string) : drop (String.length a) (a ++ b) = b.
Proof. induction a as [|c a IH]; cbn; [reflexivity|exact IH]. Qed.

Lemma endswith_app (a b : string) : endswith (a ++ b) b = true.
Proof.
  unfold endswith. rewrite length_app.
  replace (String.length a + String.length b - String.length b)%nat
    with (String.length a) by lia.
  rewrite drop_app, String.eqb_refl, andb_true_r.
  apply Nat.leb_le. lia.
Qed.

Lemma endswith_inv (s suffix : string) :
  endswith s suffix = true -> exists a, s = a ++ suffix.
Proof.
  unfold endswith. rewrite andb_true_iff, Nat.leb_le, String.eqb_eq.
  intros [Hlen Hdrop].
  set (k := (String.length s - String.length suffix)%nat) in *.
  clearbody k. clear Hlen. revert s Hdrop.
  induction k as [|k IH]; intros s Hdrop; cbn [drop] in Hdrop.
  - exists "". now subst.
  - destruct s as [|c s].
    + exists "". now subst.
    + destruct (IH _ Hdrop) as [a ->]. now exists (String c a).
Qed.

Lemma endswith_other (s x y : string) :
  String.length x = String.length y -> x <> y ->
  endswith s x = true -> endswith s y = false.
Proof.
  unfold endswith. intros Hlen Hne. rewrite Hlen.
  rewrite andb_true_iff, String.eqb_eq. intros [Hle Hx].
  rewrite Hle, Hx. cbn [andb]. now apply String.eqb_neq.
Qed.

Lemma is_png_suffix (stem : string) : is_png (stem ++ ".png") = true.
Proof. unfold is_png. rewrite lower_app. apply endswith_app. Qed.

Lemma not_png_txt (stem : string) : is_png (stem ++ ".txt") = false.
Proof.
  unfold is_png. rewrite lower_app.
  apply (endswith_other _ ".txt"); [reflexivity|discriminate|].
  apply endswith_app.
Qed.

Lemma replace_from_empty (fuel : nat) (old new : string) :
  replace_from fuel old new "" = "".
Proof. destruct fuel; reflexivity. Qed.

(* the last ".png" of a name is always replaced *)
Lemma replace_png_suffix (fuel : nat) :
  forall stem,
    (String.length (stem ++ ".png") <= fuel)%nat ->
    exists stem',
      replace_from fuel ".png" ".txt" (stem ++ ".png") = stem' ++ ".txt".
Proof.
  induction fuel as [|fuel IH]; intros stem Hlen.
  - rewrite length_app in Hlen. cbn in Hlen. lia.
  - assert (Hstep : forall c rest,
              (String.length (rest ++ ".png") <= fuel)%nat ->
              exists stem',
                String c (replace_from fuel ".png" ".txt" (rest ++ ".png"))
                = stem' ++ ".txt").
    { intros c rest Hr. destruct (IH rest Hr) as [y ->].
      now exists (String c y). }
    rewrite length_app in Hlen.
    destruct stem as [|c0 stem].
    { exists "". cbn. now rewrite replace_from_empty. }
    cbn [String.length] in Hlen.
    assert (Hrest : (String.length (stem ++ ".png") <= fuel)%nat)
      by (rewrite length_app; cbn [String.length] in Hlen |- *; lia).
    cbn [append replace_from].
    destruct (is_prefix ".png" (String c0 (stem ++ ".png"))) eqn:E;
      [|now apply Hstep].
    destruct stem as [|c1 [|c2 [|c3 stem]]].
    + cbn [is_prefix append] in E.
      destruct (Ascii.eqb "." c0); cbn in E; discriminate E.
    + cbn [is_prefix append] in E.
      destruct (Ascii.eqb "." c0), (Ascii.eqb "p" c1); cbn in E;
        discriminate E.
    + cbn [is_prefix append] in E.
      destruct (Ascii.eqb "." c0), (Ascii.eqb "p" c1), (Ascii.eqb "n" c2);
        cbn in E; discriminate E.
    + cbn [append String.length drop].
      destruct (IH stem) as [y ->].
      * rewrite length_app. cbn [String.length] in Hlen |- *. lia.
      * now exists (".txt" ++ y).
Qed.

Lemma sidecar_name_ends_txt (stem : string) :
  exists stem', str_replace ".png" ".txt" (stem ++ ".png") = stem' ++ ".txt".
Proof. unfold str_replace. now apply replace_png_suffix. Qed.

(** ** Escaping *)

Lemma replace_char (c : ascii) (new : string) (fuel : nat) :
  forall s,
    (String.length s <= fuel)%nat ->
    replace_from fuel (String c "") new s = subst_char c new s.
Proof.
  induction fuel as [|fuel IH]; intros [|d s] Hlen; cbn in Hlen;
    try reflexivity; try lia.
  cbn [replace_from subst_char is_prefix String.length drop].
  rewrite andb_true_r, IH by lia.
  destruct (Ascii.eqb c d); reflexivity.
Qed.

Lemma str_replace_char (c : ascii) (new s : string) :
  str_replace (String c "") new s = subst_char c new s.
Proof. unfold str_replace. now apply replace_char. Qed.

Lemma append_assoc (a b c : string) : (a ++ b) ++ c = a ++ (b ++ c).
Proof. induction a as [|x a IH]; cbn; [reflexivity|now rewrite IH]. Qed.

Lemma subst_char_app (c : ascii) (new a b : string) :
  subst_char c new (a ++ b) = subst_char c new a ++ subst_char c new b.
Proof.
  induction a as [|d a IH]; cbn [append subst_char]; [reflexivity|].
  now rewrite IH, append_assoc.
Qed.

Lemma escape_one (d : ascii) :
  subst_char ">" "&gt;"
    (subst_char "<" "&lt;"
       (if Ascii.eqb "&" d then "&amp;" else String d ""))
  = escape_char d.
Proof.
  unfold escape_char.
  destruct (Ascii.eqb "&" d); [reflexivity|].
  cbn [subst_char append].
  destruct (Ascii.eqb "<" d); [reflexivity|].
  cbn [subst_char append].
  destruct (Ascii.eqb ">" d); reflexivity.
Qed.

Lemma safe_filename_escape (f : string) : safe_filename f = escape_each f.
Proof.
  unfold safe_filename. rewrite !str_replace_char.
  induction f as [|d f IH]; [reflexivity|].
  cbn [subst_char escape_each].
  now rewrite !subst_char_app, IH, escape_one.
Qed.

Lemma has_char_app (c : ascii) (a b : string) :
  is_substring (String c "") (a ++ b)
  = is_substring (String c "") a || is_substring (String c "") b.
Proof.
  induction a as [|d a IH]; cbn [append].
  - destruct b; reflexivity.
  - cbn [is_substring is_prefix]. rewrite IH, !andb_true_r.
    now rewrite orb_assoc.
Qed.

Lemma escape_char_no_angle (d : ascii) :
  is_substring "<" (escape_char d) = false /\
  is_substring ">" (escape_char d) = false.
Proof.
  unfold escape_char.
  destruct (Ascii.eqb "&" d); [split; reflexivity|].
  destruct (Ascii.eqb "<" d) eqn:E1; [split; reflexivity|].
  destruct (Ascii.eqb ">" d) eqn:E2; [split; reflexivity|].
  cbn [is_substring is_prefix]. rewrite E1, E2. split; reflexivity.
Qed.

Lemma escape_each_plain (f : string) :
  is_substring "&" f = false -> is_substring "<" f = false ->
  is_substring ">" f = false -> escape_each f = f.
Proof.
  induction f as [|d f IH]; [reflexivity|].
  cbn [is_substring is_prefix escape_each]. rewrite !andb_true_r.
  intros Ha Hl Hg. apply orb_false_iff in Ha, Hl, Hg.
  destruct Ha as [Ha Ha'], Hl as [Hl Hl'], Hg as [Hg Hg'].
  unfold escape_char. rewrite Ha, Hl, Hg. cbn [append].
  now rewrite IH.
Qed.

(** X16: the three replacements of line 52 amount to one pass that
    turns each '&' into "&amp;", each '<' into "&lt;" and each '>' into
    "&gt;" (the '&' of an entity written for '<' or '>' is not escaped
    again).  The escaped name contains no '<' and no '>', and a name
    without any of the three characters is left as it is. *)
Theorem safe_filename_is_one_pass_escape (f : string) :
  safe_filename f = escape_each f /\
  is_substring "<" (safe_filename f) = false /\
  is_substring ">" (safe_filename f) = false /\
  (is_substring "&" f = false -> is_substring "<" f = false ->
   is_substring ">" f = false -> safe_filename f = f).
Proof.
  rewrite safe_filename_escape. split; [reflexivity|].
  split; [|split].
  - induction f as [|d f IH]; [reflexivity|]. cbn [escape_each].
    rewrite has_char_app, IH.
    now rewrite (proj1 (escape_char_no_angle d)).
  - induction f as [|d f IH]; [reflexivity|]. cbn [escape_each].
    rewrite has_char_app, IH.
    now rewrite (proj2 (escape_char_no_angle d)).
  - apply escape_each_plain.
Qed.

End HostProperties.

(** * The helpers and the whole call, run

    The string and number helpers on the inputs the server meets, and the
    scenario "a red fox" / "Red Fox" / "tall" from submission to the
    returned link. *)

Example float_of_int_small : float_of_int (2 ^ 53 - 1) = 2 ^ 53 - 1.
Proof. reflexivity. Qed.

Example float_of_int_tie_to_even :
  float_of_int (2 ^ 53 + 1) = 2 ^ 53 /\ float_of_int (2 ^ 53 + 3) = 2 ^ 53 + 4.
Proof. split; reflexivity. Qed.

Example float_of_int_uuid_sized : float_of_int (2 ^ 100 + 1) = 2 ^ 100.
Proof. reflexivity. Qed.

Example reduce_seed_example : reduce_seed (2 ^ 100 + 1) = 6703205376.
Proof. reflexivity. Qed.

Example path_join_examples :
  path_join "./output" "a.png" = "./output/a.png" /\
  path_join "out/" "a.png" = "out/a.png" /\
  path_join "./output" "/tmp/a.png" = "/tmp/a.png".
Proof. repeat split; reflexivity. Qed.

Example dirname_examples :
  dirname "./output/a.png" = "./output" /\
  dirname "a.png" = "" /\
  dirname "/a.png" = "/" /\
  dirname "out//a.png" = "out".
Proof. repeat split; reflexivity. Qed.

Example str_replace_examples :
  str_replace ".png" ".txt" "2025-01-01_12:00:00_Red-Fox_flux.png"
  = "2025-01-01_12:00:00_Red-Fox_flux.txt" /\
  str_replace ".png" ".txt" "a.png_b.png" = "a.txt_b.txt".
Proof. split; reflexivity. Qed.

Example red_fox_run :
  handle_call_tool Demo.world_ok Demo.settings0 10%nat "image_generate"
    Demo.request Demo.state0
  = (Return
       [{| type_ := "text";
           text :=
      "![Red Fox](http://host/view/2025-01-01_12:00:00_Red-Fox_flux.png)" |}],
     {| workflow_data :=
          VDict
            [("5", VDict [("class_type", VStr "EmptyLatentImage");
                          ("inputs", VDict [("width", VInt 864);
                                            ("height", VInt 1152);
                                            ("batch_size", VInt 1)])]);
             ("6", VDict [("class_type", VStr "CLIPTextEncode");
                          ("inputs", VDict [("text", VStr "a red fox");
                                            ("clip",
                                             VList [VStr "11"; VInt 0])])]);
             ("25", VDict [("class_type", VStr "RandomNoise");
                           ("inputs",
                            VDict [("noise_seed", VInt 6703205376)])]);
             ("9", VDict [("class_type", VStr "SaveImage");
                          ("inputs",
                           VDict [("filename_prefix", VStr "ComfyUI");
                                  ("images", VList [VStr "8"; VInt 0])])])];
        config_data := Demo.loaded_config Demo.config;
        uuids := 2; requests := 6; clock_reads := 1;
        timeline := [Sent 0; Sent 1; Slept 1; Sent 2; Slept 1; Sent 3;
                     Sent 4; Sent 5];
        files :=
          [("./output/2025-01-01_12:00:00_Red-Fox_flux.png",
            PngFile (Image Demo.png));
           ("./output/2025-01-01_12:00:00_Red-Fox_flux.txt",
            TextFile "a red fox")] |}).
Proof. vm_compute. reflexivity. Qed.

(** * Concrete runs

    The demo world of [Demo]: the statements above at explicit inputs, and
    the runs that show where the written specification and the code part. *)

(** C1, counterexample: one call in the demo world, and the template the
    process holds is no longer the one it loaded: the prompt node's text,
    empty in the loaded template, now holds the prompt of that call (the
    size and the seed were overwritten as well). *)
Lemma shared_template_changed_by_call :
  read_input Demo.state0 (VStr "6") "text" = Ok (VStr "") /\
  read_input
    (snd (handle_call_tool Demo.world_ok Demo.settings0 10%nat "image_generate"
            Demo.request Demo.state0)) (VStr "6") "text"
  = Ok (VStr "a red fox") /\
  workflow_data
    (snd (handle_call_tool Demo.world_ok Demo.settings0 10%nat "image_generate"
            Demo.request Demo.state0))
  <> workflow_data Demo.state0.
Proof.
  split; [reflexivity|]. split; [vm_compute; reflexivity|].
  vm_compute. discriminate.
Qed.

(** C1, amended, in the demo world.  After one call for "a red fox" in
    the ratio "tall" the shared template holds the prompt, the size 864
    by 1152 and the seed of the call's second draw.  And when the
    payload for "a blue bird" is built right after the one for the red
    fox, the template then posted under the first call's id holds the
    blue bird. *)
Lemma prompt_written_into_shared_template_witness :
  (exists st',
     snd (handle_call_tool Demo.world_ok Demo.settings0 10%nat
            "image_generate" Demo.request Demo.state0) = st' /\
     read_input st' (VStr "6") text_key = Ok (VStr "a red fox") /\
     read_input st' (VStr "5") width_key = Ok (VInt 864) /\
     read_input st' (VStr "5") height_key = Ok (VInt 1152) /\
     read_input st' (VStr "25") noise_seed_key
     = Ok (VInt (reduce_seed (uuid4_int Demo.world_ok 1)))) /\
  (exists s1 s2,
     build_payload Demo.world_ok (VStr "a red fox") (VStr "tall") Demo.state0
     = (Return "0c0ffee0-0000-4000-8000-000000000000", s1) /\
     build_payload Demo.world_ok (VStr "a blue bird") (VStr "wide") s1
     = (Return "0c0ffee0-0000-4000-8000-00000000000b", s2) /\
     read_input s2 (VStr "6") text_key = Ok (VStr "a blue bird")).
Proof.
  split.
  - set (run := handle_call_tool Demo.world_ok Demo.settings0 10%nat
                  "image_generate" Demo.request Demo.state0).
    exists (snd run). split; [reflexivity|].
    assert (Hnd : NoDup [VStr "25"])
      by (constructor; [intros []|constructor]).
    destruct (proj1 (prompt_written_into_shared_template Demo.world_ok
                       Demo.settings0)
                10%nat Demo.request Demo.state0 (snd run) (fst run)
                _ _ [VStr "5"] [VStr "25"] [VStr "6"]
                eq_refl eq_refl eq_refl eq_refl eq_refl Hnd
                (surjective_pairing run) ltac:(vm_compute; lia))
      as (client_id & sB & width & height & _ & _ & _ & Hres & Ht & Hs & Hd).
    assert (Hw : width = VInt 864 /\ height = VInt 1152).
    { vm_compute in Hres. inversion Hres. now split. }
    destruct Hw as [-> ->].
    split; [apply Ht; left; reflexivity|].
    destruct (Hs (VStr "5") (or_introl eq_refl)) as [Hwd Hhg].
    split; [apply Hwd; reflexivity|]. split; [apply Hhg; reflexivity|].
    exact (Hd 0%nat (VStr "25") noise_seed_key eq_refl).
  - set (s1 := snd (build_payload Demo.world_ok (VStr "a red fox")
                      (VStr "tall") Demo.state0)).
    set (s2 := snd (build_payload Demo.world_ok (VStr "a blue bird")
                      (VStr "wide") s1)).
    exists s1, s2.
    assert (H1 : build_payload Demo.world_ok (VStr "a red fox") (VStr "tall")
                   Demo.state0
                 = (Return "0c0ffee0-0000-4000-8000-000000000000", s1))
      by (vm_compute; reflexivity).
    assert (H2 : build_payload Demo.world_ok (VStr "a blue bird")
                   (VStr "wide") s1
                 = (Return "0c0ffee0-0000-4000-8000-00000000000b", s2))
      by (vm_compute; reflexivity).
    split; [exact H1|]. split; [exact H2|].
    apply (proj2 (proj2 (prompt_written_into_shared_template Demo.world_ok
                           Demo.settings0)
                    (VStr "a red fox") (VStr "tall") (VStr "a blue bird")
                    (VStr "wide") Demo.state0 s1 s2 _ _ _ _ [VStr "6"]
                    eq_refl eq_refl eq_refl H1 H2)).
    left. reflexivity.
Defined.

(** C2, counterexample: a config whose size-node list names node "99",
    which the workflow does not have.  Start-up succeeds; the absence
    shows only when a generation request is handled. *)
Lemma missing_node_passes_startup :
  module_init Demo.world_missing_node
  = Ok (Demo.settings0, Demo.state_with Demo.config_missing_node) /\
  fst (handle_call_tool Demo.world_missing_node Demo.settings0 10%nat
         "image_generate" Demo.request
         (Demo.state_with Demo.config_missing_node))
  = Return [{| type_ := "text"; text := "Error generating image: '99'" |}].
Proof. split; vm_compute; reflexivity. Qed.

(** C2, amended, in the demo world with node "99" listed and absent. *)
Lemma missing_node_found_at_request_witness :
  (exists cfg0 st0 config',
      module_init Demo.world_missing_node = Ok (cfg0, st0) /\
      workflow_data st0 = Demo.workflow /\
      config_data st0 = VDict config' /\
      forall k, k <> aspect_ratios_key ->
                dict_lookup k config'
                = dict_lookup k
                    [("image_size_nodes", VList [VStr "99"]);
                     ("seed_nodes", VList [VStr "25"]);
                     ("prompt_nodes", VList [VStr "6"]);
                     ("save_image_node", VStr "9")]) /\
  (exists e st',
      comfyui_generate_image Demo.world_missing_node Demo.settings0 10%nat
        (call_prompt Demo.request) (call_title Demo.request)
        (call_aspect_ratio Demo.request)
        (Demo.state_with Demo.config_missing_node)
      = (Raise e, st') /\
      requests st' = requests (Demo.state_with Demo.config_missing_node) /\
      handle_call_tool Demo.world_missing_node Demo.settings0 10%nat
        "image_generate" Demo.request
        (Demo.state_with Demo.config_missing_node)
      = (Return [{| type_ := "text";
                    text := "Error generating image: "
                            ++ str_exn Demo.world_missing_node e |}], st')).
Proof.
  split.
  - apply (proj1 (missing_node_found_at_request Demo.world_missing_node
                    Demo.settings0)).
    + vm_compute. reflexivity.
    + reflexivity.
    + reflexivity.
  - apply (proj1 (proj2 (missing_node_found_at_request
                           Demo.world_missing_node Demo.settings0))
             10%nat Demo.request (Demo.state_with Demo.config_missing_node)
             _ _ image_size_nodes_key [VStr "99"] "99" eq_refl eq_refl).
    + left. reflexivity.
    + reflexivity.
    + left. reflexivity.
    + reflexivity.
Defined.

(** C3, counterexample: the image is written, the disk then refuses the
    prompt file, and the call returns an error text, not the reference
    string the pipeline had produced. *)
Lemma sidecar_failure_changes_outcome :
  fst (comfyui_generate_image Demo.world_no_sidecar Demo.settings0 10%nat
         (VStr "a red fox") (VStr "Red Fox") (VStr "tall") Demo.state0)
  = Return (Some "2025-01-01_12:00:00_Red-Fox_flux.png",
            "![Red Fox](http://host/view/2025-01-01_12:00:00_Red-Fox_flux.png)")
  /\
  dict_lookup "./output/2025-01-01_12:00:00_Red-Fox_flux.png"
    (files (snd (handle_call_tool Demo.world_no_sidecar Demo.settings0 10%nat
                   "image_generate" Demo.request Demo.state0)))
  = Some (PngFile (Image Demo.png)) /\
  fst (handle_call_tool Demo.world_no_sidecar Demo.settings0 10%nat
         "image_generate" Demo.request Demo.state0)
  = Return [{| type_ := "text";
               text := "Error generating image: No space left on device" |}] /\
  fst (handle_call_tool Demo.world_no_sidecar Demo.settings0 10%nat
         "image_generate" Demo.request Demo.state0)
  <> Return [{| type_ := "text";
                text :=
      "![Red Fox](http://host/view/2025-01-01_12:00:00_Red-Fox_flux.png)" |}].
Proof.
  split; [vm_compute; reflexivity|]. split; [vm_compute; reflexivity|].
  split; [vm_compute; reflexivity|]. vm_compute. discriminate.
Qed.

(** C3, amended, in the demo world whose disk refuses the prompt file. *)
Lemma sidecar_failure_becomes_error_text_witness :
  handle_call_tool Demo.world_no_sidecar Demo.settings0 10%nat "image_generate"
    Demo.request Demo.state0
  = (Return [{| type_ := "text";
                text := "Error generating image: No space left on device" |}],
     snd (comfyui_generate_image Demo.world_no_sidecar Demo.settings0 10%nat
            (VStr "a red fox") (VStr "Red Fox") (VStr "tall") Demo.state0)).
Proof.
  apply (sidecar_failure_becomes_error_text Demo.world_no_sidecar
           Demo.settings0 10%nat Demo.request Demo.state0
           (snd (comfyui_generate_image Demo.world_no_sidecar Demo.settings0 10%nat
                   (VStr "a red fox") (VStr "Red Fox") (VStr "tall")
                   Demo.state0))
           (snd (comfyui_generate_image Demo.world_no_sidecar Demo.settings0 10%nat
                   (VStr "a red fox") (VStr "Red Fox") (VStr "tall")
                   Demo.state0))
           "2025-01-01_12:00:00_Red-Fox_flux.png"
           "![Red Fox](http://host/view/2025-01-01_12:00:00_Red-Fox_flux.png)"
           (OSError "No space left on device")).
  - vm_compute. reflexivity.
  - vm_compute. reflexivity.
Defined.

(** C4, counterexample: a terminal history in which no images list
    exists for the save node because the history has no [outputs] at
    all.  The pipeline does not end with its no-output result: line 188
    raises KeyError, and the caller reads "Error generating image:
    'outputs'". *)
Lemma missing_outputs_is_a_key_error :
  (exists history,
      get_history_response Cases.world_no_outputs 1 (VStr "abc")
      = Ok history /\
      job_terminal (VStr "abc") history /\
      py_getitem history (VStr "abc")
      = Ok (VDict [("status", VStr "error")])) /\
  fst (comfyui_generate_image Cases.world_no_outputs Demo.settings0 10%nat
         (call_prompt Demo.request) (call_title Demo.request)
         (call_aspect_ratio Demo.request) Demo.state0)
  = Raise (KeyError (VStr "outputs")) /\
  fst (handle_call_tool Cases.world_no_outputs Demo.settings0 10%nat
         "image_generate" Demo.request Demo.state0)
  = Return [{| type_ := "text";
               text := "Error generating image: 'outputs'" |}] /\
  fst (handle_call_tool Cases.world_no_outputs Demo.settings0 10%nat
         "image_generate" Demo.request Demo.state0)
  <> Return [{| type_ := "text";
                text := "Unspecified error. No image generated." |}].
Proof.
  split; [|split; [|split]].
  - eexists. split; [reflexivity|]. split; [|reflexivity].
    exists (VDict [("status", VStr "error")]), (VBool false).
    repeat split; reflexivity.
  - vm_compute. reflexivity.
  - vm_compute. reflexivity.
  - vm_compute. discriminate.
Qed.

(** C4, amended, in the demo world where only the preview node has an
    image, and in the one whose history has no outputs. *)
Lemma no_image_without_save_node_output_witness :
  (exists st3,
     comfyui_generate_image Demo.world_no_save_image Demo.settings0 10%nat
       (call_prompt Demo.request) (call_title Demo.request)
       (call_aspect_ratio Demo.request) Demo.state0
     = (Return (None, "Unspecified error. No image generated."), st3) /\
     handle_call_tool Demo.world_no_save_image Demo.settings0 10%nat
       "image_generate" Demo.request Demo.state0
     = (Return [{| type_ := "text";
                   text := "Unspecified error. No image generated." |}],
        st3) /\
     files st3 = files Demo.state0) /\
  (exists st3,
     handle_call_tool Cases.world_no_outputs Demo.settings0 10%nat
       "image_generate" Demo.request Demo.state0
     = (Return [{| type_ := "text";
                   text := "Error generating image: 'outputs'" |}], st3)).
Proof.
  split.
  - set (W := Demo.world_no_save_image).
    set (s1 := snd (submit_job W (call_prompt Demo.request)
                      (call_aspect_ratio Demo.request) Demo.state0)).
    set (s2 := snd (wait_for_completion W 10%nat (VStr "abc") s1)).
    exists (snd (retrieve_images W (VStr "abc") s2)).
    apply (proj1 (no_image_without_save_node_output W Demo.settings0 10%nat
                    Demo.request Demo.state0 s1 s2 (VStr "abc")
                    (VDict [("abc",
                             VDict [("outputs", Demo.other_node_outputs)])])
                    (VDict [("outputs", Demo.other_node_outputs)])
                    (VStr "9")
                    ltac:(vm_compute; reflexivity)
                    ltac:(vm_compute; reflexivity)
                    ltac:(vm_compute; reflexivity)
                    eq_refl eq_refl)
             [("8", VDict [("images",
                     VList [VDict [("filename", VStr "preview.png");
                                   ("subfolder", VStr "");
                                   ("type", VStr "temp")]])]);
              ("9", VDict [("images", VList [])])]
             [(VStr "8", [Demo.png]); (VStr "9", [])]
             (snd (retrieve_images W (VStr "abc") s2))).
    + reflexivity.
    + right. split; [reflexivity|]. exists (VList []). split; reflexivity.
    + vm_compute. reflexivity.
  - set (W := Cases.world_no_outputs).
    set (s1 := snd (submit_job W (call_prompt Demo.request)
                      (call_aspect_ratio Demo.request) Demo.state0)).
    set (s2 := snd (wait_for_completion W 10%nat (VStr "abc") s1)).
    exists (sent s2).
    apply (proj2 (proj2 (no_image_without_save_node_output W Demo.settings0
                           10%nat Demo.request Demo.state0 s1 s2 (VStr "abc")
                           (VDict [("abc",
                                    VDict [("status", VStr "error")])])
                           (VDict [("status", VStr "error")])
                           (VStr "9")
                           ltac:(vm_compute; reflexivity)
                           ltac:(vm_compute; reflexivity)
                           ltac:(vm_compute; reflexivity)
                           eq_refl eq_refl))
             [("status", VStr "error")] eq_refl eq_refl).
Defined.

(** C5 for "tall", for the empty alias and for a missing one. *)
Lemma resolver_pairs_witness :
  resolve_size (VStr "tall") Demo.state0
  = (Return (VInt 864, VInt 1152), Demo.state0) /\
  resolve_size (VStr "") Demo.state0
  = (Return (VInt 1024, VInt 1024), Demo.state0) /\
  resolve_size VNone Demo.state0
  = (Return (VInt 1024, VInt 1024), Demo.state0).
Proof.
  assert (Hsquare : configured_pair Demo.state0 "1:1" (VInt 1024) (VInt 1024)).
  { eexists _, _. split; [reflexivity|]. split; reflexivity. }
  split; [|split].
  - apply (proj1 (resolver_pairs Demo.state0 (VInt 864) (VInt 1152))
             "tall" "3:4").
    + unfold alias_table. cbn [In]. repeat (first [left; reflexivity | right]).
    + eexists _, _. split; [reflexivity|]. split; reflexivity.
  - apply (proj1 (proj2 (resolver_pairs Demo.state0 (VInt 1024) (VInt 1024)))
             "").
    + intros ratio H. unfold alias_table in H. cbn [In] in H.
      repeat (destruct H as [H|H]; [discriminate H|]). exact H.
    + exact Hsquare.
  - apply (proj2 (proj2 (resolver_pairs Demo.state0 (VInt 1024) (VInt 1024)))).
    exact Hsquare.
Defined.

(** C7 for a workflow with three seed nodes, the third with both
    fields: four fields, four draws, four different seeds, each the
    reduction of its own draw. *)
Lemma seeds_in_range_one_draw_each_witness :
  exists st',
    set_seeds Cases.world_draws Cases.state_seeds = (Return tt, st') /\
    uuids st' = 4%nat /\
    read_input st' (VStr "3") "seed" = Ok (VInt 6703205376) /\
    read_input st' (VStr "25") "noise_seed" = Ok (VInt 4114508800) /\
    read_input st' (VStr "30") "seed" = Ok (VInt 1525812224) /\
    read_input st' (VStr "30") "noise_seed" = Ok (VInt 8937115648) /\
    reduce_seed 12345678901 = 2345678901.
Proof.
  set (st' := snd (set_seeds Cases.world_draws Cases.state_seeds)).
  assert (Hrun : set_seeds Cases.world_draws Cases.state_seeds
                 = (Return tt, st')) by (vm_compute; reflexivity).
  assert (Hnd : NoDup [VStr "3"; VStr "25"; VStr "30"]).
  { repeat constructor; cbn [In]; intros H;
      repeat (destruct H as [H|H]; [discriminate H|]); exact H. }
  destruct (proj2 (proj2 (proj2 (proj2
              (seeds_in_range_one_draw_each Cases.world_draws))))
              Cases.state_seeds st' _ _ [VStr "3"; VStr "25"; VStr "30"]
              eq_refl eq_refl eq_refl Hnd Hrun) as [Hu H].
  exists st'. split; [exact Hrun|]. split; [exact Hu|].
  destruct (H 0%nat (VStr "3") "seed" eq_refl) as (s0 & R0 & E0 & _).
  destruct (H 1%nat (VStr "25") "noise_seed" eq_refl) as (s1 & R1 & E1 & _).
  destruct (H 2%nat (VStr "30") "seed" eq_refl) as (s2 & R2 & E2 & _).
  destruct (H 3%nat (VStr "30") "noise_seed" eq_refl) as (s3 & R3 & E3 & _).
  rewrite R0, R1, R2, R3, E0, E1, E2, E3.
  do 4 (split; [vm_compute; reflexivity|]).
  rewrite (proj1 (proj2 (seeds_in_range_one_draw_each Cases.world_draws))
             12345678901).
  - reflexivity.
  - vm_compute. split; [discriminate|reflexivity].
Defined.

(** C8 in the demo world: unknown, processing, then finished. *)
Lemma poller_exits_only_when_terminal_witness :
  wait_for_completion Demo.world_ok 5 (VStr "abc") Demo.state_submitted
  = (Return tt, polled Demo.state_submitted 2) /\
  exists k,
    (k < 5)%nat /\
    timeline (polled Demo.state_submitted 2)
    = (timeline Demo.state_submitted
         ++ rounds (requests Demo.state_submitted) k
         ++ [Sent (requests Demo.state_submitted + k)])%list /\
    exists history,
      get_history_response Demo.world_ok (requests Demo.state_submitted + k)
        (VStr "abc") = Ok history /\
      job_terminal (VStr "abc") history.
Proof.
  split.
  - apply (proj2 (poller_exits_only_when_terminal Demo.world_ok 5
                    (VStr "abc") Demo.state_submitted) 2%nat).
    + lia.
    + intros [|[|i]] Hi; [| |lia].
      * exists (VDict []). split; [reflexivity|]. left. reflexivity.
      * eexists. split; [reflexivity|]. right.
        exists (VDict [("is_processing", VBool true)]), (VBool true).
        repeat split; reflexivity.
    + eexists. split; [reflexivity|].
      exists (VDict [("outputs", Demo.save_node_outputs)]), (VBool false).
      repeat split; reflexivity.
  - destruct (proj1 (poller_exits_only_when_terminal Demo.world_ok 5
                       (VStr "abc") Demo.state_submitted)
                (polled Demo.state_submitted 2))
      as (k & Hk & _ & Hslept & _ & _ & Hlast).
    + vm_compute. reflexivity.
    + exists k. split; [exact Hk|]. split; [exact Hslept|exact Hlast].
Defined.




(** C10 for the tool name "image_resize". *)
Lemma unknown_tool_text_witness :
  "image_resize" <> "image_generate" /\
  handle_call_tool Demo.world_ok Demo.settings0 10%nat "image_resize"
    Demo.request Demo.state0
  = (Return [{| type_ := "text"; text := "Unknown tool: image_resize" |}],
     Demo.state0).
Proof.
  split; [discriminate|].
  apply (unknown_tool_text Demo.world_ok Demo.settings0 10%nat "image_resize").
  discriminate.
Defined.

(** * Further properties, at concrete inputs *)

(** X1 for the draw 2^100 + 1. *)
Lemma seed_is_multiple_of_1024_witness :
  2 ^ 63 <= 2 ^ 100 + 1 /\ reduce_seed (2 ^ 100 + 1) mod 1024 = 0.
Proof.
  assert (H : 2 ^ 63 <= 2 ^ 100 + 1) by (vm_compute; discriminate).
  split; [exact H|]. exact (seed_is_multiple_of_1024 (2 ^ 100 + 1) H).
Defined.

(** X2 without any variable set, and in the demo world. *)
Lemma startup_needs_every_variable_witness :
  module_init Cases.world_no_env
  = Err (ValueError
           ("Missing required environment variables: COMFYUI_HOST, "
            ++ "COMFYUI_PORT, OUTPUT_DIR, IMAGE_APP_BASE_URL, "
            ++ "COMFYUI_WORKFLOW_NAME. Please set these in your .env file."))
  /\ getenv Demo.world_ok "OUTPUT_DIR" = Some (output_dir Demo.settings0).
Proof.
  split.
  - apply (proj1 (startup_needs_every_variable Cases.world_no_env)).
    vm_compute. discriminate.
  - apply (proj2 (startup_needs_every_variable Demo.world_ok)
             Demo.settings0 Demo.state0).
    vm_compute. reflexivity.
Defined.

(** X3 in the demo world, whose config file has no table, and with a
    config file that holds a list. *)
Lemma startup_aspect_ratio_table_witness :
  (exists d d' table,
     yaml_safe_load Demo.world_ok (config_yaml_path Demo.world_ok)
     = Ok (VDict d) /\
     config_data Demo.state0 = VDict d' /\
     dict_lookup aspect_ratios_key d' = Some table /\
     truthy table = true /\
     (forall k, k <> aspect_ratios_key ->
                dict_lookup k d' = dict_lookup k d) /\
     table = match dict_lookup aspect_ratios_key d with
             | Some own => if truthy own then own else default_aspect_ratios
             | None => default_aspect_ratios
             end) /\
  exists e, module_init Cases.world_list_config = Err e.
Proof.
  split.
  - apply (proj1 (startup_aspect_ratio_table Demo.world_ok)
             Demo.settings0 Demo.state0).
    vm_compute. reflexivity.
  - apply (proj2 (startup_aspect_ratio_table Cases.world_list_config)
             (VList [VStr "image_size_nodes"])).
    + reflexivity.
    + intros d. discriminate.
Defined.

(** X4 for the alias "widest". *)
Lemma resolver_total_on_default_table_witness :
  exists width height,
    resolve_size (VStr "widest") Demo.state0
    = (Return (VInt width, VInt height), Demo.state0) /\
    0 < width /\ 0 < height /\
    ((forall ratio, ~ In ("widest", ratio) alias_table) ->
     width = 1024 /\ height = 1024).
Proof.
  eapply (resolver_total_on_default_table Demo.state0); reflexivity.
Defined.

(** X5 with a table that has neither "1:1" nor a well-formed "4:3". *)
Lemma resolver_failures_witness :
  resolve_size (VList []) Demo.state0 = (Raise unhashable, Demo.state0) /\
  resolve_size (VStr "portrait") Cases.state_own_table
  = (Raise (KeyError (VStr "1:1")), Cases.state_own_table) /\
  exists msg,
    resolve_size (VStr "wide") Cases.state_own_table
    = (Raise (ValueError msg), Cases.state_own_table).
Proof.
  split; [|split].
  - apply (proj1 (resolver_failures Demo.state0)). reflexivity.
  - apply (proj1 (proj2 (resolver_failures Cases.state_own_table))
             (VStr "portrait") false "1:1" Cases.own_config Cases.own_table);
      reflexivity.
  - apply (proj2 (proj2 (resolver_failures Cases.state_own_table))
             (VStr "wide") true "4:3" Cases.own_config Cases.own_table
             [VInt 800]);
      try reflexivity.
    cbn. lia.
Defined.

(** X6 with an engine whose history endpoint breaks at the third query:
    two pending answers, then the failure. *)
Lemma poller_propagates_query_failure_witness :
  exists st1,
    submit_job Cases.world_history_breaks (call_prompt Demo.request)
      (call_aspect_ratio Demo.request) Demo.state0
    = (Return (VStr "abc"), st1) /\
    handle_call_tool Cases.world_history_breaks Demo.settings0 5
      "image_generate" Demo.request Demo.state0
    = (Return [{| type_ := "text";
                  text := "Error generating image: Connection refused" |}],
       polled st1 2).
Proof.
  set (st1 := snd (submit_job Cases.world_history_breaks
                     (call_prompt Demo.request)
                     (call_aspect_ratio Demo.request) Demo.state0)).
  assert (Hsub :
    submit_job Cases.world_history_breaks (call_prompt Demo.request)
      (call_aspect_ratio Demo.request) Demo.state0
    = (Return (VStr "abc"), st1)) by (vm_compute; reflexivity).
  exists st1. split; [exact Hsub|].
  apply (proj2 (poller_propagates_query_failure Cases.world_history_breaks
                  Demo.settings0 5 Demo.request Demo.state0 st1 (VStr "abc")
                  2 (OSError "Connection refused") Hsub ltac:(lia)
                  ltac:(intros [|[|i]] Hi; [| |lia];
                        (eexists; split; [reflexivity|]; right;
                         exists (VDict [("is_processing", VBool true)]),
                           (VBool true);
                         repeat split; reflexivity))
                  ltac:(reflexivity))).
Defined.

(** X7 with an engine that reports the job as processing for ever: four
    iterations observed, four queries and four sleeps, no answer. *)
Lemma poller_has_no_timeout_witness :
  exists st1,
    submit_job Cases.world_never_done (call_prompt Demo.request)
      (call_aspect_ratio Demo.request) Demo.state0
    = (Return (VStr "abc"), st1) /\
    handle_call_tool Cases.world_never_done Demo.settings0 4
      "image_generate" Demo.request Demo.state0
    = (Running, waited st1 4) /\
    timeline (waited st1 4)
    = [Sent 0; Sent 1; Slept 1; Sent 2; Slept 1; Sent 3; Slept 1;
       Sent 4; Slept 1].
Proof.
  set (st1 := snd (submit_job Cases.world_never_done
                     (call_prompt Demo.request)
                     (call_aspect_ratio Demo.request) Demo.state0)).
  assert (Hsub :
    submit_job Cases.world_never_done (call_prompt Demo.request)
      (call_aspect_ratio Demo.request) Demo.state0
    = (Return (VStr "abc"), st1)) by (vm_compute; reflexivity).
  exists st1. split; [exact Hsub|].
  destruct (poller_has_no_timeout Cases.world_never_done Demo.settings0 4
              Demo.request Demo.state0 st1 (VStr "abc") Hsub) as (_ & _ & H).
  - intros i Hi. eexists. split; [reflexivity|]. right.
    exists (VDict [("is_processing", VBool true)]), (VBool true).
    repeat split; reflexivity.
  - split; [exact H|]. vm_compute. reflexivity.
Defined.

(** X8 with an engine that refuses the job, and with one that answers
    without a job id. *)
Lemma submission_failure_one_request_witness :
  (exists sB,
     handle_call_tool Cases.world_post_refused Demo.settings0 5
       "image_generate" Demo.request Demo.state0
     = (Return [{| type_ := "text";
                   text :=
                     "Error generating image: HTTP Error 400: Bad Request" |}],
        sent sB) /\
     requests (sent sB) = 1%nat /\ timeline (sent sB) = [Sent 0] /\
     files (sent sB) = []) /\
  (exists sB,
     handle_call_tool Cases.world_no_job_id Demo.settings0 5
       "image_generate" Demo.request Demo.state0
     = (Return [{| type_ := "text";
                   text := "Error generating image: 'prompt_id'" |}], sent sB)).
Proof.
  split.
  - set (sB := snd (build_payload Cases.world_post_refused
                      (call_prompt Demo.request)
                      (call_aspect_ratio Demo.request) Demo.state0)).
    exists sB.
    apply (submission_failure_one_request Cases.world_post_refused
             Demo.settings0 5 Demo.request Demo.state0 sB
             "0c0ffee0-0000-4000-8000-000000000000"
             (OSError "HTTP Error 400: Bad Request")).
    + vm_compute. reflexivity.
    + left. reflexivity.
  - set (sB := snd (build_payload Cases.world_no_job_id
                      (call_prompt Demo.request)
                      (call_aspect_ratio Demo.request) Demo.state0)).
    exists sB.
    apply (proj1 (submission_failure_one_request Cases.world_no_job_id
                    Demo.settings0 5 Demo.request Demo.state0 sB
                    "0c0ffee0-0000-4000-8000-000000000000"
                    (KeyError (VStr "prompt_id"))
                    ltac:(vm_compute; reflexivity)
                    ltac:(right; eexists; split; reflexivity))).
Defined.

(** X9 in the demo process, for the size 864 x 1152: node 5 gets both,
    its [batch_size] stays, and the prompt node 6 gets no [width]. *)
Lemma size_written_into_existing_fields_witness :
  exists st',
    set_image_size (VInt 864) (VInt 1152) Demo.state0 = (Return tt, st') /\
    read_input st' (VStr "5") "width" = Ok (VInt 864) /\
    read_input st' (VStr "5") "height" = Ok (VInt 1152) /\
    read_input st' (VStr "5") "batch_size" = Ok (VInt 1) /\
    has_field st' (VStr "6") "width" = false.
Proof.
  set (st' := snd (set_image_size (VInt 864) (VInt 1152) Demo.state0)).
  exists st'.
  assert (Hrun : set_image_size (VInt 864) (VInt 1152) Demo.state0
                 = (Return tt, st')) by (vm_compute; reflexivity).
  destruct (size_written_into_existing_fields (VInt 864) (VInt 1152)
              Demo.state0 st' _ _ [VStr "5"] eq_refl eq_refl eq_refl Hrun)
    as (Hread & Hhas & _).
  split; [exact Hrun|].
  rewrite !Hread, Hhas. repeat split; reflexivity.
Defined.

(** X10 in the demo process: after the payload is built for the demo
    request the template has its four nodes, node 9 is still a SaveImage
    node, and the batch size of node 5 is still 1. *)
Lemma payload_builder_touches_five_inputs_witness :
  exists sB wf',
    build_payload Demo.world_ok (call_prompt Demo.request)
      (call_aspect_ratio Demo.request) Demo.state0
    = (Return "0c0ffee0-0000-4000-8000-000000000000", sB) /\
    workflow_data sB = VDict wf' /\
    dict_keys wf' = ["5"; "6"; "25"; "9"] /\
    node_entry sB (VStr "9") "class_type" = Ok (VStr "SaveImage") /\
    read_input sB (VStr "5") "batch_size" = Ok (VInt 1) /\
    requests sB = 0%nat /\ files sB = [].
Proof.
  destruct (payload_builder_touches_five_inputs Demo.world_ok
              (call_prompt Demo.request) (call_aspect_ratio Demo.request)
              Demo.state0 _ eq_refl)
    as (_ & (_ & Hreq & _ & _ & Hfiles) & wf' & Hwf' & Hkeys & Hentry & Hin).
  eexists _, wf'. split; [vm_compute; reflexivity|].
  split; [exact Hwf'|]. split; [exact Hkeys|].
  split; [rewrite Hentry; [reflexivity|discriminate]|].
  split; [|split; [exact Hreq|exact Hfiles]].
  destruct (Hin (VStr "5") "batch_size") as [Hread _]; [|exact Hread].
  cbn [In]. intros [H|[H|[H|[H|[H|[]]]]]]; discriminate H.
Defined.

(** X11 for thirty files: three pages, the third with six names. *)
Lemma pages_partition_the_listing_witness :
  ImageHost.total_pages HostCases.thirty_files = 3 /\
  ImageHost.paginated_files HostCases.thirty_files 3 <> [] /\
  List.length (ImageHost.paginated_files HostCases.thirty_files 2) = 12%nat.
Proof.
  split; [reflexivity|].
  destruct (pages_partition_the_listing HostCases.thirty_files)
    as (_ & _ & Hsome & Hfull).
  split.
  - apply Hsome. vm_compute. split; discriminate.
  - apply Hfull. vm_compute. split; [discriminate|reflexivity].
Defined.

(** X12 for thirty files: page 4 and page 0 are empty, page -1 shows
    the names 7 to 18 of the listing, page -2 the first six, page -3
    nothing. *)
Lemma pages_out_of_range_witness :
  ImageHost.paginated_files HostCases.thirty_files 4 = [] /\
  ImageHost.paginated_files HostCases.thirty_files 0 = [] /\
  ImageHost.paginated_files HostCases.thirty_files (-1)
  = firstn 12 (skipn 6 HostCases.thirty_files) /\
  List.length (ImageHost.paginated_files HostCases.thirty_files (-2))
  = 6%nat /\
  ImageHost.paginated_files HostCases.thirty_files (-2)
  = firstn 6 HostCases.thirty_files /\
  ImageHost.paginated_files HostCases.thirty_files (-3) = [].
Proof.
  split; [|split; [|split; [|split; [|split]]]].
  - apply (proj1 (pages_out_of_range HostCases.thirty_files 4)).
    right. vm_compute. reflexivity.
  - apply (proj1 (pages_out_of_range HostCases.thirty_files 0)).
    left. reflexivity.
  - apply (proj1 (proj2 (proj2 (pages_out_of_range HostCases.thirty_files
                                  (-1))))).
    + reflexivity.
    + vm_compute. discriminate.
  - rewrite (proj2 (proj1 (proj2 (pages_out_of_range HostCases.thirty_files
                                    (-2))) eq_refl)).
    reflexivity.
  - rewrite (proj1 (proj1 (proj2 (pages_out_of_range HostCases.thirty_files
                                    (-2))) eq_refl)).
    vm_compute. reflexivity.
  - apply (proj2 (proj2 (proj2 (pages_out_of_range HostCases.thirty_files
                                  (-3))))).
    + reflexivity.
    + vm_compute. discriminate.
Defined.

(** X13 for page 5 of 10. *)
Lemma page_bar_shows_where_you_are_witness :
  ImageHost.pagination 5 10
  = [ImageHost.Previous 4; ImageHost.Link 1; ImageHost.Gap;
     ImageHost.Link 4; ImageHost.Current 5; ImageHost.Link 6;
     ImageHost.Gap; ImageHost.Link 10; ImageHost.Next 6] /\
  filter ImageHost.is_current (ImageHost.pagination 5 10)
  = [ImageHost.Current 5] /\
  In (ImageHost.Link 10) (ImageHost.pagination 5 10).
Proof.
  split; [reflexivity|].
  assert (H : 1 <= 5 <= 10) by lia.
  destruct (page_bar_shows_where_you_are 5 10 H) as (Hcur & _ & Hlink & _).
  split; [exact Hcur|].
  apply Hlink; lia.
Defined.

(** X15 for a directory with three images, a prompt file, a note and
    the thumbnail directory: the first item of page 1, and the prompt
    file. *)
Lemma gallery_items_pass_both_guards_witness :
  (exists f,
     In f HostCases.directory /\
     ImageHost.href (ImageHost.make_item "scan.PNG") = "/view/" ++ f /\
     ImageHost.src (ImageHost.make_item "scan.PNG") = "/thumb/" ++ f /\
     ImageHost.view_file "output" f
     = ImageHost.SendFromDirectory "output" f /\
     ImageHost.serve_thumbnail "output" f
     = ImageHost.SendFromDirectory "output/thumbnails" f) /\
  ImageHost.view_file "output" "2025-01-01_12:00:00_Red-Fox_flux.txt"
  = ImageHost.Abort 400 "Only PNG files are allowed".
Proof.
  split.
  - apply (proj1 (gallery_items_pass_both_guards "output"
                    HostCases.directory)
             1 (ImageHost.make_item "scan.PNG")).
    vm_compute. left. reflexivity.
  - apply (proj2 (gallery_items_pass_both_guards "output"
                    HostCases.directory)
             "2025-01-01_12:00:00_Red-Fox_flux.txt").
    + right. left. reflexivity.
    + vm_compute. intros [H|[H|[H|[]]]]; discriminate H.
Defined.

(** X16 for a name without special characters. *)
Lemma safe_filename_is_one_pass_escape_witness :
  ImageHost.safe_filename "R&D <draft>.png" = "R&amp;D &lt;draft&gt;.png" /\
  ImageHost.safe_filename "scan.PNG" = "scan.PNG".
Proof.
  split; [reflexivity|].
  apply (proj2 (proj2 (proj2 (safe_filename_is_one_pass_escape "scan.PNG"))));
    reflexivity.
Defined.
